(** * bandeco: a verification development

    A shallow embedding of [src/bandeco.py], the command line client that
    fetches the weekly menu of a university restaurant and caches it per
    calendar week, together with the properties its specification states.

    The embedding follows the program: Python [str] values are lists of
    code points, Python [int] values are [Z], [dict] values are finite maps,
    a raised exception is the [Raise] branch of a result type, and the
    effects of [main] (standard output, the HTTP request, the cache files)
    are threaded through an explicit world.  The diagnostics [eprint]
    writes to standard error in verbose mode are left out.

    Library calls are modelled from the behaviour of CPython 3.12 on Linux
    in the C locale, which the program never changes. *)

From Stdlib Require Import ZArith NArith List Lia Bool Ascii String.
From Stdlib Require Import DecimalN DecimalFacts QArith.
From stdpp Require Import gmap.

Local Open Scope Z_scope.

(* ===================================================================== *)
(** * Python values *)
(* ===================================================================== *)

(** A Python [str] is a sequence of Unicode code points. *)
Abbreviation pystr := (list N) (only parsing).

(** The code points of an ASCII literal of the program text. *)
Definition py (s : string) : pystr :=
  List.map N_of_ascii (list_ascii_of_string s).

(** The exceptions the program and the library calls it makes can raise.
    All of them are subclasses of Python's [Exception]. *)
Inductive exn : Type :=
| ValueError (msg : string)
| KeyError (key : pystr)
| IndexError (msg : string)
| OverflowError (msg : string)
| UnicodeDecodeError (msg : string)
| UnicodeEncodeError (msg : string)
| OSError (msg : string)
| UnpicklingError (msg : string)
| RequestException (msg : string).

(** The outcome of evaluating a Python expression: a value or a raised
    exception. *)
Inductive result (A : Type) : Type :=
| Ok (a : A)
| Raise (e : exn).
Arguments Ok {A} a.
Arguments Raise {A} e.

(** Sequencing: an exception raised by the first computation propagates. *)
#[global] Instance result_bind : MBind result := fun A B k r =>
  match r with
  | Ok a => k a
  | Raise e => Raise e
  end.
#[global] Instance result_ret : MRet result := fun A a => Ok a.

(** [try: body  except Exception: handler]. *)
Definition try_except {A} (body : result A) (handler : exn -> result A)
  : result A :=
  match body with
  | Ok a => Ok a
  | Raise e => handler e
  end.

Definition is_ok {A} (r : result A) : bool :=
  match r with Ok _ => true | Raise _ => false end.

(* ===================================================================== *)
(** * Strings *)
(* ===================================================================== *)

Definition str_eqb (a b : pystr) : bool := bool_decide (a = b).

Fixpoint startswith (s prefix : pystr) {struct prefix} : bool :=
  match prefix, s with
  | [], _ => true
  | p :: prefix', c :: s' => (p =? c)%N && startswith s' prefix'
  | _ :: _, [] => false
  end.

(** [s.endswith(suffix)] *)
Definition endswith (s suffix : pystr) : bool :=
  startswith (rev s) (rev suffix).

(** [str(n)] for a non-negative [int]: its decimal digits. *)
Fixpoint digits_of_uint (d : Decimal.uint) : pystr :=
  match d with
  | Decimal.Nil => []
  | Decimal.D0 d => 48%N :: digits_of_uint d
  | Decimal.D1 d => 49%N :: digits_of_uint d
  | Decimal.D2 d => 50%N :: digits_of_uint d
  | Decimal.D3 d => 51%N :: digits_of_uint d
  | Decimal.D4 d => 52%N :: digits_of_uint d
  | Decimal.D5 d => 53%N :: digits_of_uint d
  | Decimal.D6 d => 54%N :: digits_of_uint d
  | Decimal.D7 d => 55%N :: digits_of_uint d
  | Decimal.D8 d => 56%N :: digits_of_uint d
  | Decimal.D9 d => 57%N :: digits_of_uint d
  end.

Definition str_of_nonneg (n : Z) : pystr :=
  digits_of_uint (N.to_uint (Z.to_N n)).

(** [str(n)] / [f"{n}"] for an [int]. *)
Definition str_of_int (n : Z) : pystr :=
  if n <? 0 then 45%N :: str_of_nonneg (- n) else str_of_nonneg n.

(** [f"{n:02}"]: at least two characters, a zero put in front of a
    single digit.  C's [%02d], which [strftime] uses for [%W], agrees with
    it. *)
Definition format_02 (n : Z) : pystr :=
  if (0 <=? n) && (n <? 10) then 48%N :: str_of_int n else str_of_int n.


(** [s.replace(old, new)]: every occurrence of [old], scanning from the
    left and without overlap.  [skip] counts the characters of an
    occurrence that are still to be passed over. *)
Fixpoint replace_from (old new : pystr) (skip : nat) (s : pystr) : pystr :=
  match s with
  | [] => []
  | c :: s' =>
      match skip with
      | S k => replace_from old new k s'
      | O =>
          if startswith s old
          then new ++ replace_from old new (length old - 1) s'
          else c :: replace_from old new 0 s'
      end
  end.

Definition replace (s old new : pystr) : pystr :=
  match old with
  | [] => new ++ flat_map (fun c => c :: new) s
  | _ :: _ => replace_from old new 0 s
  end.

Definition BACKSLASH : N := 92.
Definition NEWLINE : N := 10.

(** [s.encode()]: UTF-8.  Lone surrogates cannot be encoded. *)
Definition utf8_encode_char (c : N) : result (list N) :=
  (if c <? 128 then Ok [c]
   else if c <? 2048 then Ok [192 + c / 64; 128 + c mod 64]
   else if c <? 65536 then
     if (55296 <=? c) && (c <=? 57343)
     then Raise (UnicodeEncodeError "surrogates not allowed")
     else Ok [224 + c / 4096; 128 + (c / 64) mod 64; 128 + c mod 64]
   else Ok [240 + c / 262144; 128 + (c / 4096) mod 64;
            128 + (c / 64) mod 64; 128 + c mod 64])%N.

Fixpoint encode (s : pystr) : result (list N) :=
  match s with
  | [] => Ok []
  | c :: s' =>
      b ← utf8_encode_char c;
      bs ← encode s';
      Ok (b ++ bs)
  end.

Definition is_octal (c : N) : bool := ((48 <=? c) && (c <=? 55))%N.

Definition hex_value (c : N) : option N :=
  (if (48 <=? c) && (c <=? 57) then Some (c - 48)
   else if (97 <=? c) && (c <=? 102) then Some (c - 87)
   else if (65 <=? c) && (c <=? 70) then Some (c - 55)
   else None)%N.

(** Put a decoded character in front of the decoding of the rest. *)
Definition emit {A} (c : A) (r : result (list A)) : result (list A) :=
  match r with
  | Ok l => Ok (c :: l)
  | Raise e => Raise e
  end.

Definition MAX_UNICODE : N := 1114111.

(* ===================================================================== *)
(** * [datetime.date] *)
(* ===================================================================== *)

Module datetime.

Definition MINYEAR : Z := 1.
Definition MAXYEAR : Z := 9999.
Definition MAXORDINAL : Z := 3652059.

Record date : Type := Date { year : Z; month : Z; day : Z }.

Definition is_leap (y : Z) : bool :=
  (y mod 4 =? 0) && (negb (y mod 100 =? 0) || (y mod 400 =? 0)).

(** Number of days before January 1st of [y]. *)
Definition days_before_year (y : Z) : Z :=
  let y := y - 1 in
  y * 365 + y / 4 - y / 100 + y / 400.

Definition DAYS_IN_MONTH (m : Z) : Z :=
  match m with
  | 1 => 31 | 2 => 28 | 3 => 31 | 4 => 30 | 5 => 31 | 6 => 30
  | 7 => 31 | 8 => 31 | 9 => 30 | 10 => 31 | 11 => 30 | 12 => 31
  | _ => -1
  end.

Definition DAYS_BEFORE_MONTH (m : Z) : Z :=
  match m with
  | 1 => 0 | 2 => 31 | 3 => 59 | 4 => 90 | 5 => 120 | 6 => 151
  | 7 => 181 | 8 => 212 | 9 => 243 | 10 => 273 | 11 => 304 | 12 => 334
  | _ => -1
  end.

Definition days_in_month (y m : Z) : Z :=
  if (m =? 2) && is_leap y then 29 else DAYS_IN_MONTH m.

Definition days_before_month (y m : Z) : Z :=
  DAYS_BEFORE_MONTH m + (if (2 <? m) && is_leap y then 1 else 0).

Definition ymd2ord (y m d : Z) : Z :=
  days_before_year y + days_before_month y m + d.

(** The fields a [date] object can hold: the constructor checks them. *)
Definition valid (d : date) : bool :=
  (MINYEAR <=? year d) && (year d <=? MAXYEAR)
  && (1 <=? month d) && (month d <=? 12)
  && (1 <=? day d) && (day d <=? days_in_month (year d) (month d)).

(** [datetime.date(y, m, d)] (and the date part of
    [datetime.datetime(y, m, d)]). *)
Definition new (y m d : Z) : result date :=
  if negb ((MINYEAR <=? y) && (y <=? MAXYEAR)) then
    Raise (ValueError "year is out of range")
  else if negb ((1 <=? m) && (m <=? 12)) then
    Raise (ValueError "month must be in 1..12")
  else if negb ((1 <=? d) && (d <=? days_in_month y m)) then
    Raise (ValueError "day is out of range for month")
  else Ok (Date y m d).

Definition toordinal (d : date) : Z := ymd2ord (year d) (month d) (day d).

(** Monday is 0, Sunday is 6. *)
Definition weekday (d : date) : Z := (toordinal d + 6) mod 7.

(** Day of the year, January 1st being 1 ([tm_yday + 1]). *)
Definition yday (d : date) : Z := days_before_month (year d) (month d) + day d.

Definition DI400Y : Z := 146097.
Definition DI100Y : Z := 36524.
Definition DI4Y : Z := 1461.

Definition ord2ymd (n : Z) : date :=
  let n := n - 1 in
  let n400 := n / DI400Y in
  let n := n mod DI400Y in
  let y := n400 * 400 + 1 in
  let n100 := n / DI100Y in
  let n := n mod DI100Y in
  let n4 := n / DI4Y in
  let n := n mod DI4Y in
  let n1 := n / 365 in
  let n := n mod 365 in
  let y := y + n100 * 100 + n4 * 4 + n1 in
  if (n1 =? 4) || (n100 =? 4) then Date (y - 1) 12 31
  else
    let leapyear := (n1 =? 3) && (negb (n4 =? 24) || (n100 =? 3)) in
    let m := Z.shiftr (n + 50) 5 in
    let preceding :=
      DAYS_BEFORE_MONTH m + (if (2 <? m) && leapyear then 1 else 0) in
    let '(m, preceding) :=
      if n <? preceding then
        (m - 1,
         preceding
         - (DAYS_IN_MONTH (m - 1)
            + (if (m - 1 =? 2) && leapyear then 1 else 0)))
      else (m, preceding) in
    Date y m (n - preceding + 1).

Definition fromordinal (n : Z) : result date :=
  if (1 <=? n) && (n <=? MAXORDINAL) then Ok (ord2ymd n)
  else Raise (ValueError "ordinal must be >= 1").

(** [d + datetime.timedelta(days=n)] *)
Definition add_days (d : date) (n : Z) : result date :=
  let o := toordinal d + n in
  if (0 <? o) && (o <=? MAXORDINAL) then fromordinal o
  else Raise (OverflowError "result out of range").

(** [d - datetime.timedelta(days=n)] *)
Definition sub_days (d : date) (n : Z) : result date := add_days d (- n).

(** [%W]: week number of the year with Monday as the first day of the
    week; the days before the first Monday are in week 0. *)
Definition week_number (d : date) : Z := (yday d - 1 + 7 - weekday d) / 7.

(** [d.strftime(format)], for the directives the program uses: [%Y], the
    year, which the C library prints without padding, and [%W], two
    digits.  Any other character stands for itself. *)
Fixpoint strftime (d : date) (format : pystr) {struct format} : pystr :=
  match format with
  | [] => []
  | c :: rest =>
      if (c =? 37)%N then
        match rest with
        | [] => [c]
        | x :: rest' =>
            if (x =? 89)%N then str_of_int (year d) ++ strftime d rest'
            else if (x =? 87)%N then format_02 (week_number d) ++ strftime d rest'
            else c :: x :: strftime d rest'
        end
      else c :: strftime d rest
  end.

End datetime.
Import datetime.

(* ===================================================================== *)
(** * The week bucket *)
(* ===================================================================== *)

Definition get_week (d : date) : result pystr :=
  let week := strftime d (py "%Yw%W") in
  if endswith week (py "w00") then
    d' ← datetime.new (year d - 1) 12 31;
    Ok (strftime d' (py "%Yw%W"))
  else Ok week.

Definition cache_key (d : date) (restaurant : Z) : result pystr :=
  w ← get_week d;
  Ok (w ++ py "r" ++ format_02 restaurant).

(* ===================================================================== *)
(** * The world the program runs in *)
(* ===================================================================== *)

(** [{ 'menu': ..., 'calories': ... }], a value of the dictionary of
    entries. *)
Record menu_entry : Type := MenuEntry { menu : pystr; calories : Z }.

#[global] Instance menu_entry_eq_dec : EqDecision menu_entry.
Proof. solve_decision. Defined.

(** The objects a cache file can unpickle to. *)
Inductive pyobj : Type :=
| PyNone
| PyEntries (entries : gmap (list N) menu_entry)
| PyOther (repr : pystr).

(** The content of a file: the pickle of an object, or bytes
    [pickle.load] rejects. *)
Inductive blob : Type :=
| Pickle (o : pyobj)
| Corrupt (bytes : list N).

Record file : Type := File { readable : bool; writable : bool; content : blob }.

(** The directory [~/.cache/bandeco]. *)
Inductive dir_state : Type :=
| DirPresent (can_create_files : bool)
| DirAbsent
| DirUnavailable.

Inductive event : Type :=
| Print (line : pystr)
| HttpPost (url data : pystr)
| CacheWrite (key : pystr).

Record world : Type := World {
  (** [datetime.date.today()] *)
  today : date;
  (** [requests.post(url, data).text] *)
  remote : pystr -> pystr -> result pystr;
  cache_dir : dir_state;
  cache_files : gmap (list N) file;
  (** what the program has done so far, latest first *)
  trace : list event;
}.

(** A computation with effects on the world that may raise. *)
Definition io (A : Type) : Type := world -> result A * world.

#[global] Instance io_bind : MBind io := fun A B k m w =>
  match m w with
  | (Ok a, w') => k a w'
  | (Raise e, w') => (Raise e, w')
  end.
#[global] Instance io_ret : MRet io := fun A a w => (Ok a, w).

Definition lift {A} (r : result A) : io A := fun w => (r, w).

Definition log (e : event) : io unit := fun w =>
  (Ok tt,
   {| today := today w; remote := remote w; cache_dir := cache_dir w;
      cache_files := cache_files w; trace := e :: trace w |}).

(** [print(line)] *)
Definition print (line : pystr) : io unit := log (Print line).

(** [try: body  except Exception: handler], for a computation with
    effects: the effects of the body up to the exception stay. *)
Definition io_try_except {A} (body : io A) (handler : exn -> io A) : io A :=
  fun w =>
    match body w with
    | (Ok a, w') => (Ok a, w')
    | (Raise e, w') => handler e w'
    end.

(* ===================================================================== *)
(** * The Unicode character database *)
(* ===================================================================== *)

(** What the library calls of the program read from the Unicode character
    database about the code points outside ASCII.  The ASCII range is
    spelled out in the definitions below. *)
Record unicode_db : Type := {
  (** the digit value of a decimal digit (category Nd) *)
  ucd_decimal : N -> option Z;
  (** [str.isalnum] *)
  ucd_alnum : N -> bool;
  (** [str.isspace] *)
  ucd_space : N -> bool;
  (** the upper-case mapping of [str.upper], which may be several
      characters *)
  ucd_upper : N -> list N;
  (** [str.lower] of a string that has characters outside ASCII *)
  ucd_lower : list N -> list N;
  (** whether a character matches a literal character of a pattern
      compiled with [re.IGNORECASE], one of the two being outside ASCII *)
  ucd_ignorecase : N -> N -> bool;
  (** the code point a [\N{...}] escape names *)
  ucd_name : list N -> option N;
}.

(** A database that knows no character outside ASCII. *)
Definition ascii_db : unicode_db :=
  {| ucd_decimal := fun _ => None;
     ucd_alnum := fun _ => false;
     ucd_space := fun _ => false;
     ucd_upper := fun c => [c];
     ucd_lower := fun s => s;
     ucd_ignorecase := fun _ _ => false;
     ucd_name := fun _ => None |}.

Section Bandeco.
Context (U : unicode_db).

Definition is_ascii_digit (c : N) : bool := ((48 <=? c) && (c <=? 57))%N.
Definition is_ascii_upper (c : N) : bool := ((65 <=? c) && (c <=? 90))%N.
Definition is_ascii_lower (c : N) : bool := ((97 <=? c) && (c <=? 122))%N.

Definition decimal_value (c : N) : option Z :=
  if (c <? 128)%N then
    if is_ascii_digit c then Some (Z.of_N c - 48) else None
  else ucd_decimal U c.

(** [\d] *)
Definition isdecimal (c : N) : bool :=
  match decimal_value c with Some _ => true | None => false end.

Definition isalnum (c : N) : bool :=
  if (c <? 128)%N
  then is_ascii_digit c || is_ascii_upper c || is_ascii_lower c
  else ucd_alnum U c.

(** [\w] *)
Definition isword (c : N) : bool := isalnum c || (c =? 95)%N.

(** [\s] *)
Definition isspace (c : N) : bool :=
  if (c <? 128)%N
  then ((c =? 32) || ((9 <=? c) && (c <=? 13)) || ((28 <=? c) && (c <=? 31)))%N
  else ucd_space U c.

(** [s.upper()] *)
Definition upper_char (c : N) : pystr :=
  if (c <? 128)%N then (if is_ascii_lower c then [c - 32] else [c])%N
  else ucd_upper U c.

Definition upper (s : pystr) : pystr := flat_map upper_char s.

Definition ascii_lower_char (c : N) : N :=
  if is_ascii_upper c then (c + 32)%N else c.

(** [s.lower()] *)
Definition lower (s : pystr) : pystr :=
  if forallb (fun c => c <? 128)%N s then map ascii_lower_char s
  else ucd_lower U s.

(** [bytes.decode("unicode_escape")], with the default strict error
    handling: a byte that is not part of an escape stands for the code
    point of the same number; the escapes are those of Python string
    literals.  An unknown escape is kept as it is (the interpreter only
    warns about it). *)
Fixpoint decode_unicode_escape (s : list N) {struct s} : result pystr :=
  match s with
  | [] => Ok []
  | c :: s1 =>
      if negb (c =? BACKSLASH)%N then emit c (decode_unicode_escape s1)
      else
        match s1 with
        | [] => Raise (UnicodeDecodeError "\ at end of string")
        | c :: s2 =>
            let hexescape (count : nat) (msg : string) :=
              (fix hex (count : nat) (ch : N) (l : list N) {struct l}
                 : result pystr :=
                 match count with
                 | O =>
                     if (MAX_UNICODE <? ch)%N
                     then Raise (UnicodeDecodeError "illegal Unicode character")
                     else emit ch (decode_unicode_escape l)
                 | S count' =>
                     match l with
                     | [] => Raise (UnicodeDecodeError msg)
                     | h :: l' =>
                         match hex_value h with
                         | Some v => hex count' (ch * 16 + v)%N l'
                         | None => Raise (UnicodeDecodeError msg)
                         end
                     end
                 end) count 0%N s2 in
            if (c =? NEWLINE)%N then decode_unicode_escape s2
            else if (c =? BACKSLASH)%N then emit BACKSLASH (decode_unicode_escape s2)
            else if (c =? 39)%N then emit 39%N (decode_unicode_escape s2)
            else if (c =? 34)%N then emit 34%N (decode_unicode_escape s2)
            else if (c =? 98)%N then emit 8%N (decode_unicode_escape s2)
            else if (c =? 102)%N then emit 12%N (decode_unicode_escape s2)
            else if (c =? 116)%N then emit 9%N (decode_unicode_escape s2)
            else if (c =? 110)%N then emit 10%N (decode_unicode_escape s2)
            else if (c =? 114)%N then emit 13%N (decode_unicode_escape s2)
            else if (c =? 118)%N then emit 11%N (decode_unicode_escape s2)
            else if (c =? 97)%N then emit 7%N (decode_unicode_escape s2)
            else if is_octal c then
              let ch := (c - 48)%N in
              match s2 with
              | c2 :: s3 =>
                  if is_octal c2 then
                    let ch := (ch * 8 + (c2 - 48))%N in
                    match s3 with
                    | c3 :: s4 =>
                        if is_octal c3
                        then emit (ch * 8 + (c3 - 48))%N (decode_unicode_escape s4)
                        else emit ch (decode_unicode_escape s3)
                    | [] => emit ch (decode_unicode_escape s3)
                    end
                  else emit ch (decode_unicode_escape s2)
              | [] => emit ch (decode_unicode_escape s2)
              end
            else if (c =? 120)%N then hexescape 2%nat "truncated \xXX escape"%string
            else if (c =? 117)%N then hexescape 4%nat "truncated \uXXXX escape"%string
            else if (c =? 85)%N then hexescape 8%nat "truncated \UXXXXXXXX escape"%string
            else if (c =? 78)%N then
              match s2 with
              | [] => Raise (UnicodeDecodeError "malformed \N character escape")
              | b :: s3 =>
                  if (b =? 123)%N then
                    (fix name (acc : list N) (l : list N) {struct l}
                       : result pystr :=
                       match l with
                       | [] =>
                           Raise (UnicodeDecodeError "malformed \N character escape")
                       | x :: l' =>
                           if (x =? 125)%N then
                             match acc with
                             | [] =>
                                 Raise (UnicodeDecodeError
                                          "malformed \N character escape")
                             | _ :: _ =>
                                 match ucd_name U acc with
                                 | Some ch => emit ch (decode_unicode_escape l')
                                 | None =>
                                     Raise (UnicodeDecodeError
                                              "unknown Unicode character name")
                                 end
                             end
                           else name (acc ++ [x]) l'
                       end) [] s3
                  else Raise (UnicodeDecodeError "malformed \N character escape")
              end
            else emit BACKSLASH (emit c (decode_unicode_escape s2))
        end
  end.

(* ===================================================================== *)
(** * [int(s)] *)
(* ===================================================================== *)

(** The white space [int] skips around a literal: the ASCII characters C
    calls spaces, and the Unicode spaces outside ASCII. *)
Definition int_space (c : N) : bool :=
  if (c <? 128)%N then ((c =? 32) || ((9 <=? c) && (c <=? 13)))%N
  else ucd_space U c.

Fixpoint skip_spaces (s : pystr) : pystr :=
  match s with
  | c :: s' => if int_space c then skip_spaces s' else s
  | [] => []
  end.

(** The digits of a literal, single underscores allowed between them:
    the value and the number of digits. *)
Fixpoint int_digits (s : pystr) (acc : Z) (count : Z) (after_digit : bool)
  : option (Z * Z) :=
  match s with
  | [] => if after_digit then Some (acc, count) else None
  | c :: s' =>
      if (c =? 95)%N then
        if after_digit then int_digits s' acc count false else None
      else
        match decimal_value c with
        | Some v => int_digits s' (acc * 10 + v) (count + 1) true
        | None => None
        end
  end.

(** [sys.get_int_max_str_digits()], as the interpreter starts. *)
Definition MAX_STR_DIGITS : Z := 4300.

Definition int_of_str (s : pystr) : result Z :=
  let s := rev (skip_spaces (rev (skip_spaces s))) in
  let '(negative, body) :=
    match s with
    | c :: s' =>
        if (c =? 45)%N then (true, s')
        else if (c =? 43)%N then (false, s')
        else (false, s)
    | [] => (false, s)
    end in
  match int_digits body 0 0 false with
  | Some (v, count) =>
      if MAX_STR_DIGITS <? count then
        Raise (ValueError
                 "Exceeds the limit (4300 digits) for integer string conversion")
      else Ok (if negative then - v else v)
  | None => Raise (ValueError "invalid literal for int() with base 10")
  end.

(* ===================================================================== *)
(** * Regular expressions *)
(* ===================================================================== *)

(** The fragment of [re] the program and [strptime] use, matched the way
    [re] does: by backtracking, the alternatives tried in order, a lazy
    repetition trying the fewest characters first and a greedy one the
    most. *)
Inductive regex : Type :=
| Lit (s : pystr)
| Class (p : N -> bool)
| Repeat (p : N -> bool) (min : nat) (greedy : bool)
| Seq (r1 r2 : regex)
| Alt (r1 r2 : regex)
| Group (name : string) (r : regex).

(** A character of the text against a literal character of the pattern. *)
Definition literal_match (ignorecase : bool) (p c : N) : bool :=
  if ignorecase then
    if ((c <? 128) && (p <? 128))%N
    then (ascii_lower_char c =? ascii_lower_char p)%N
    else ucd_ignorecase U c p
  else (c =? p)%N.

Fixpoint match_literal (ignorecase : bool) (l s : pystr) {struct l}
  : option pystr :=
  match l, s with
  | [], _ => Some s
  | p :: l', c :: s' =>
      if literal_match ignorecase p c then match_literal ignorecase l' s'
      else None
  | _ :: _, [] => None
  end.

(** [(name, text)] of each group that took part in the match, in the
    order the groups close. *)
Abbreviation captures := (list (string * pystr)) (only parsing).

(** [k] continues the match on the rest of the text. *)
Fixpoint match_re {R} (ignorecase : bool) (r : regex) (s : pystr)
  (caps : captures) (k : pystr -> captures -> option R) {struct r}
  : option R :=
  match r with
  | Lit l =>
      match match_literal ignorecase l s with
      | Some s' => k s' caps
      | None => None
      end
  | Class p =>
      match s with
      | c :: s' => if p c then k s' caps else None
      | [] => None
      end
  | Repeat p min greedy =>
      (fix rep (n : nat) (s : pystr) {struct s} : option R :=
         if greedy then
           (* one more character first, then what follows *)
           match
             match s with
             | c :: s' => if p c then rep (S n) s' else None
             | [] => None
             end
           with
           | Some found => Some found
           | None => if (min <=? n)%nat then k s caps else None
           end
         else
           (* what follows first, then one more character *)
           match (if (min <=? n)%nat then k s caps else None) with
           | Some found => Some found
           | None =>
               match s with
               | c :: s' => if p c then rep (S n) s' else None
               | [] => None
               end
           end) O s
  | Seq r1 r2 =>
      match_re ignorecase r1 s caps
        (fun s' caps' => match_re ignorecase r2 s' caps' k)
  | Alt r1 r2 =>
      match match_re ignorecase r1 s caps k with
      | Some found => Some found
      | None => match_re ignorecase r2 s caps k
      end
  | Group name r1 =>
      match_re ignorecase r1 s caps
        (fun s' caps' =>
           k s' (caps' ++ [(name, take (length s - length s') s)]))
  end.

(** [pattern.match(s)]: the groups and the unmatched rest of [s]. *)
Definition re_match (ignorecase : bool) (r : regex) (s : pystr)
  : option (list (string * pystr) * pystr) :=
  match_re ignorecase r s [] (fun s' caps => Some (caps, s')).

(** [re.findall(pattern, s)] for a pattern with groups that matches no
    empty string: the tuples of groups of the matches, found from the left,
    each search starting where the previous match ended. *)
Fixpoint findall_from (r : regex) (skip : nat) (s : pystr)
  : list (list pystr) :=
  match s with
  | [] => []
  | _ :: s' =>
      match skip with
      | S n => findall_from r n s'
      | O =>
          match re_match false r s with
          | Some (caps, rest) =>
              map snd caps
              :: findall_from r (length s - length rest - 1) s'
          | None => findall_from r 0 s'
          end
      end
  end.

Definition findall (r : regex) (s : pystr) : list (list pystr) :=
  findall_from r 0 s.

Fixpoint sequence (rs : list regex) : regex :=
  match rs with
  | [] => Lit []
  | [r] => r
  | r :: rs' => Seq r (sequence rs')
  end.

(** [.]: any character but a newline. *)
Definition dot (c : N) : bool := negb (c =? NEWLINE)%N.

(* ===================================================================== *)
(** * Fetching and sanitising *)
(* ===================================================================== *)

Record sanitised : Type := Sanitised {
  s_menu : pystr;
  s_date : pystr;
  s_meal : pystr;
  s_calories : Z;
}.

(** [{"A": "lunch", "J": "dinner"}] *)
Definition meal_names : gmap (list N) (list N) :=
  <[py "J" := py "dinner"]> (<[py "A" := py "lunch"]> ∅).

(** [d[key]] *)
Definition getitem {V} (d : gmap (list N) V) (key : pystr) : result V :=
  match d !! key with
  | Some v => Ok v
  | None => Raise (KeyError key)
  end.

Definition sanitise_entry (entry : list pystr) : result sanitised :=
  match entry with
  | [menu; date; meal; calories] =>
      (* Sanitise the menu string *)
      bytes ← encode (replace menu [BACKSLASH; 47%N] (py "/"));
      menu ← decode_unicode_escape bytes;
      let menu := replace (replace menu (py "<br>") [NEWLINE]) [BACKSLASH] [] in
      (* Sanitise the date string *)
      let date := replace date [BACKSLASH] [] in
      (* Map the meal to its name *)
      meal ← getitem meal_names meal;
      (* Convert the calories to an integer *)
      calories ← int_of_str calories;
      Ok {| s_menu := menu; s_date := date; s_meal := meal;
            s_calories := calories |}
  | _ => Raise (ValueError "wrong number of values to unpack")
  end.

Definition entry_to_key_value (entries : list pystr)
  : result (pystr * menu_entry) :=
  value ← sanitise_entry entries;
  let key := s_date value ++ py "-" ++ s_meal value in
  Ok (key, {| menu := s_menu value; calories := s_calories value |}).

(** [dict(pairs)], the pairs produced one after the other: a later pair
    replaces an earlier one with the same key, and the first pair that
    raises ends the construction. *)
Fixpoint dict_of {A} (f : A -> result (pystr * menu_entry)) (items : list A)
  (acc : gmap (list N) menu_entry) : result (gmap (list N) menu_entry) :=
  match items with
  | [] => Ok acc
  | x :: items' =>
      kv ← f x;
      dict_of f items' (<[kv.1 := kv.2]> acc)
  end.

Definition QUOTE : N := 34.

(** [cdpdia:"(.+?)",.*?dtarfi:"(.+?)",.*?tiprfi:"(\w)",.*?vlrclorfi:(\d+)] *)
Definition regex_entries : regex :=
  sequence
    [ Lit (py "cdpdia:" ++ [QUOTE]); Group "1" (Repeat dot 1 false);
      Lit (QUOTE :: py ","); Repeat dot 0 false;
      Lit (py "dtarfi:" ++ [QUOTE]); Group "2" (Repeat dot 1 false);
      Lit (QUOTE :: py ","); Repeat dot 0 false;
      Lit (py "tiprfi:" ++ [QUOTE]); Group "3" (Class isword);
      Lit (QUOTE :: py ","); Repeat dot 0 false;
      Lit (py "vlrclorfi:"); Group "4" (Repeat isdecimal 1 true) ].

Definition request_data (restaurant : Z) : pystr :=
  py "callCount=1" ++ [NEWLINE]
  ++ py "windowName=" ++ [NEWLINE]
  ++ py "nextReverseAjaxIndex=0" ++ [NEWLINE]
  ++ py "c0-scriptName=CardapioControleDWR" ++ [NEWLINE]
  ++ py "c0-methodName=obterCardapioRestUSP" ++ [NEWLINE]
  ++ py "c0-id=0" ++ [NEWLINE]
  ++ py "c0-param0=string:" ++ str_of_int restaurant ++ [NEWLINE]
  ++ py "batchId=1" ++ [NEWLINE]
  ++ py "instanceId=0" ++ [NEWLINE]
  ++ py "page=" ++ [NEWLINE]
  ++ py "scriptSessionId=1/2-34" ++ [NEWLINE].

Definition request_url : pystr :=
  py "https://uspdigital.usp.br/rucard/dwr/call/plaincall/"
  ++ py "CardapioControleDWR.obterCardapioRestUSP.dwr".

(** [requests.post(url, data).text] *)
Definition requests_post (url data : pystr) : io pystr := fun w =>
  let '(_, w') := log (HttpPost url data) w in
  (remote w url data, w').

(** What [fetch_entries_http] makes of the text of the response. *)
Definition parse_response (text : pystr)
  : result (gmap (list N) menu_entry) :=
  let entries := findall regex_entries text in
  dict_of entry_to_key_value entries ∅.

Definition fetch_entries_http (restaurant : Z)
  : io (gmap (list N) menu_entry) :=
  let data := request_data restaurant in
  let url := request_url in
  text ← requests_post url data;
  lift (parse_response text).

(* ===================================================================== *)
(** * The cache *)
(* ===================================================================== *)

Definition set_cache (dir : dir_state) (files : gmap (list N) file)
  (w : world) : world :=
  {| today := today w; remote := remote w; cache_dir := dir;
     cache_files := files; trace := trace w |}.

(** [os.makedirs(f"{HOME}/.cache/bandeco", exist_ok=True)] *)
Definition makedirs : io unit := fun w =>
  match cache_dir w with
  | DirPresent _ => (Ok tt, w)
  | DirAbsent => (Ok tt, set_cache (DirPresent true) (cache_files w) w)
  | DirUnavailable => (Raise (OSError "cannot create the directory"), w)
  end.

Inductive open_mode : Type := RB | WB.

(** The file a cache file is replaced with when it is opened for writing:
    empty, which [pickle.load] rejects. *)
Definition truncated (f : option file) : file :=
  match f with
  | Some f => {| readable := readable f; writable := true; content := Corrupt [] |}
  | None => {| readable := true; writable := true; content := Corrupt [] |}
  end.

Definition put_file (key : pystr) (f : file) : io unit := fun w =>
  (Ok tt, set_cache (cache_dir w) (<[key := f]> (cache_files w)) w).

(** Every change of a cache file is recorded in the trace. *)
Definition write_file (key : pystr) (f : file) : io unit :=
  _ ← log (CacheWrite key);
  put_file key f.

(** [open(f"{HOME}/.cache/bandeco/{key}", mode)]: the open file is
    named by its key. *)
Definition open_file (key : pystr) (mode : open_mode) : io pystr := fun w =>
  match mode, cache_files w !! key with
  | RB, None => (Raise (OSError "No such file or directory"), w)
  | RB, Some f =>
      if readable f then (Ok key, w)
      else (Raise (OSError "Permission denied"), w)
  | WB, Some f =>
      if writable f
      then ((_ ← write_file key (truncated (Some f)); mret key) : io pystr) w
      else (Raise (OSError "Permission denied"), w)
  | WB, None =>
      match cache_dir w with
      | DirPresent true =>
          ((_ ← write_file key (truncated None); mret key) : io pystr) w
      | _ => (Raise (OSError "Permission denied"), w)
      end
  end.

Definition open_cache (key : pystr) (mode : open_mode) : io pystr :=
  _ ← makedirs;
  open_file key mode.

(** [pickle.load(cache)] *)
Definition pickle_load (cache : pystr) : io pyobj := fun w =>
  match cache_files w !! cache with
  | Some f =>
      match content f with
      | Pickle o => (Ok o, w)
      | Corrupt _ => (Raise (UnpicklingError "invalid pickle data"), w)
      end
  | None => (Raise (OSError "No such file or directory"), w)
  end.

(** [pickle.dump(entries, cache)] *)
Definition pickle_dump (entries : gmap (list N) menu_entry) (cache : pystr)
  : io unit := fun w =>
  match cache_files w !! cache with
  | Some f =>
      write_file cache
        {| readable := readable f; writable := writable f;
           content := Pickle (PyEntries entries) |} w
  | None => (Raise (OSError "No such file or directory"), w)
  end.

(** [None] is [PyNone]. *)
Definition fetch_entries_cached (key : pystr) : io pyobj :=
  io_try_except
    (cache ← open_cache key RB;
     pickle_load cache)
    (fun ex => mret PyNone).

Definition store_entries_cache (key : pystr)
  (entries : gmap (list N) menu_entry) : io unit :=
  cache ← open_cache key WB;
  pickle_dump entries cache.

(* ===================================================================== *)
(** * Restaurants *)
(* ===================================================================== *)

Definition restaurants : list pystr :=
  [ py "PIRACICABA";                               (* 01 *)
    py "CENTRAL SAO CARLOS SC";                    (* 02 *)
    py "CAMPUS II SAO CARLOS SC";                  (* 03 *)
    py "CRHEA SAO CARLOS SC";                      (* 04 *)
    py "PIRASSUNUNGA";                             (* 05 *)
    py "CENTRAL";                                  (* 06 *)
    py "PUSP-C SAO PAULO SP";                      (* 07 *)
    py "FISICA";                                   (* 08 *)
    py "QUIMICA";                                  (* 09 *)
    py "ADMINISTRACAO SAO PAULO SP";               (* 10 *)
    py "FACULDADE SAUDE PUBLICA";                  (* 11 *)
    py "ESCOLA ENFERMAGEM";                        (* 12 *)
    py "EACH SAO PAULO SP";                        (* 13 *)
    py "FACULDADE DIREITO";                        (* 14 *)
    py "DPS CUASO SAO PAULO SP";                   (* 15 *)
    py "DPS EACH SAO PAULO SP";                    (* 16 *)
    py "EEL AREA I";                               (* 17 *)
    py "MEDICINA SAO PAULO SP";                    (* 18 *)
    py "RIBEIRAO PRETO";                           (* 19 *)
    py "BAURU";                                    (* 20 *)
    py "PREFEITURA FERNANDO COSTA PIRASSUNUNGA";   (* 21 *)
    py "WEB";                                      (* 22 *)
    py "EEL AREA II";                              (* 23 *)
    py "REGISTRO ESTORNO" ].                       (* 24 *)

(** ** [difflib.SequenceMatcher(None, a, b).ratio()]

    No character is junk: [isjunk] is [None], and the automatic junk
    heuristic only applies when [b] has 200 characters or more, which no
    restaurant name has. *)

Fixpoint common_prefix (a b : pystr) : nat :=
  match a, b with
  | x :: a', y :: b' => if (x =? y)%N then S (common_prefix a' b') else O
  | _, _ => O
  end.

(** The best block [(i, j, k)] so far, against the blocks that start at
    index [i] of [a] (where [a'] starts) and at the indices of [b] from
    [j] on: a block only replaces a strictly shorter one. *)
Fixpoint scan_b (a' : pystr) (i : nat) (b' : pystr) (j : nat)
  (best : nat * nat * nat) : nat * nat * nat :=
  match b' with
  | [] => best
  | _ :: b'' =>
      let k := common_prefix a' b' in
      scan_b a' i b'' (S j) (if (best.2 <? k)%nat then (i, j, k) else best)
  end.

Fixpoint scan_a (a' : pystr) (i : nat) (b : pystr) (best : nat * nat * nat)
  : nat * nat * nat :=
  match a' with
  | [] => best
  | _ :: a'' => scan_a a'' (S i) b (scan_b a' i b O best)
  end.

(** [find_longest_match]: of all the longest matching blocks, the one
    that starts earliest in [a], and of those the one that starts earliest
    in [b]; [(0, 0, 0)] when no block matches. *)
Definition find_longest_match (a b : pystr) : nat * nat * nat :=
  scan_a a O b (O, O, O).

(** The sum of the sizes of [get_matching_blocks()]: the longest block,
    then the blocks to its left and to its right. *)
Fixpoint matches (fuel : nat) (a b : pystr) : nat :=
  match fuel with
  | O => O
  | S fuel' =>
      let '(i, j, k) := find_longest_match a b in
      if (k =? 0)%nat then O
      else
        ((if (0 <? i)%nat && (0 <? j)%nat
          then matches fuel' (take i a) (take j b) else O)
         + k
         + (if (i + k <? length a)%nat && (j + k <? length b)%nat
            then matches fuel' (drop (i + k) a) (drop (j + k) b) else O))%nat
  end.

(** A Python [float] is a binary64 number, which is a rational, and
    floats compare as the rationals they are.  [float_round] is the
    rounding of a quotient to the nearest float, which the division of two
    floats applies to the exact quotient. *)
Context (float_round : Q -> Q).

(** [2.0 * matches / length], or [1.0] when both strings are empty. *)
Definition ratio (a b : pystr) : Q :=
  let length := (length a + length b)%nat in
  if (length =? 0)%nat then 1%Q
  else float_round
         (Qmake (2 * Z.of_nat (matches (S (List.length a)) a b))
                (Pos.of_nat length)).

(** [x < y] on floats. *)
Definition ratio_lt (x y : Q) : bool := negb (Qle_bool y x).

(** [max(items, key=key)]: the first item whose key no other item
    exceeds; [None] stands for the [ValueError] on an empty sequence. *)
Definition keep_max {A} (key : A -> Q) (best item : A) : A :=
  if ratio_lt (key best) (key item) then item else best.

Definition max_by {A} (key : A -> Q) (items : list A) : option A :=
  match items with
  | [] => None
  | first :: items' => Some (fold_left (keep_max key) items' first)
  end.

(** [enumerate(items)] *)
Definition enumerate {A} (items : list A) : list (Z * A) :=
  imap (fun i x => (Z.of_nat i, x)) items.

Definition get_restaurant_code (search : pystr) : result Z :=
  let compare (entry : Z * pystr) : Q := ratio (upper search) entry.2 in
  match max_by compare (enumerate restaurants) with
  | Some entry => Ok (entry.1 + 1)
  | None => Raise (ValueError "max() arg is an empty sequence")
  end.

(* ===================================================================== *)
(** * [datetime.datetime.strptime] *)
(* ===================================================================== *)

(** The names of the days in the C locale, which the program never
    changes, lower-cased, Monday first. *)
Definition a_weekday : list pystr :=
  [py "mon"; py "tue"; py "wed"; py "thu"; py "fri"; py "sat"; py "sun"].

Definition f_weekday : list pystr :=
  [py "monday"; py "tuesday"; py "wednesday"; py "thursday"; py "friday";
   py "saturday"; py "sunday"].

Definition in_range (lo hi : N) (c : N) : bool := ((lo <=? c) && (c <=? hi))%N.

(** [[lo-hi]], a range of ASCII digits. *)
Definition digits (lo hi : N) : regex := Class (in_range (48 + lo) (48 + hi)).

Fixpoint alternatives (rs : list regex) : regex :=
  match rs with
  | [] => Lit []
  | [r] => r
  | r :: rs' => Alt r (alternatives rs')
  end.

(** [x] goes behind the values that are at least as long. *)
Fixpoint insert_by_length (x : pystr) (sorted : list pystr) : list pystr :=
  match sorted with
  | [] => [x]
  | y :: sorted' =>
      if (length y <? length x)%nat then x :: sorted
      else y :: insert_by_length x sorted'
  end.

(** [sorted(to_convert, key=len, reverse=True)] *)
Definition longest_first (to_convert : list pystr) : list pystr :=
  fold_left (fun sorted x => insert_by_length x sorted) to_convert [].

(** The alternation of the values, longest first, as a group. *)
Definition seqToRE (to_convert : list pystr) (directive : string) : regex :=
  Group directive (alternatives (map Lit (longest_first to_convert))).

(** The regular expression of a directive, for the directives of the
    formats the program parses with. *)
Definition directive_regex (d : N) : option regex :=
  if (d =? 100)%N then       (* %d: 3[0-1]|[1-2]\d|0[1-9]|[1-9]| [1-9] *)
    Some (Group "d" (alternatives
            [ Seq (Lit (py "3")) (digits 0 1);
              Seq (digits 1 2) (Class isdecimal);
              Seq (Lit (py "0")) (digits 1 9);
              digits 1 9;
              Seq (Lit (py " ")) (digits 1 9) ]))
  else if (d =? 109)%N then  (* %m: 1[0-2]|0[1-9]|[1-9] *)
    Some (Group "m" (alternatives
            [ Seq (Lit (py "1")) (digits 0 2);
              Seq (Lit (py "0")) (digits 1 9);
              digits 1 9 ]))
  else if (d =? 87)%N then   (* %W: 5[0-3]|[0-4]\d|\d *)
    Some (Group "W" (alternatives
            [ Seq (Lit (py "5")) (digits 0 3);
              Seq (digits 0 4) (Class isdecimal);
              Class isdecimal ]))
  else if (d =? 121)%N then  (* %y: \d\d *)
    Some (Group "y" (Seq (Class isdecimal) (Class isdecimal)))
  else if (d =? 89)%N then   (* %Y: \d\d\d\d *)
    Some (Group "Y" (sequence [Class isdecimal; Class isdecimal;
                               Class isdecimal; Class isdecimal]))
  else if (d =? 65)%N then Some (seqToRE f_weekday "A")
  else if (d =? 97)%N then Some (seqToRE a_weekday "a")
  else None.

(** [TimeRE.pattern(format)]: a directive stands for its regular
    expression, a run of white space for [\s+], any other character for
    itself. *)
Fixpoint pattern (format : pystr) (after_space : bool) {struct format}
  : result (list regex) :=
  match format with
  | [] => Ok []
  | c :: rest =>
      if (c =? 37)%N then
        match rest with
        | [] => Raise (ValueError "stray % in format")
        | d :: rest' =>
            match directive_regex d with
            | Some r => rs ← pattern rest' false; Ok (r :: rs)
            | None => Raise (ValueError "bad directive in format")
            end
        end
      else if isspace c then
        if after_space then pattern rest true
        else rs ← pattern rest true; Ok (Repeat isspace 1 true :: rs)
      else rs ← pattern rest false; Ok (Lit [c] :: rs)
  end.

(** [l.index(x)] *)
Fixpoint index (l : list pystr) (x : pystr) : result Z :=
  match l with
  | [] => Raise (ValueError "x is not in list")
  | y :: l' => if str_eqb y x then Ok 0 else i ← index l' x; Ok (i + 1)
  end.

(** What [_strptime] gathers from the groups of the match. *)
Record found_fields : Type := Found {
  got_year : option Z;
  got_month : Z;
  got_day : Z;
  f_week_ogot_year : option Z;
  got_weekday : option Z;
}.

Definition read_group (f : found_fields) (group : string * pystr)
  : result found_fields :=
  let '(group_key, text) := group in
  if String.eqb group_key "y" then
    y ← int_of_str text;
    let y := if y <=? 68 then y + 2000 else y + 1900 in
    Ok (Found (Some y) (got_month f) (got_day f) (f_week_ogot_year f) (got_weekday f))
  else if String.eqb group_key "Y" then
    y ← int_of_str text;
    Ok (Found (Some y) (got_month f) (got_day f) (f_week_ogot_year f) (got_weekday f))
  else if String.eqb group_key "m" then
    m ← int_of_str text;
    Ok (Found (got_year f) m (got_day f) (f_week_ogot_year f) (got_weekday f))
  else if String.eqb group_key "d" then
    d ← int_of_str text;
    Ok (Found (got_year f) (got_month f) d (f_week_ogot_year f) (got_weekday f))
  else if String.eqb group_key "A" then
    wd ← index f_weekday (lower text);
    Ok (Found (got_year f) (got_month f) (got_day f) (f_week_ogot_year f) (Some wd))
  else if String.eqb group_key "a" then
    wd ← index a_weekday (lower text);
    Ok (Found (got_year f) (got_month f) (got_day f) (f_week_ogot_year f) (Some wd))
  else if String.eqb group_key "W" then
    w ← int_of_str text;
    Ok (Found (got_year f) (got_month f) (got_day f) (Some w) (got_weekday f))
  else Ok f.

Fixpoint read_groups (f : found_fields) (groups : list (string * pystr))
  : result found_fields :=
  match groups with
  | [] => Ok f
  | g :: groups' => f' ← read_group f g; read_groups f' groups'
  end.

(** [_calc_julian_from_U_or_W(year, week_ogot_year, day_of_week, True)] *)
Definition calc_julian_from_W (year week_ogot_year day_of_week : Z) : result Z :=
  jan1 ← datetime.new year 1 1;
  let first_weekday := weekday jan1 in
  let week_0_length := (7 - first_weekday) mod 7 in
  if week_ogot_year =? 0 then Ok (1 + day_of_week - first_weekday)
  else
    let days_to_week := week_0_length + 7 * (week_ogot_year - 1) in
    Ok (1 + days_to_week + day_of_week).

(** [datetime.datetime.strptime(data_string, format).date()] *)
Definition strptime (data_string format : pystr) : result date :=
  rs ← pattern format false;
  match re_match true (sequence rs) data_string with
  | None => Raise (ValueError "time data does not match format")
  | Some (found, rest) =>
      match rest with
      | _ :: _ => Raise (ValueError "unconverted data remains")
      | [] =>
          f ← read_groups (Found None 1 1 None None) found;
          let leap_year_fix :=
            match got_year f with
            | None => (got_month f =? 2) && (got_day f =? 29)
            | Some _ => false
            end in
          let year :=
            match got_year f with
            | Some y => y
            | None => if leap_year_fix then 1904 else 1900
            end in
          '(julian, year) ←
            match got_weekday f, f_week_ogot_year f with
            | Some wd, Some week =>
                julian ← calc_julian_from_W year week wd;
                if julian <=? 0 then
                  let year := year - 1 in
                  let yday := if is_leap year then 366 else 365 in
                  Ok (Some (julian + yday), year)
                else Ok (Some julian, year)
            | _, _ => Ok (None, year)
            end;
          d ← match julian with
              | None => datetime.new year (got_month f) (got_day f)
              | Some julian =>
                  jan1 ← datetime.new year 1 1;
                  fromordinal (julian - 1 + toordinal jan1)
              end;
          datetime.new (if leap_year_fix then 1900 else datetime.year d)
            (month d) (day d)
      end
  end.

(* ===================================================================== *)
(** * The requested day *)
(* ===================================================================== *)

(** [ValueError] and its subclasses, which [except ValueError] catches. *)
Definition is_ValueError (e : exn) : bool :=
  match e with
  | ValueError _ | UnicodeDecodeError _ | UnicodeEncodeError _ => true
  | _ => false
  end.

Definition parse_with_format (today : date) (day format defaults : pystr)
  : result (option date) :=
  try_except
    (let full_str := day ++ py "|" ++ strftime today defaults in
     parsed ← strptime full_str (format ++ py "|" ++ defaults);
     Ok (Some parsed))
    (fun err => if is_ValueError err then Ok None else Raise err).

Definition formats : list (pystr * pystr) :=
  (* User input , Today *)
  [ (py "%a"       , py "%W %Y");
    (py "%A"       , py "%W %Y");
    (py "%d/%m"    , py "%Y"   );
    (py "%d/%m/%y" , py ""     );
    (py "%d/%m/%Y" , py ""     ) ].

(** The first format that parses. *)
Fixpoint first_parsed (today : date) (day : pystr)
  (formats : list (pystr * pystr)) : result (option date) :=
  match formats with
  | [] => Ok None
  | (format, defaults) :: formats' =>
      parsed ← parse_with_format today day format defaults;
      match parsed with
      | Some d => Ok (Some d)
      | None => first_parsed today day formats'
      end
  end.

Definition invalid_date_message : pystr :=
  py "Invalid date format. Available formats are:" ++ [NEWLINE]
  ++ [NEWLINE]
  ++ py "- Today         (For today)" ++ [NEWLINE]
  ++ py "- Tomorrow      (For tomorrow)" ++ [NEWLINE]
  ++ py "- Yesterday     (For yesterday)" ++ [NEWLINE]
  ++ py "- Fri           (For this week's friday)" ++ [NEWLINE]
  ++ py "- Friday" ++ [NEWLINE]
  ++ py "- 01/01         (For the first of January of this year)" ++ [NEWLINE]
  ++ py "- 01/01/01      (For the first of January of 2001)" ++ [NEWLINE]
  ++ py "- 01/01/1901    (For the first of January of 1901)" ++ [NEWLINE]
  ++ [NEWLINE]
  ++ py "The formats are case insensitive and dependent on your locale."
  ++ [NEWLINE].

Definition get_date (day : pystr) : io date := fun w =>
  let today := today w in
  if str_eqb day (py "today") then (Ok today, w)
  else if str_eqb day (py "tomorrow") then (add_days today 1, w)
  else if str_eqb day (py "yesterday") then (sub_days today 1, w)
  else
    match first_parsed today day formats with
    | Ok (Some parsed) => (Ok parsed, w)
    | Ok None =>
        ((_ ← print invalid_date_message;
          lift (Raise (ValueError "Unable to parse input date"))) : io date) w
    | Raise e => (Raise e, w)
    end.

(* ===================================================================== *)
(** * The program *)
(* ===================================================================== *)

Definition is_current_week (d : date) : io bool := fun w =>
  let today := today w in
  (w1 ← get_week d;
   w2 ← get_week today;
   Ok (str_eqb w1 w2),
   w).

(** What [argparse] hands over: the values of the options. *)
Record namespace : Type := Namespace {
  ns_day : pystr;
  ns_meal : pystr;
  ns_restaurant : pystr;
  ns_week : bool;
  ns_verbose : bool;
  ns_json : bool;
}.

(** [(restaurant, day, meal, week)] *)
Abbreviation options := (Z * date * list N * bool)%type (only parsing).

(** The part of [parse_args] that follows [parser.parse_args()]. *)
Definition parse_args (parsed : namespace)
  : io (bool * Z * date * list N * bool) :=
  day ← get_date (ns_day parsed);
  meal ← lift (match ns_meal parsed with
               | c :: _ => Ok [c]
               | [] => Raise (IndexError "string index out of range")
               end);
  let week := ns_week parsed in
  let json := ns_json parsed in
  restaurant ← lift (get_restaurant_code (ns_restaurant parsed));
  mret (json, restaurant, day, meal, week).

(** The presentation of the entries, which the specification leaves to
    a collaborator: what it prints, and whether it raises. *)
Context (display_json display_pretty : pyobj -> options -> io unit).

Definition display (json : bool) (entries : pyobj) (opts : options)
  : io unit :=
  if json then display_json entries opts else display_pretty entries opts.

Definition main (parsed : namespace) : io Z :=
  '(json, restaurant, day, meal, week) ← parse_args parsed;
  key ← lift (cache_key day restaurant);
  entries ← fetch_entries_cached key;
  match entries with
  | PyNone =>
      current ← is_current_week day;
      if negb current then
        _ ← print (py "Unable to fetch menu for the requested date.");
        mret 1
      else
        entries ← fetch_entries_http restaurant;
        if bool_decide (entries = ∅) then
          _ ← print (py "Failed to fetch menu for the requested restaurant.");
          mret 1
        else
          _ ← store_entries_cache key entries;
          _ ← display json (PyEntries entries) (restaurant, day, meal, week);
          mret 0
  | _ =>
      _ ← display json entries (restaurant, day, meal, week);
      mret 0
  end.

(* ===================================================================== *)
(** * The presentation *)
(* ===================================================================== *)

(** The names of the days in the C locale, Monday first. *)
Definition day_name : list pystr :=
  [py "Monday"; py "Tuesday"; py "Wednesday"; py "Thursday"; py "Friday";
   py "Saturday"; py "Sunday"].

(** [d.strftime(format)] with the directives of the presentation as
    well: [%d] and [%m], two digits, and [%A], the name of the day. *)
Fixpoint strftime_full (d : date) (format : pystr) {struct format} : pystr :=
  match format with
  | [] => []
  | c :: rest =>
      if (c =? 37)%N then
        match rest with
        | [] => [c]
        | x :: rest' =>
            if (x =? 100)%N then format_02 (day d) ++ strftime_full d rest'
            else if (x =? 109)%N then
              format_02 (month d) ++ strftime_full d rest'
            else if (x =? 65)%N then
              default [] (day_name !! Z.to_nat (weekday d))
              ++ strftime_full d rest'
            else if (x =? 89)%N then
              str_of_int (year d) ++ strftime_full d rest'
            else if (x =? 87)%N then
              format_02 (week_number d) ++ strftime_full d rest'
            else c :: x :: strftime_full d rest'
        end
      else c :: strftime_full d rest
  end.

(** The regular expression of a directive, with [%w]: [[0-6]]. *)
Definition directive_regex_w (d : N) : option regex :=
  if (d =? 119)%N then Some (Group "w" (digits 0 6)) else directive_regex d.

Fixpoint pattern_w (format : pystr) (after_space : bool) {struct format}
  : result (list regex) :=
  match format with
  | [] => Ok []
  | c :: rest =>
      if (c =? 37)%N then
        match rest with
        | [] => Raise (ValueError "stray % in format")
        | d :: rest' =>
            match directive_regex_w d with
            | Some r => rs ← pattern_w rest' false; Ok (r :: rs)
            | None => Raise (ValueError "bad directive in format")
            end
        end
      else if isspace c then
        if after_space then pattern_w rest true
        else rs ← pattern_w rest true; Ok (Repeat isspace 1 true :: rs)
      else rs ← pattern_w rest false; Ok (Lit [c] :: rs)
  end.

(** The group of [%w] counts the days from Sunday, the fields from
    Monday. *)
Definition read_group_w (f : found_fields) (group : string * pystr)
  : result found_fields :=
  let '(group_key, text) := group in
  if String.eqb group_key "w" then
    wd ← int_of_str text;
    let wd := if wd =? 0 then 6 else wd - 1 in
    Ok (Found (got_year f) (got_month f) (got_day f) (f_week_ogot_year f)
          (Some wd))
  else read_group f group.

Fixpoint read_groups_w (f : found_fields) (groups : list (string * pystr))
  : result found_fields :=
  match groups with
  | [] => Ok f
  | g :: groups' => f' ← read_group_w f g; read_groups_w f' groups'
  end.

(** The date [_strptime] makes of the fields it has gathered. *)
Definition date_of_fields (f : found_fields) : result date :=
  let leap_year_fix :=
    match got_year f with
    | None => (got_month f =? 2) && (got_day f =? 29)
    | Some _ => false
    end in
  let year :=
    match got_year f with
    | Some y => y
    | None => if leap_year_fix then 1904 else 1900
    end in
  '(julian, year) ←
    match got_weekday f, f_week_ogot_year f with
    | Some wd, Some week =>
        julian ← calc_julian_from_W year week wd;
        if julian <=? 0 then
          let year := year - 1 in
          let yday := if is_leap year then 366 else 365 in
          Ok (Some (julian + yday), year)
        else Ok (Some julian, year)
    | _, _ => Ok (None, year)
    end;
  d ← match julian with
      | None => datetime.new year (got_month f) (got_day f)
      | Some julian =>
          jan1 ← datetime.new year 1 1;
          fromordinal (julian - 1 + toordinal jan1)
      end;
  datetime.new (if leap_year_fix then 1900 else datetime.year d)
    (month d) (day d).

(** [datetime.datetime.strptime(data_string, format).date()], for a
    format that may hold [%w]. *)
Definition strptime_w (data_string format : pystr) : result date :=
  rs ← pattern_w format false;
  match re_match true (sequence rs) data_string with
  | None => Raise (ValueError "time data does not match format")
  | Some (found, rest) =>
      match rest with
      | _ :: _ => Raise (ValueError "unconverted data remains")
      | [] =>
          f ← read_groups_w (Found None 1 1 None None) found;
          date_of_fields f
      end
  end.

(** [l[i]] for a list: a negative index counts from the end. *)
Definition list_getitem {A} (l : list A) (i : Z) : result A :=
  let n := Z.of_nat (length l) in
  let j := if i <? 0 then i + n else i in
  match (if (0 <=? j) && (j <? n) then l !! Z.to_nat j else None) with
  | Some x => Ok x
  | None => Raise (IndexError "list index out of range")
  end.

(** [for x in items: body(x)] *)
Fixpoint for_each {A} (items : list A) (body : A -> io unit) : io unit :=
  match items with
  | [] => mret tt
  | x :: items' => _ ← body x; for_each items' body
  end.

(** [[f(x) for x in items]]: the first exception ends the construction. *)
Fixpoint list_of {A B} (f : A -> result B) (items : list A)
  : result (list B) :=
  match items with
  | [] => Ok []
  | x :: items' => y ← f x; ys ← list_of f items'; Ok (y :: ys)
  end.

(** [\033], the escape character of the colour codes. *)
Definition ESC : N := 27.

Definition display_day_menu (entries : gmap (list N) menu_entry)
  (day : date) (meal : pystr) : io unit :=
  let date := strftime_full day (py "%d/%m/%Y") in
  let weekday := strftime_full day (py "%A") in
  _ ← print ([ESC] ++ py "[1;93m## " ++ weekday ++ py " (" ++ date ++ py ")"
             ++ [ESC] ++ py "[m");
  _ ← (if str_eqb meal (py "l") || str_eqb meal (py "a") then
         _ ← print ([ESC] ++ py "[1;93m### Lunch:" ++ [ESC] ++ py "[m");
         entry ← lift (getitem entries (date ++ py "-lunch"));
         _ ← print (menu entry);
         entry ← lift (getitem entries (date ++ py "-lunch"));
         let calories := calories entry in
         print ([NEWLINE] ++ [ESC] ++ py "[1mCalories: "
                ++ str_of_int calories ++ py " Kcal" ++ [ESC] ++ py "[m")
       else mret tt);
  if str_eqb meal (py "d") || str_eqb meal (py "a") then
    _ ← print ([ESC] ++ py "[1;93m### Dinner:" ++ [ESC] ++ py "[m");
    entry ← lift (getitem entries (date ++ py "-dinner"));
    _ ← print (menu entry);
    entry ← lift (getitem entries (date ++ py "-dinner"));
    let calories := calories entry in
    print ([NEWLINE] ++ [ESC] ++ py "[1mCalories: "
           ++ str_of_int calories ++ py " Kcal" ++ [ESC] ++ py "[m")
  else mret tt.

(** The day of the week [weekday], counted from Sunday, of the week of
    [day]. *)
Definition week_day (day : date) (weekday : Z) : result date :=
  let week := strftime_full day (py "%W-%Y") in
  strptime_w (str_of_int weekday ++ py "-" ++ week) (py "%w-%W-%Y").

Definition display_week_menu (entries : gmap (list N) menu_entry)
  (day : date) (meal : pystr) : io unit :=
  for_each [1; 2; 3; 4; 5]
    (fun weekday =>
       date ← lift (week_day day weekday);
       display_day_menu entries date meal).

(** The values [json.dumps] is given. *)
#[warnings="-register-all"]
Inductive json : Type :=
| JStr (s : pystr)
| JInt (n : Z)
| JList (items : list json)
| JDict (items : list (pystr * json)).

(** [{ 'menu': ..., 'calories': ... }] *)
Definition entry_object (e : menu_entry) : json :=
  JDict [(py "menu", JStr (menu e)); (py "calories", JInt (calories e))].

Definition day_menu_object (entries : gmap (list N) menu_entry)
  (day : date) (meal : pystr) : result json :=
  let date := strftime_full day (py "%d/%m/%Y") in
  let weekday := lower (strftime_full day (py "%A")) in
  let data := [(py "date", JStr date); (py "weekday", JStr weekday)] in
  data ← (if str_eqb meal (py "l") || str_eqb meal (py "a") then
            entry ← getitem entries (date ++ py "-lunch");
            Ok (data ++ [(py "lunch", entry_object entry)])
          else Ok data);
  data ← (if str_eqb meal (py "d") || str_eqb meal (py "a") then
            entry ← getitem entries (date ++ py "-dinner");
            Ok (data ++ [(py "dinner", entry_object entry)])
          else Ok data);
  Ok (JDict data).

Definition week_menu_object (entries : gmap (list N) menu_entry)
  (day : date) (meal : pystr) : result (list json) :=
  list_of
    (fun weekday =>
       date ← week_day day weekday;
       day_menu_object entries date meal)
    [1; 2; 3; 4; 5].

(** [display_pretty], for entries that are a dictionary. *)
Definition display_pretty_dict (entries : gmap (list N) menu_entry)
  (opts : options) : io unit :=
  let '(restaurant, day, meal, week) := opts in
  name ← lift (list_getitem restaurants (restaurant - 1));
  _ ← print ([ESC] ++ py "[1;93m# " ++ name ++ [ESC] ++ py "[m");
  if week then display_week_menu entries day meal
  else display_day_menu entries day meal.

(** [json.dumps(data, indent=2)], a text for every value. *)
Context (json_dumps : json -> pystr).

(** [display_json], for entries that are a dictionary. *)
Definition display_json_dict (entries : gmap (list N) menu_entry)
  (opts : options) : io unit :=
  let '(restaurant, day, meal, week) := opts in
  name ← lift (list_getitem restaurants (restaurant - 1));
  data ← lift (if week then
                 days ← week_menu_object entries day meal;
                 Ok (JList days)
               else day_menu_object entries day meal);
  print (json_dumps
           (JDict [(py "restaurant", JStr name); (py "data", data)])).

(* ===================================================================== *)
(** * The script *)
(* ===================================================================== *)

(** [str(ex)], the text of an exception. *)
Context (str_of_exn : exn -> pystr).


(* ===================================================================== *)
(** * Vocabulary of the specification *)
(* ===================================================================== *)

(** [<year>w<week>], the shape [strftime("%Yw%W")] produces. *)
Definition bucket (y w : Z) : pystr :=
  str_of_int y ++ py "w" ++ format_02 w.

(** The two digits of a week number. *)
Definition two_digits (w : Z) : pystr :=
  [Z.to_N (48 + w / 10); Z.to_N (48 + w mod 10)].

(** The ordinal, less one, of the Monday that starts the week of [d]. *)
Definition monday_of (d : date) : Z := 7 * ((toordinal d - 1) / 7).

(** Two dates fall in the same Monday-to-Sunday week.  Ordinal 1 (January
    1st of year 1) is a Monday. *)
Definition same_monday_week (d1 d2 : date) : Prop :=
  (toordinal d1 - 1) / 7 = (toordinal d2 - 1) / 7.

(** Two dates fall in the same Sunday-to-Saturday week: the Sundays are
    the ordinals divisible by 7. *)
Definition same_sunday_week (d1 d2 : date) : Prop :=
  toordinal d1 / 7 = toordinal d2 / 7.

(** [x], at index [i] of [items], is the first item with the greatest
    key. *)
Definition first_max {A} (key : A -> Q) (items : list A) (i : nat) (x : A)
  : Prop :=
  items !! i = Some x
  /\ (forall j y, items !! j = Some y -> (key y <= key x)%Q)
  /\ (forall j y, items !! j = Some y -> (j < i)%nat -> (key y < key x)%Q).

(** Two worlds that differ at most in whether the cache directory
    exists. *)
Definition same_but_dir (w w' : world) : Prop :=
  today w' = today w /\ remote w' = remote w
  /\ cache_files w' = cache_files w /\ trace w' = trace w.

(** The computation [fetch_entries_cached] protects. *)
Definition read_cache (key : pystr) : io pyobj :=
  cache ← open_cache key RB;
  pickle_load cache.

(** What [main] does once the arguments are parsed and the cache has
    missed. *)
Definition on_miss (json : bool) (restaurant : Z) (day : date)
  (meal : pystr) (week : bool) (key : pystr) : io Z :=
  current ← is_current_week day;
  if negb current then
    _ ← print (py "Unable to fetch menu for the requested date.");
    mret 1
  else
    entries ← fetch_entries_http restaurant;
    if bool_decide (entries = ∅) then
      _ ← print (py "Failed to fetch menu for the requested restaurant.");
      mret 1
    else
      _ ← store_entries_cache key entries;
      _ ← display json (PyEntries entries) (restaurant, day, meal, week);
      mret 0.

(* ===================================================================== *)
(** * Sample worlds and requests *)
(* ===================================================================== *)

(** A world on Tuesday November 3rd 2026, with an empty cache and a
    remote that answers with no record. *)
Definition quiet_world : world :=
  {| today := Date 2026 11 3;
     remote := fun _ _ => Ok (py "throw 'allowScriptTagRemoting is false.';");
     cache_dir := DirAbsent;
     cache_files := ∅;
     trace := [] |}.

(** A response with one record for lunch. *)
Definition sample_response : pystr :=
  py "cdpdia:" ++ [QUOTE] ++ py "Arroz<br>Feij" ++ [BACKSLASH]
  ++ py "u00e3o" ++ [QUOTE] ++ py ",x:1,dtarfi:" ++ [QUOTE] ++ py "02"
  ++ [BACKSLASH] ++ py "/11" ++ [BACKSLASH] ++ py "/2026" ++ [QUOTE]
  ++ py ",tiprfi:" ++ [QUOTE] ++ py "A" ++ [QUOTE] ++ py ",vlrclorfi:850}".

(** The rounding the examples run with: none.  It orders the quotients
    as the rounding to the nearest float does as long as two quotients
    that differ round to different floats, which the ratios of strings of
    fewer than 2^46 characters do. *)
Definition exact : Q -> Q := fun q => q.

(** A presentation that prints nothing. *)
Definition no_display : pyobj -> Z * date * list N * bool -> io unit :=
  fun _ _ w => (Ok tt, w).

(** [bandeco -d 01/10/2026 -r each], asked on November 3rd 2026. *)
Definition ask_october : namespace :=
  {| ns_day := py "01/10/2026"; ns_meal := py "all";
     ns_restaurant := py "each"; ns_week := false; ns_verbose := false;
     ns_json := false |}.

(** [bandeco], with the defaults of every option. *)
Definition ask_today : namespace :=
  {| ns_day := py "today"; ns_meal := py "all"; ns_restaurant := py "each";
     ns_week := false; ns_verbose := false; ns_json := false |}.

(** A record of a response. *)
Definition record (menu date meal kcal : string) : pystr :=
  py "{cdpdia:" ++ [QUOTE] ++ py menu ++ [QUOTE]
  ++ py ",dtarfi:" ++ [QUOTE] ++ py date ++ [QUOTE]
  ++ py ",tiprfi:" ++ [QUOTE] ++ py meal ++ [QUOTE]
  ++ py ",vlrclorfi:" ++ py kcal ++ py "}".

(** A response with two records: lunch, and a meal with the code [X]. *)
Definition odd_response : pystr :=
  record "Arroz" "03/11/2026" "A" "850"
  ++ record "Sopa" "03/11/2026" "X" "400".

Definition odd_world : world :=
  {| today := Date 2026 11 3;
     remote := fun _ _ => Ok odd_response;
     cache_dir := DirAbsent;
     cache_files := ∅;
     trace := [] |}.

(** A world on the same day whose remote answers with the sample
    response. *)
Definition sample_world : world :=
  {| today := Date 2026 11 3;
     remote := fun _ _ => Ok sample_response;
     cache_dir := DirAbsent;
     cache_files := ∅;
     trace := [] |}.

(** The entries of the sample response. *)
Definition sample_entries : gmap (list N) menu_entry :=
  <[py "02/11/2026-lunch" :=
      {| menu := py "Arroz" ++ [NEWLINE] ++ py "Feij" ++ [227%N; 111%N];
         calories := 850 |}]> ∅.


(** The sample world with a cache directory no file can be created in. *)
Definition readonly_world : world :=
  {| today := Date 2026 11 3;
     remote := fun _ _ => Ok sample_response;
     cache_dir := DirPresent false;
     cache_files := ∅;
     trace := [] |}.





(** [ord2ymd n] is a date of the calendar, from year 1 on, whose ordinal
    is [n]. *)
Definition ord_ok (n : Z) : bool :=
  let d := ord2ymd n in
  (1 <=? year d) && (1 <=? month d) && (month d <=? 12)
  && (1 <=? day d) && (day d <=? days_in_month (year d) (month d))
  && (toordinal d =? n).

(** [ord_ok] on the [count] ordinals from [start] on. *)
Definition check_from (start : Z) (count : N) : bool * Z :=
  N.iter count (fun '(ok, n) => (ok && ord_ok n, n + 1)) (true, start).

(* ===================================================================== *)
(** * What a match is *)
(* ===================================================================== *)

(** [matched ignorecase r t groups]: the regular expression [r] matches
    the whole of [t], its groups taking the texts [groups].  The matcher
    searches for such a match by backtracking. *)
Inductive matched (ignorecase : bool)
  : regex -> pystr -> list (string * pystr) -> Prop :=
| matched_lit (l t : pystr) :
    Forall2 (fun p c => literal_match ignorecase p c = true) l t ->
    matched ignorecase (Lit l) t []
| matched_class (p : N -> bool) (c : N) :
    p c = true -> matched ignorecase (Class p) [c] []
| matched_repeat (p : N -> bool) (min : nat) (greedy : bool) (t : pystr) :
    Forall (fun c => p c = true) t -> (min <= length t)%nat ->
    matched ignorecase (Repeat p min greedy) t []
| matched_seq (r1 r2 : regex) (t1 t2 : pystr) g1 g2 :
    matched ignorecase r1 t1 g1 -> matched ignorecase r2 t2 g2 ->
    matched ignorecase (Seq r1 r2) (t1 ++ t2) (g1 ++ g2)
| matched_alt_l (r1 r2 : regex) (t : pystr) g :
    matched ignorecase r1 t g -> matched ignorecase (Alt r1 r2) t g
| matched_alt_r (r1 r2 : regex) (t : pystr) g :
    matched ignorecase r2 t g -> matched ignorecase (Alt r1 r2) t g
| matched_group (name : string) (r : regex) (t : pystr) g :
    matched ignorecase r t g ->
    matched ignorecase (Group name r) t (g ++ [(name, t)]).

(** What holds of the character database of every Unicode version: a
    decimal digit has a value from 0 to 9 and is no white space. *)
Definition db_wf : Prop :=
  forall c v, ucd_decimal U c = Some v -> 0 <= v <= 9 /\ ucd_space U c = false.

(** The digits of a [\x], [\u] or [\U] escape and the decoding of what
    follows, as [decode_unicode_escape] reads them. *)
Definition hex_tail (msg : string) : nat -> N -> list N -> result pystr :=
  fix hex (count : nat) (ch : N) (l : list N) {struct l} : result pystr :=
    match count with
    | O =>
        if (MAX_UNICODE <? ch)%N
        then Raise (UnicodeDecodeError "illegal Unicode character")
        else emit ch (decode_unicode_escape l)
    | S count' =>
        match l with
        | [] => Raise (UnicodeDecodeError msg)
        | h :: l' =>
            match hex_value h with
            | Some v => hex count' (ch * 16 + v)%N l'
            | None => Raise (UnicodeDecodeError msg)
            end
        end
    end.

(** The name of a [\N{...}] escape and the decoding of what follows. *)
Definition name_tail : list N -> list N -> result pystr :=
  fix name (acc : list N) (l : list N) {struct l} : result pystr :=
    match l with
    | [] => Raise (UnicodeDecodeError "malformed \N character escape")
    | x :: l' =>
        if (x =? 125)%N then
          match acc with
          | [] => Raise (UnicodeDecodeError "malformed \N character escape")
          | _ :: _ =>
              match ucd_name U acc with
              | Some ch => emit ch (decode_unicode_escape l')
              | None =>
                  Raise (UnicodeDecodeError "unknown Unicode character name")
              end
          end
        else name (acc ++ [x]) l'
    end.

Definition is_UnicodeDecodeError (e : exn) : Prop :=
  exists msg, e = UnicodeDecodeError msg.

(* ===================================================================== *)
(** * Vocabulary for the runs of the program *)
(* ===================================================================== *)

(** The cache file [key] can be opened for writing: the directory is
    there or can be made, and the file can be written or, when there is
    none, created. *)
Definition can_store (key : pystr) (w : world) : bool :=
  match cache_dir w, cache_files w !! key with
  | DirUnavailable, _ => false
  | _, Some f => writable f
  | DirPresent can_create_files, None => can_create_files
  | DirAbsent, None => true
  end.

(** The file that holds the pickle of [entries] once it is stored over
    [old]. *)
Definition stored (entries : gmap (list N) menu_entry) (old : option file)
  : file :=
  {| readable := readable (truncated old); writable := true;
     content := Pickle (PyEntries entries) |}.

(** A computation that only prints: it adds lines to the output and
    changes nothing else of the world. *)
Definition only_prints {A} (m : io A) : Prop :=
  forall w, exists lines,
    trace (m w).2 = map Print lines ++ trace w
    /\ today (m w).2 = today w /\ remote (m w).2 = remote w
    /\ cache_dir (m w).2 = cache_dir w
    /\ cache_files (m w).2 = cache_files w.

(** The end of a run of [main] that has entries: they are displayed and
    the exit status is 0. *)
Definition show (json : bool) (entries : pyobj) (opts : options) : io Z :=
  _ ← display json entries opts;
  mret 0.

(** What [main] does once the arguments are parsed and the cache has
    been probed. *)
Definition after_probe (json : bool) (restaurant : Z) (day : date)
  (meal : pystr) (week : bool) (key : pystr) (entries : pyobj) : io Z :=
  match entries with
  | PyNone => on_miss json restaurant day meal week key
  | _ => show json entries (restaurant, day, meal, week)
  end.

(** The world after the request for the menus of [restaurant]. *)
Definition requested (restaurant : Z) (w : world) : world :=
  {| today := today w; remote := remote w; cache_dir := cache_dir w;
     cache_files := cache_files w;
     trace := HttpPost request_url (request_data restaurant) :: trace w |}.

(** The quotient [ratio] rounds. *)
Definition quotient (a b : pystr) : Q :=
  Qmake (2 * Z.of_nat (matches (S (length a)) a b))
        (Pos.of_nat (length a + length b)).

(** A quotient that is below 1 by 2^-52 or more is rounded to a float
    below the one 1 is rounded to.  The rounding to the nearest binary64
    number is such: it does not decrease, 1 is a float, and so is
    1 - 2^-53. *)
Definition rounds_below_one : Prop :=
  forall q one : Q,
    (q <= 1 - (1 # 2 ^ 52))%Q -> (one == 1)%Q ->
    (float_round q < float_round one)%Q.

(** The quotient of a name of the catalog against itself is 1, and
    against every other name it is well below 1. *)
Definition catalog_apart : bool :=
  forallb
    (fun i =>
       forallb
         (fun j =>
            match restaurants !! i, restaurants !! j with
            | Some a, Some b =>
                if (i =? j)%nat then Qeq_bool (quotient a b) 1
                else Qle_bool (quotient b a) (1 - (1 # 2 ^ 52))
            | _, _ => true
            end)
         (seq 0 24))
    (seq 0 24).



(** The keys of the two entries of a day. *)
Definition lunch_key (day : date) : pystr :=
  strftime_full day (py "%d/%m/%Y") ++ py "-lunch".

Definition dinner_key (day : date) : pystr :=
  strftime_full day (py "%d/%m/%Y") ++ py "-dinner".

(** The lines the run has printed, latest first. *)
Definition printed (w : world) : list pystr :=
  omap (fun e => match e with Print line => Some line | _ => None end)
    (trace w).

(* ===================================================================== *)
(** * What the matcher takes first *)
(* ===================================================================== *)

(** [takes ignorecase r pre groups]: on a text that starts with [pre] the
    matcher, trying [r], comes first to the match of [pre] with the groups
    [groups], whatever follows; so if what follows can be matched from
    there, that match is the one returned. *)
Definition takes (ignorecase : bool) (r : regex) (pre : pystr)
  (groups : list (string * pystr)) : Prop :=
  forall (R : Type) (t : pystr) (caps : list (string * pystr))
    (k : pystr -> list (string * pystr) -> option R) (x : R),
    k t (caps ++ groups) = Some x ->
    match_re ignorecase r (pre ++ t) caps k = Some x.

(** [refuses ignorecase r pre]: [r] matches nothing at the start of a
    text that starts with [pre]. *)
Definition refuses (ignorecase : bool) (r : regex) (pre : pystr) : Prop :=
  forall (R : Type) (t : pystr) (caps : list (string * pystr))
    (k : pystr -> list (string * pystr) -> option R),
    match_re ignorecase r (pre ++ t) caps k = None.

(** A lower-case ASCII text. *)
Definition lower_ascii (l : pystr) : bool :=
  forallb (fun c => (c <? 128)%N && (ascii_lower_char c =? c)%N) l.

(** The literal [l] and the lower-cased text [n] differ at a position
    both have. *)
Fixpoint differs (l n : pystr) : bool :=
  match l, n with
  | p :: l', c :: n' => if (p =? c)%N then differs l' n' else true
  | _, _ => false
  end.

(** Of the literals [ls], tried in order, [n] is the first that does not
    differ from [n]. *)
Fixpoint picks (ls : list pystr) (n : pystr) : bool :=
  match ls with
  | [] => false
  | l :: ls' =>
      lower_ascii l
      && (if str_eqb l n then true else differs l n && picks ls' n)
  end.

(** The four digits of a year from 1000 on. *)
Definition four_digits (y : Z) : pystr :=
  [Z.to_N (48 + y / 1000); Z.to_N (48 + y / 100 mod 10);
   Z.to_N (48 + y / 10 mod 10); Z.to_N (48 + y mod 10)].

(** The regular expression of a directive the formats use. *)
Definition regex_of (d : N) : regex := default (Lit []) (directive_regex d).

(* ===================================================================== *)
(** * Calendar arithmetic *)
(* ===================================================================== *)

Ltac euclid := Z.to_euclidean_division_equations; lia.

Lemma is_leap_cases (y : Z) :
  (is_leap y = true /\ y mod 4 = 0 /\ (y mod 100 <> 0 \/ y mod 400 = 0))
  \/ (is_leap y = false /\ (y mod 4 <> 0 \/ (y mod 100 = 0 /\ y mod 400 <> 0))).
Proof.
  unfold is_leap.
  destruct (Z.eqb_spec (y mod 4) 0), (Z.eqb_spec (y mod 100) 0),
    (Z.eqb_spec (y mod 400) 0); simpl; intuition lia.
Qed.

Lemma days_before_year_succ (y : Z) :
  days_before_year (y + 1)
  = days_before_year y + 365 + (if is_leap y then 1 else 0).
Proof.
  unfold days_before_year.
  replace (y + 1 - 1) with y by lia.
  destruct (is_leap_cases y) as [(-> & ?) | (-> & ?)]; euclid.
Qed.

Lemma days_before_year_mono (y1 y2 : Z) :
  y1 <= y2 -> days_before_year y1 <= days_before_year y2.
Proof. unfold days_before_year. intros. euclid. Qed.

Lemma days_before_year_1 : days_before_year 1 = 0.
Proof. reflexivity. Qed.

Lemma valid_fields (d : date) :
  valid d = true ->
  1 <= year d <= 9999 /\ 1 <= month d <= 12
  /\ 1 <= day d <= days_in_month (year d) (month d).
Proof.
  unfold valid, MINYEAR, MAXYEAR. rewrite !andb_true_iff, !Z.leb_le. lia.
Qed.

Lemma yday_range (d : date) :
  valid d = true ->
  1 <= yday d <= 365 + (if is_leap (year d) then 1 else 0).
Proof.
  intros (_ & Hm & Hd)%valid_fields. revert Hd.
  unfold yday, days_in_month, days_before_month.
  assert (month d = 1 \/ month d = 2 \/ month d = 3 \/ month d = 4
          \/ month d = 5 \/ month d = 6 \/ month d = 7 \/ month d = 8
          \/ month d = 9 \/ month d = 10 \/ month d = 11 \/ month d = 12)
    as Hcases by lia.
  destruct (is_leap (year d));
    repeat (destruct Hcases as [-> | Hcases]; [simpl; lia |]);
    rewrite Hcases; simpl; lia.
Qed.

Lemma toordinal_yday (d : date) :
  toordinal d = days_before_year (year d) + yday d.
Proof. unfold toordinal, ymd2ord, yday. lia. Qed.

(** A date lies in its own year. *)
Lemma toordinal_in_year (d : date) :
  valid d = true ->
  days_before_year (year d) < toordinal d <= days_before_year (year d + 1).
Proof.
  intros Hv. rewrite toordinal_yday, days_before_year_succ.
  pose proof (yday_range d Hv). lia.
Qed.


Lemma week_number_monday (d : date) :
  week_number d = (monday_of d - days_before_year (year d) + 7) / 7.
Proof.
  unfold week_number, monday_of, weekday. rewrite (toordinal_yday d).
  generalize (days_before_year (year d)) (yday d). intros a b. euclid.
Qed.

Lemma week_number_range (d : date) :
  valid d = true -> 0 <= week_number d <= 53.
Proof.
  intros Hv. unfold week_number, weekday.
  pose proof (yday_range d Hv).
  destruct (is_leap (year d)); euclid.
Qed.

Lemma new_december_31 (y : Z) :
  1 <= y <= 9999 -> datetime.new y 12 31 = Ok (Date y 12 31).
Proof.
  intros Hy. unfold datetime.new, MINYEAR, MAXYEAR.
  replace (negb ((1 <=? y) && (y <=? 9999))) with false
    by (symmetry; apply negb_false_iff, andb_true_iff; lia).
  reflexivity.
Qed.

Lemma december_31 (y : Z) :
  1 <= y <= 9999 ->
  valid (Date y 12 31) = true
  /\ toordinal (Date y 12 31) = days_before_year (y + 1).
Proof.
  intros Hy. split.
  - unfold valid, MINYEAR, MAXYEAR; simpl.
    rewrite !andb_true_iff, !Z.leb_le. unfold days_in_month; simpl. lia.
  - rewrite days_before_year_succ.
    unfold toordinal, ymd2ord, days_before_month; simpl.
    destruct (is_leap y); lia.
Qed.

(* ===================================================================== *)
(** * Rendering of week buckets *)
(* ===================================================================== *)


Lemma strftime_YwW_bucket (d : date) :
  strftime d (py "%Yw%W") = bucket (year d) (week_number d).
Proof.
  unfold bucket.
  replace (py "%Yw%W") with [37%N; 89%N; 119%N; 37%N; 87%N]
    by (vm_compute; reflexivity).
  replace (py "w") with [119%N] by (vm_compute; reflexivity).
  simpl. by rewrite app_nil_r.
Qed.

Lemma digits_of_uint_inj (a b : Decimal.uint) :
  digits_of_uint a = digits_of_uint b -> a = b.
Proof.
  revert b. induction a; intros b; destruct b; simpl; intros H;
    try discriminate; try reflexivity;
    injection H as H; f_equal; auto.
Qed.

Lemma str_of_nonneg_inj (a b : Z) :
  0 <= a -> 0 <= b -> str_of_nonneg a = str_of_nonneg b -> a = b.
Proof.
  unfold str_of_nonneg. intros Ha Hb H%digits_of_uint_inj.
  apply DecimalN.Unsigned.to_uint_inj in H. lia.
Qed.

Lemma str_of_int_nonneg (a : Z) : 0 <= a -> str_of_int a = str_of_nonneg a.
Proof. unfold str_of_int. intros. destruct (Z.ltb_spec a 0); [lia | done]. Qed.


Lemma format_02_two_digits (w : Z) :
  0 <= w < 100 -> format_02 w = two_digits w.
Proof.
  intros Hw.
  assert (forallb (fun n => bool_decide
            (format_02 (Z.of_nat n) = two_digits (Z.of_nat n)))
            (seq 0 100) = true) as Hall by (vm_compute; reflexivity).
  rewrite forallb_forall in Hall.
  specialize (Hall (Z.to_nat w)).
  rewrite Z2Nat.id in Hall by lia.
  rewrite bool_decide_eq_true in Hall. apply Hall, in_seq. lia.
Qed.

Lemma two_digits_inj (w1 w2 : Z) :
  0 <= w1 < 100 -> 0 <= w2 < 100 -> two_digits w1 = two_digits w2 -> w1 = w2.
Proof.
  unfold two_digits. intros H1 H2 H. injection H as Ha Hb.
  apply Z2N.inj in Ha, Hb; euclid.
Qed.

Lemma bucket_inj (y1 w1 y2 w2 : Z) :
  0 <= y1 -> 0 <= y2 -> 0 <= w1 < 100 -> 0 <= w2 < 100 ->
  bucket y1 w1 = bucket y2 w2 -> y1 = y2 /\ w1 = w2.
Proof.
  intros Hy1 Hy2 Hw1 Hw2. unfold bucket.
  rewrite !str_of_int_nonneg, !format_02_two_digits by lia.
  intros H. apply app_inj_2 in H as [Hy Hw]; [| reflexivity].
  split; [by apply str_of_nonneg_inj |].
  injection Hw as Hw1' Hw2'. apply two_digits_inj; [lia | lia |].
  unfold two_digits. congruence.
Qed.

Lemma endswith_bucket (y w : Z) :
  0 <= w < 100 -> endswith (bucket y w) (py "w00") = true <-> w = 0.
Proof.
  intros Hw. unfold bucket, endswith.
  rewrite format_02_two_digits by lia.
  rewrite !rev_app_distr. unfold two_digits.
  remember (Z.to_N (48 + w / 10)) as c1 eqn:E1.
  remember (Z.to_N (48 + w mod 10)) as c2 eqn:E2.
  change (startswith (c2 :: c1 :: 119%N :: rev (str_of_int y))
            [48%N; 48%N; 119%N] = true <-> w = 0).
  cbn [startswith]. rewrite !andb_true_iff, !N.eqb_eq. subst c1 c2.
  split.
  - intros (H2 & H1 & _). change 48%N with (Z.to_N 48) in H1, H2.
    apply Z2N.inj in H1, H2; euclid.
  - intros ->. repeat split.
Qed.

(* ===================================================================== *)
(** * The bucket of a date is the bucket of its week's Monday *)
(* ===================================================================== *)

(** What [get_week] computes, in terms of the Monday that starts the
    week: the year that Monday falls in, and the rank of the week among
    the weeks of that year that start on a Monday. *)
Lemma get_week_monday (d : date) :
  valid d = true ->
  exists y w,
    get_week d = Ok (bucket y w)
    /\ 1 <= y <= year d
    /\ 1 <= w <= 53
    /\ days_before_year y <= monday_of d < days_before_year (y + 1)
    /\ w = (monday_of d - days_before_year y) / 7 + 1.
Proof.
  intros Hv.
  pose proof (valid_fields d Hv) as (Hy & _ & _).
  pose proof (toordinal_in_year d Hv) as Hord.
  pose proof (week_number_range d Hv) as Hw.
  pose proof (week_number_monday d) as HW.
  assert (0 <= monday_of d <= toordinal d - 1
          /\ toordinal d - 1 < monday_of d + 7) as HM.
  { unfold monday_of.
    pose proof (days_before_year_mono 1 (year d) ltac:(lia)) as H0.
    rewrite days_before_year_1 in H0. euclid. }
  unfold get_week. rewrite strftime_YwW_bucket.
  destruct (endswith (bucket (year d) (week_number d)) (py "w00")) eqn:E.
  - (* week 0: the Monday is in the previous year *)
    apply endswith_bucket in E; [| lia].
    assert (monday_of d < days_before_year (year d)) as Hlt
      by (rewrite E in HW; euclid).
    assert (year d <> 1) as Hy1.
    { intros Heq. rewrite Heq, days_before_year_1 in Hlt. lia. }
    destruct (december_31 (year d - 1) ltac:(lia)) as [Hv' Ho'].
    replace (year d - 1 + 1) with (year d) in Ho' by lia.
    rewrite new_december_31 by lia.
    cbn -[strftime]. rewrite strftime_YwW_bucket.
    set (d' := Date (year d - 1) 12 31) in *.
    assert (monday_of d' = monday_of d) as HM'.
    { unfold monday_of at 1. rewrite Ho'. unfold monday_of in *. euclid. }
    pose proof (week_number_monday d') as HW'.
    pose proof (week_number_range d' Hv') as Hw'.
    rewrite HM' in HW'. change (year d') with (year d - 1) in *.
    pose proof (days_before_year_succ (year d - 1)) as Hs.
    replace (year d - 1 + 1) with (year d) in Hs by lia.
    exists (year d - 1), (week_number d').
    replace (year d - 1 + 1) with (year d) by lia.
    split; [reflexivity |].
    destruct (is_leap (year d - 1)); repeat split; try lia; euclid.
  - (* the Monday is in the year of the date *)
    assert (week_number d <> 0) as Hnz.
    { intros H0. apply not_true_iff_false in E. apply E.
      apply endswith_bucket; lia. }
    assert (days_before_year (year d) <= monday_of d) as Hge by euclid.
    exists (year d), (week_number d).
    split; [reflexivity |].
    repeat split; try lia; euclid.
Qed.

(** The year a day belongs to is determined by the day. *)
Lemma year_of_day_unique (y1 y2 n : Z) :
  days_before_year y1 <= n < days_before_year (y1 + 1) ->
  days_before_year y2 <= n < days_before_year (y2 + 1) ->
  y1 = y2.
Proof.
  intros H1 H2.
  destruct (Z.lt_trichotomy y1 y2) as [Hlt | [-> | Hgt]]; [| done |].
  - pose proof (days_before_year_mono (y1 + 1) y2 ltac:(lia)). lia.
  - pose proof (days_before_year_mono (y2 + 1) y1 ltac:(lia)). lia.
Qed.

Example get_week_2023_01_01 :
  get_week (Date 2023 1 1) = Ok (py "2022w52").
Proof. vm_compute. reflexivity. Qed.

Example get_week_2026_11_03 :
  get_week (Date 2026 11 3) = Ok (py "2026w44").
Proof. vm_compute. reflexivity. Qed.

Example ord_roundtrip_2024_02_29 :
  fromordinal (toordinal (Date 2024 2 29)) = Ok (Date 2024 2 29).
Proof. vm_compute. reflexivity. Qed.


(* ===================================================================== *)
(** * Properties of [get_week] *)
(* ===================================================================== *)

(** [get_week] never raises on a date. *)
Lemma get_week_total (d : date) :
  valid d = true -> exists s, get_week d = Ok s.
Proof. intros (y & w & -> & _)%get_week_monday. eauto. Qed.

(** C4, as stated, fails: Saturday January 7th 2023 and Sunday January 8th
    2023 lie in different Sunday-to-Saturday weeks and share the bucket
    [2023w01], while Sunday January 8th and Monday January 9th lie in the
    same Sunday-to-Saturday week and have different buckets. *)
Lemma get_week_not_sunday_based :
  valid (Date 2023 1 7) = true /\ valid (Date 2023 1 8) = true
  /\ valid (Date 2023 1 9) = true
  /\ weekday (Date 2023 1 8) = 6
  /\ get_week (Date 2023 1 7) = Ok (py "2023w01")
  /\ get_week (Date 2023 1 8) = Ok (py "2023w01")
  /\ ~ same_sunday_week (Date 2023 1 7) (Date 2023 1 8)
  /\ get_week (Date 2023 1 9) = Ok (py "2023w02")
  /\ same_sunday_week (Date 2023 1 8) (Date 2023 1 9).
Proof. vm_compute. repeat split; congruence. Qed.

(** C4, amended: two dates have the same bucket exactly when they fall in
    the same Monday-to-Sunday week ([%W] counts weeks from Monday). *)
Theorem get_week_same_monday_week (d1 d2 : date) :
  valid d1 = true -> valid d2 = true ->
  (get_week d1 = get_week d2 <-> same_monday_week d1 d2).
Proof.
  intros Hv1 Hv2.
  destruct (get_week_monday d1 Hv1) as (y1 & w1 & E1 & Hy1 & Hw1 & Hb1 & ->).
  destruct (get_week_monday d2 Hv2) as (y2 & w2 & E2 & Hy2 & Hw2 & Hb2 & ->).
  rewrite E1, E2. unfold same_monday_week.
  assert (monday_of d1 = monday_of d2
          <-> (toordinal d1 - 1) / 7 = (toordinal d2 - 1) / 7) as <-
    by (unfold monday_of; lia).
  split.
  - intros H. injection H as H.
    apply bucket_inj in H as [-> Hw]; [| lia ..].
    unfold monday_of in *. euclid.
  - intros HM. rewrite HM in *.
    by rewrite (year_of_day_unique y1 y2 (monday_of d2)).
Qed.

Lemma get_week_same_monday_week_witness :
  valid (Date 2022 12 31) = true /\ valid (Date 2023 1 1) = true
  /\ (get_week (Date 2022 12 31) = get_week (Date 2023 1 1)
      <-> same_monday_week (Date 2022 12 31) (Date 2023 1 1)).
Proof.
  split; [reflexivity |]. split; [reflexivity |].
  apply (get_week_same_monday_week (Date 2022 12 31) (Date 2023 1 1));
    reflexivity.
Defined.

(** C5: when the direct formatting of a date ends in week [00], [get_week]
    returns the bucket formatted from December 31st of the previous year;
    January 1st 2023 does not yield [2023w00] but [2022w52], the last week
    of 2022. *)
Theorem get_week_week_zero (d : date) :
  valid d = true ->
  endswith (strftime d (py "%Yw%W")) (py "w00") = true ->
  get_week d = Ok (strftime (Date (year d - 1) 12 31) (py "%Yw%W"))
  /\ valid (Date (year d - 1) 12 31) = true
  /\ strftime (Date 2023 1 1) (py "%Yw%W") = py "2023w00"
  /\ get_week (Date 2023 1 1) = Ok (py "2022w52")
  /\ get_week (Date 2022 12 31) = Ok (py "2022w52").
Proof.
  intros Hv H0.
  assert (1 <= year d - 1 <= 9999) as Hy.
  { pose proof (valid_fields d Hv) as (Hy & _ & _).
    rewrite strftime_YwW_bucket in H0.
    apply endswith_bucket in H0; [| pose proof (week_number_range d Hv); lia].
    rewrite week_number_monday in H0.
    assert (year d <> 1); [| lia].
    intros Heq. rewrite Heq, days_before_year_1 in H0.
    unfold monday_of in H0.
    pose proof (toordinal_in_year d Hv) as Ho.
    rewrite Heq, days_before_year_1 in Ho. euclid. }
  destruct (december_31 (year d - 1) Hy) as [Hv' _].
  split; [| split; [exact Hv' | by vm_compute]].
  unfold get_week. rewrite H0, new_december_31 by lia. reflexivity.
Qed.

Lemma get_week_week_zero_witness :
  valid (Date 2023 1 1) = true
  /\ endswith (strftime (Date 2023 1 1) (py "%Yw%W")) (py "w00") = true
  /\ get_week (Date 2023 1 1)
     = Ok (strftime (Date 2022 12 31) (py "%Yw%W")).
Proof.
  split; [reflexivity |]. split; [reflexivity |].
  apply (get_week_week_zero (Date 2023 1 1)); reflexivity.
Defined.

(** C10: the bucket of a date never has week number [00]: [get_week]
    returns [<year>w<week>] with a week between 1 and 53 (in every year
    from 1 on), and that string does not end in [w00]. *)
Theorem get_week_never_week_zero (d : date) :
  valid d = true ->
  exists y w,
    get_week d = Ok (bucket y w)
    /\ 1 <= y <= year d /\ 1 <= w <= 53
    /\ endswith (bucket y w) (py "w00") = false.
Proof.
  intros Hv.
  destruct (get_week_monday d Hv) as (y & w & E & Hy & Hw & _ & _).
  exists y, w. repeat split; try done; try lia.
  apply not_true_iff_false. rewrite endswith_bucket; lia.
Qed.

Lemma get_week_never_week_zero_witness :
  valid (Date 2023 1 1) = true
  /\ exists y w,
       get_week (Date 2023 1 1) = Ok (bucket y w)
       /\ 1 <= y <= 2023 /\ 1 <= w <= 53
       /\ endswith (bucket y w) (py "w00") = false.
Proof.
  split; [reflexivity |].
  apply (get_week_never_week_zero (Date 2023 1 1)). reflexivity.
Defined.

(* ===================================================================== *)
(** * Ordinals and dates *)
(* ===================================================================== *)

Lemma check_from_succ (start : Z) (count : N) :
  check_from start (N.succ count)
  = ((check_from start count).1 && ord_ok (check_from start count).2,
     (check_from start count).2 + 1).
Proof.
  unfold check_from. rewrite N.iter_succ. by destruct (N.iter count _ _).
Qed.

Lemma check_from_next (start : Z) (count : N) :
  (check_from start count).2 = start + Z.of_N count.
Proof.
  induction count as [| count IH] using N.peano_ind; [simpl; lia |].
  rewrite check_from_succ. simpl. lia.
Qed.

Lemma check_from_sound (start : Z) (count : N) :
  (check_from start count).1 = true ->
  forall n, start <= n < start + Z.of_N count -> ord_ok n = true.
Proof.
  induction count as [| count IH] using N.peano_ind; [intros _ n; lia |].
  rewrite check_from_succ, check_from_next. simpl.
  intros [H1 H2]%andb_true_iff n Hn.
  destruct (decide (n = start + Z.of_N count)) as [-> | Hne]; [done |].
  apply IH; [done | lia].
Qed.

(** The 146097 days of the first 400 years, one by one. *)
Lemma ord_ok_first_cycle (n : Z) : 1 <= n <= DI400Y -> ord_ok n = true.
Proof.
  intros Hn. apply (check_from_sound 1 146097); [| unfold DI400Y in Hn; lia].
  vm_compute. reflexivity.
Qed.

Lemma is_leap_period (y : Z) : is_leap (y + 400) = is_leap y.
Proof.
  unfold is_leap.
  replace ((y + 400) mod 4) with (y mod 4) by euclid.
  replace ((y + 400) mod 100) with (y mod 100) by euclid.
  by replace ((y + 400) mod 400) with (y mod 400) by euclid.
Qed.

Lemma days_before_year_period (y : Z) :
  days_before_year (y + 400) = days_before_year y + DI400Y.
Proof. unfold days_before_year, DI400Y. euclid. Qed.

(** The calendar repeats every 400 years. *)
Lemma ord2ymd_period (n : Z) :
  ord2ymd (n + DI400Y)
  = Date (year (ord2ymd n) + 400) (month (ord2ymd n)) (day (ord2ymd n)).
Proof.
  unfold ord2ymd.
  replace (n + DI400Y - 1) with (n - 1 + 1 * DI400Y) by lia.
  rewrite Z.div_add, Z.mod_add by done.
  cbv zeta.
  destruct ((_ =? 4) || (_ =? 4)); simpl; [f_equal; lia |].
  destruct (_ <? _); simpl; f_equal; lia.
Qed.

Lemma ord_ok_period (n : Z) : ord_ok n = true -> ord_ok (n + DI400Y) = true.
Proof.
  unfold ord_ok. rewrite ord2ymd_period. cbv zeta.
  destruct (ord2ymd n) as [y m d]. simpl.
  unfold toordinal, ymd2ord, days_in_month, days_before_month. simpl.
  rewrite is_leap_period, days_before_year_period.
  rewrite !andb_true_iff, !Z.leb_le, !Z.eqb_eq. lia.
Qed.

Lemma ord_ok_all (n : Z) : 1 <= n -> ord_ok n = true.
Proof.
  intros Hn.
  assert (forall k, 0 <= k -> forall n,
            1 <= n <= (k + 1) * DI400Y -> ord_ok n = true) as Hcycles.
  { apply (natlike_ind (fun k => forall n,
             1 <= n <= (k + 1) * DI400Y -> ord_ok n = true)).
    - intros m Hm. apply ord_ok_first_cycle. lia.
    - intros k Hk IH m Hm.
      destruct (decide (m <= DI400Y)) as [Hle | Hgt];
        [apply ord_ok_first_cycle; lia |].
      replace m with (m - DI400Y + DI400Y) by lia.
      apply ord_ok_period, IH. unfold DI400Y in *. lia. }
  apply (Hcycles (n / DI400Y)); unfold DI400Y; euclid.
Qed.

(** [fromordinal] returns the date with the ordinal it is given. *)
Lemma fromordinal_spec (n : Z) :
  1 <= n <= MAXORDINAL ->
  exists d, fromordinal n = Ok d /\ valid d = true /\ toordinal d = n.
Proof.
  intros Hn. unfold fromordinal.
  replace ((1 <=? n) && (n <=? MAXORDINAL)) with true
    by (symmetry; apply andb_true_iff; lia).
  exists (ord2ymd n). split; [done |].
  pose proof (ord_ok_all n ltac:(lia)) as Hok. unfold ord_ok in Hok.
  cbv zeta in Hok. revert Hok.
  rewrite !andb_true_iff, !Z.leb_le, Z.eqb_eq.
  intros (((((Hy & Hm1) & Hm2) & Hd1) & Hd2) & Ho). split; [| done].
  unfold valid, MINYEAR, MAXYEAR. rewrite !andb_true_iff, !Z.leb_le.
  repeat split; try lia.
  (* the year is at most 9999, the ordinal being at most that of the last day *)
  destruct (decide (year (ord2ymd n) <= 9999)) as [Hle | Hgt]; [done |].
  pose proof (days_before_year_mono 10000 (year (ord2ymd n)) ltac:(lia)) as Hmono.
  rewrite toordinal_yday in Ho.
  assert (1 <= yday (ord2ymd n)); [| unfold MAXORDINAL in Hn;
    change (days_before_year 10000) with 3652059 in Hmono; lia].
  unfold yday, days_before_month.
  assert (0 <= DAYS_BEFORE_MONTH (month (ord2ymd n))).
  { assert (month (ord2ymd n) = 1 \/ month (ord2ymd n) = 2
            \/ month (ord2ymd n) = 3 \/ month (ord2ymd n) = 4
            \/ month (ord2ymd n) = 5 \/ month (ord2ymd n) = 6
            \/ month (ord2ymd n) = 7 \/ month (ord2ymd n) = 8
            \/ month (ord2ymd n) = 9 \/ month (ord2ymd n) = 10
            \/ month (ord2ymd n) = 11 \/ month (ord2ymd n) = 12) as Hc by lia.
    repeat (destruct Hc as [-> | Hc]; [simpl; lia |]). rewrite Hc. simpl. lia. }
  destruct ((2 <? month (ord2ymd n)) && is_leap (year (ord2ymd n))); lia.
Qed.

(* ===================================================================== *)
(** * Properties of the fetch *)
(* ===================================================================== *)


Example parse_sample_response :
  parse_response sample_response
  = Ok (<[py "02/11/2026-lunch" :=
            {| menu := py "Arroz" ++ [NEWLINE] ++ py "Feij" ++ [227%N; 111%N];
               calories := 850 |}]> ∅).
Proof. vm_compute. reflexivity. Qed.

Lemma dict_of_keeps {A} (f : A -> result (pystr * menu_entry)) items acc d :
  dict_of f items acc = Ok d ->
  forall k : list N, is_Some (acc !! k) -> is_Some (d !! k).
Proof.
  revert acc. induction items as [| x items IH]; intros acc; simpl.
  - intros [= ->]. done.
  - destruct (f x) as [kv |]; simpl; [| discriminate].
    intros H k Hk. apply (IH _ H).
    destruct (decide (kv.1 = k)) as [-> | Hne].
    + rewrite lookup_insert_eq. eauto.
    + by rewrite lookup_insert_ne.
Qed.

(** When every item converts, the dictionary is built and holds a value
    for the key of every item. *)
Lemma dict_of_all_ok {A} (f : A -> result (pystr * menu_entry)) items acc :
  Forall (fun x => is_ok (f x) = true) items ->
  exists d,
    dict_of f items acc = Ok d
    /\ forall x kv, x ∈ items -> f x = Ok kv -> is_Some (d !! kv.1).
Proof.
  revert acc. induction items as [| x items IH]; intros acc Hall; simpl.
  - exists acc. split; [done |]. intros x kv Hx. by apply elem_of_nil in Hx.
  - apply Forall_cons in Hall as [Hx Hall].
    destruct (f x) as [kv |] eqn:Ex; [| discriminate]. simpl.
    destruct (IH (<[kv.1 := kv.2]> acc) Hall) as (d & Hd & Hkeys).
    exists d. split; [done |].
    intros y kv' [-> | Hy]%elem_of_cons Ey.
    + rewrite Ex in Ey. injection Ey as <-.
      apply (dict_of_keeps _ _ _ _ Hd). rewrite lookup_insert_eq. eauto.
    + by apply (Hkeys y).
Qed.

(** One item that does not convert makes the construction raise. *)
Lemma dict_of_raises {A} (f : A -> result (pystr * menu_entry)) items acc x e :
  x ∈ items -> f x = Raise e -> exists e', dict_of f items acc = Raise e'.
Proof.
  revert acc. induction items as [| y items IH]; intros acc Hx Ex; simpl.
  - by apply elem_of_nil in Hx.
  - apply elem_of_cons in Hx as [<- | Hx].
    + rewrite Ex. simpl. eauto.
    + destruct (f y) as [kv |]; simpl; [by apply IH | eauto].
Qed.

Lemma entry_to_key_value_ok (entry : list pystr) :
  is_ok (entry_to_key_value entry) = is_ok (sanitise_entry entry).
Proof. unfold entry_to_key_value. by destruct (sanitise_entry entry). Qed.

Lemma meal_names_lookup (meal : pystr) :
  meal_names !! meal
  = if decide (meal = py "J") then Some (py "dinner")
    else if decide (meal = py "A") then Some (py "lunch")
    else None.
Proof.
  unfold meal_names.
  destruct (decide (meal = py "J")) as [-> | HJ];
    [by rewrite lookup_insert_eq |].
  rewrite lookup_insert_ne by done.
  destruct (decide (meal = py "A")) as [-> | HA];
    [by rewrite lookup_insert_eq |].
  by rewrite lookup_insert_ne.
Qed.

(** C2, amended: the fetch returns a set of entries exactly when the
    request succeeds and every record extracted from the response is
    sanitised without error, and the set then holds an entry under the key
    of every extracted record; a record that is not sanitised makes the
    whole fetch raise instead of being left out. *)
Theorem fetch_entries_http_all_or_nothing (restaurant : Z) (w : world)
  (text : pystr) :
  remote w request_url (request_data restaurant) = Ok text ->
  let records := findall regex_entries text in
  (Forall (fun r => is_ok (sanitise_entry r) = true) records ->
   exists d,
     (fetch_entries_http restaurant w).1 = Ok d
     /\ forall r v, r ∈ records -> sanitise_entry r = Ok v ->
                    is_Some (d !! (s_date v ++ py "-" ++ s_meal v)))
  /\ (forall r e, r ∈ records -> sanitise_entry r = Raise e ->
      exists e', (fetch_entries_http restaurant w).1 = Raise e').
Proof.
  intros Hremote records.
  assert ((fetch_entries_http restaurant w).1 = parse_response text) as ->.
  { unfold fetch_entries_http, requests_post, mbind, io_bind, lift. simpl.
    by rewrite Hremote. }
  unfold parse_response. fold records. split.
  - intros Hall.
    destruct (dict_of_all_ok entry_to_key_value records ∅) as (d & Hd & Hkeys).
    { eapply Forall_impl; [exact Hall |]. intros r Hr.
      by rewrite entry_to_key_value_ok. }
    exists d. split; [done |]. intros r v Hr Ev.
    apply (Hkeys r (s_date v ++ py "-" ++ s_meal v,
                    {| menu := s_menu v; calories := s_calories v |}) Hr).
    unfold entry_to_key_value. by rewrite Ev.
  - intros r e Hr Er.
    apply (dict_of_raises entry_to_key_value records ∅ r e Hr).
    unfold entry_to_key_value. by rewrite Er.
Qed.


(* ===================================================================== *)
(** * Properties of [get_restaurant_code] *)
(* ===================================================================== *)

Lemma common_prefix_le (a b : pystr) : (common_prefix a b <= length a)%nat.
Proof.
  revert b. induction a as [| x a IH]; intros [| y b]; simpl; try lia.
  destruct (x =? y)%N; [specialize (IH b) |]; lia.
Qed.

Lemma scan_b_bound (a' : pystr) (i : nat) (b' : pystr) (j : nat)
  (best : nat * nat * nat) (n : nat) :
  (i + length a' <= n)%nat -> (best.1.1 + best.2 <= n)%nat ->
  ((scan_b a' i b' j best).1.1 + (scan_b a' i b' j best).2 <= n)%nat.
Proof.
  intros Ha. revert j best. induction b' as [| y b' IH]; intros j best Hb;
    simpl; [done |].
  apply IH. destruct (best.2 <? common_prefix a' (y :: b'))%nat; [| done].
  pose proof (common_prefix_le a' (y :: b')). simpl. lia.
Qed.

Lemma scan_a_bound (a' : pystr) (i : nat) (b : pystr)
  (best : nat * nat * nat) (n : nat) :
  (i + length a' <= n)%nat -> (best.1.1 + best.2 <= n)%nat ->
  ((scan_a a' i b best).1.1 + (scan_a a' i b best).2 <= n)%nat.
Proof.
  revert i best. induction a' as [| x a' IH]; intros i best Ha Hb; simpl;
    [done |].
  apply IH; [simpl in Ha; lia |]. by apply scan_b_bound.
Qed.

(** The longest block lies inside [a]. *)
Lemma find_longest_match_bound (a b : pystr) (i j k : nat) :
  find_longest_match a b = (i, j, k) -> (i + k <= length a)%nat.
Proof.
  intros H.
  pose proof (scan_a_bound a 0 b (O, O, O) (length a)) as Hb.
  fold (find_longest_match a b) in Hb. rewrite H in Hb.
  apply Hb; simpl; lia.
Qed.

(** The recursion of [matches] ends before the fuel [ratio] gives it runs
    out: more fuel gives the same sum. *)
Lemma matches_fuel_enough (n m : nat) (a b : pystr) :
  (length a < n)%nat -> (length a < m)%nat -> matches n a b = matches m a b.
Proof.
  revert m a b. induction n as [| n IH]; intros [| m] a b Hn Hm; try lia.
  simpl. destruct (find_longest_match a b) as [[i j] k] eqn:E.
  apply find_longest_match_bound in E.
  destruct (Nat.eqb_spec k 0) as [-> | Hk]; [done |].
  f_equal; [f_equal |].
  - destruct ((0 <? i)%nat && (0 <? j)%nat); [| done].
    apply IH; rewrite length_take; lia.
  - destruct ((i + k <? length a)%nat && (j + k <? length b)%nat); [| done].
    apply IH; rewrite length_drop; lia.
Qed.

Lemma ratio_lt_spec (x y : Q) : ratio_lt x y = true <-> (x < y)%Q.
Proof.
  unfold ratio_lt. rewrite negb_true_iff, <- not_true_iff_false, Qle_bool_iff.
  split; [apply Qnot_le_lt | apply Qlt_not_le].
Qed.

Lemma ratio_lt_false (x y : Q) : ratio_lt x y = false <-> (y <= x)%Q.
Proof.
  rewrite <- not_true_iff_false, ratio_lt_spec.
  split; [apply Qnot_lt_le | apply Qle_not_lt].
Qed.

Section Max.
Context {A : Type} (key : A -> Q).

Lemma fold_keep_max (first : A) (rest : list A) :
  exists i,
    first_max key (first :: rest) i (fold_left (keep_max key) rest first).
Proof.
  induction rest as [| z rest IH] using rev_ind.
  - exists O. repeat split.
    + intros [| j] y Hy; [| done]. injection Hy as <-. apply Qle_refl.
    + intros j y _ Hj. lia.
  - destruct IH as (i & Hi & Hle & Hlt).
    rewrite fold_left_app. simpl.
    set (x := fold_left (keep_max key) rest first) in *.
    assert (length (first :: rest) = S (length rest)) as Hlen by done.
    assert ((i < length (first :: rest))%nat) as Hilt
      by (apply lookup_lt_is_Some; eauto).
    unfold keep_max at 1.
    destruct (ratio_lt (key x) (key z)) eqn:E.
    + apply ratio_lt_spec in E.
      exists (length (first :: rest)).
      change (first :: rest ++ [z]) with ((first :: rest) ++ [z]).
      repeat split.
      * rewrite lookup_app_r by lia. by rewrite Nat.sub_diag.
      * intros j y Hy.
        destruct (decide (j < length (first :: rest))%nat) as [Hj | Hj].
        -- rewrite lookup_app_l in Hy by done.
           apply Qlt_le_weak. eapply Qle_lt_trans; [by eapply Hle | done].
        -- rewrite lookup_app_r in Hy by lia.
           destruct (j - length (first :: rest))%nat; [| done].
           injection Hy as <-. apply Qle_refl.
      * intros j y Hy Hj. rewrite lookup_app_l in Hy by done.
        eapply Qle_lt_trans; [by eapply Hle | done].
    + apply ratio_lt_false in E.
      exists i. change (first :: rest ++ [z]) with ((first :: rest) ++ [z]).
      repeat split.
      * by rewrite lookup_app_l.
      * intros j y Hy.
        destruct (decide (j < length (first :: rest))%nat) as [Hj | Hj].
        -- rewrite lookup_app_l in Hy by done. by eapply Hle.
        -- rewrite lookup_app_r in Hy by lia.
           destruct (j - length (first :: rest))%nat; [| done].
           by injection Hy as <-.
      * intros j y Hy Hj. rewrite lookup_app_l in Hy by lia.
        by eapply Hlt.
Qed.

Lemma max_by_first_max (items : list A) :
  items <> [] ->
  exists i x, max_by key items = Some x /\ first_max key items i x.
Proof.
  destruct items as [| first rest]; [done |]. intros _.
  destruct (fold_keep_max first rest) as (i & Hi). eauto.
Qed.

End Max.

Lemma enumerate_lookup {A} (items : list A) (i : nat) (e : Z * A) :
  enumerate items !! i = Some e <-> e.1 = Z.of_nat i /\ items !! i = Some e.2.
Proof.
  unfold enumerate. rewrite list_lookup_imap.
  destruct (items !! i) as [x |]; simpl.
  - split.
    + intros [= <-]. done.
    + intros [H1 [= H2]]. destruct e; simpl in *. by subst.
  - split; [done | intros [_ ?]; done].
Qed.

Lemma restaurants_length : length restaurants = 24%nat.
Proof. reflexivity. Qed.

(** C6: for every input string [get_restaurant_code] returns an identifier
    between 1 and 24, the position in the catalog of a name whose ratio
    against the upper-cased input no other name exceeds; every name at a
    lower position has a strictly smaller ratio, so of the names with the
    greatest ratio the first is returned. *)
Theorem get_restaurant_code_first_best (search : pystr) :
  exists code name,
    get_restaurant_code search = Ok code
    /\ 1 <= code <= Z.of_nat (length restaurants)
    /\ length restaurants = 24%nat
    /\ restaurants !! Z.to_nat (code - 1) = Some name
    /\ forall (j : nat) (other : pystr),
         restaurants !! j = Some other ->
         (ratio (upper search) other <= ratio (upper search) name)%Q
         /\ (Z.of_nat j < code - 1 ->
             (ratio (upper search) other < ratio (upper search) name)%Q).
Proof.
  unfold get_restaurant_code.
  set (compare := fun entry : Z * pystr => ratio (upper search) entry.2).
  destruct (max_by_first_max compare (enumerate restaurants))
    as (i & [code name] & -> & Hi & Hle & Hlt); [done |].
  apply enumerate_lookup in Hi as [Hcode Hname]. simpl in Hcode, Hname.
  subst code.
  assert ((i < length restaurants)%nat) as Hlen
    by (apply lookup_lt_is_Some; eauto).
  exists (Z.of_nat i + 1), name. rewrite restaurants_length in *.
  cbn [fst snd].
  replace (Z.to_nat (Z.of_nat i + 1 - 1)) with i by lia.
  split; [done |]. split; [lia |]. split; [done |]. split; [done |].
  intros j other Hother. split.
  - apply (Hle j (Z.of_nat j, other)). by apply enumerate_lookup.
  - intros Hj. apply (Hlt j (Z.of_nat j, other)); [| lia].
    by apply enumerate_lookup.
Qed.

(* ===================================================================== *)
(** * Properties of [get_date] *)
(* ===================================================================== *)

Example get_date_today :
  (get_date (py "today") quiet_world).1 = Ok (Date 2026 11 3).
Proof. vm_compute. reflexivity. Qed.

Example get_date_tomorrow :
  (get_date (py "tomorrow") quiet_world).1 = Ok (Date 2026 11 4).
Proof. vm_compute. reflexivity. Qed.

Example get_date_fri :
  (get_date (py "fri") quiet_world).1 = Ok (Date 2026 11 6).
Proof. vm_compute. reflexivity. Qed.

(** The names of the days are recognised in any casing. *)
Example get_date_FRI :
  (get_date (py "FRI") quiet_world).1 = Ok (Date 2026 11 6).
Proof. vm_compute. reflexivity. Qed.

Example get_date_Sunday :
  (get_date (py "Sunday") quiet_world).1 = Ok (Date 2026 11 8).
Proof. vm_compute. reflexivity. Qed.

Example get_date_day_month :
  (get_date (py "01/02") quiet_world).1 = Ok (Date 2026 2 1).
Proof. vm_compute. reflexivity. Qed.

Example get_date_short_year :
  (get_date (py "1/2/24") quiet_world).1 = Ok (Date 2024 2 1).
Proof. vm_compute. reflexivity. Qed.

Example get_date_full :
  (get_date (py "01/02/2024") quiet_world).1 = Ok (Date 2024 2 1).
Proof. vm_compute. reflexivity. Qed.

Example get_date_no_such_day :
  (get_date (py "31/02/2024") quiet_world).1
  = Raise (ValueError "Unable to parse input date").
Proof. vm_compute. reflexivity. Qed.

(** The words of the help text are only recognised in lower case: with
    another casing the input goes to the formats, none of which parses it,
    whatever the day. *)
Lemma first_parsed_capitalised (today : date) :
  first_parsed today (py "Today") formats = Ok None
  /\ first_parsed today (py "Tomorrow") formats = Ok None
  /\ first_parsed today (py "Yesterday") formats = Ok None
  /\ first_parsed today (py "TOMORROW") formats = Ok None.
Proof. repeat split; vm_compute; reflexivity. Qed.

(** C3 fails on the code: [get_date] compares the input with the
    lower-case words only.  ["Today"], the spelling its own help text
    lists, and ["TOMORROW"] are rejected with the help text and a
    [ValueError], on every day, while ["today"] is the day itself. *)
Theorem get_date_keywords_case_sensitive (w : world) :
  (get_date (py "today") w).1 = Ok (today w)
  /\ (get_date (py "Today") w).1
     = Raise (ValueError "Unable to parse input date")
  /\ (get_date (py "TOMORROW") w).1
     = Raise (ValueError "Unable to parse input date")
  /\ trace (get_date (py "Today") w).2 = Print invalid_date_message :: trace w.
Proof.
  destruct (first_parsed_capitalised (today w)) as (H1 & _ & _ & H4).
  unfold get_date.
  replace (str_eqb (py "today") (py "today")) with true by done.
  replace (str_eqb (py "Today") (py "today")) with false by done.
  replace (str_eqb (py "Today") (py "tomorrow")) with false by done.
  replace (str_eqb (py "Today") (py "yesterday")) with false by done.
  replace (str_eqb (py "TOMORROW") (py "today")) with false by done.
  replace (str_eqb (py "TOMORROW") (py "tomorrow")) with false by done.
  replace (str_eqb (py "TOMORROW") (py "yesterday")) with false by done.
  rewrite H1, H4. repeat split.
Qed.

(* ===================================================================== *)
(** * Properties of the cache and of [main] *)
(* ===================================================================== *)


Lemma same_but_dir_refl (w : world) : same_but_dir w w.
Proof. by repeat split. Qed.

Lemma makedirs_same (w : world) : same_but_dir w (makedirs w).2.
Proof.
  unfold makedirs. destruct (cache_dir w); simpl; by repeat split.
Qed.


Lemma read_cache_same (key : pystr) (w : world) :
  same_but_dir w (read_cache key w).2.
Proof.
  unfold read_cache, open_cache, open_file, pickle_load, makedirs,
    mbind, io_bind.
  destruct (cache_dir w); simpl; [| | by repeat split];
    (destruct (cache_files w !! key) as [f |] eqn:E; simpl;
       [| by repeat split];
     destruct (readable f); simpl; [| by repeat split];
     rewrite E; destruct (content f); by repeat split).
Qed.

Lemma fetch_entries_cached_read (key : pystr) (w : world) :
  fetch_entries_cached key w
  = (match (read_cache key w).1 with
     | Ok o => Ok o
     | Raise _ => Ok PyNone
     end, (read_cache key w).2).
Proof.
  unfold fetch_entries_cached, io_try_except. fold (read_cache key).
  by destruct (read_cache key w) as [[o | e] w'].
Qed.

(** What the protected computation returns, by the state of the file. *)
Lemma read_cache_result (key : pystr) (w : world) :
  (read_cache key w).1
  = match cache_dir w with
    | DirUnavailable => Raise (OSError "cannot create the directory")
    | _ =>
        match cache_files w !! key with
        | None => Raise (OSError "No such file or directory")
        | Some f =>
            if readable f then
              match content f with
              | Pickle o => Ok o
              | Corrupt _ => Raise (UnpicklingError "invalid pickle data")
              end
            else Raise (OSError "Permission denied")
        end
    end.
Proof.
  unfold read_cache, open_cache, open_file, pickle_load, makedirs,
    mbind, io_bind.
  destruct (cache_dir w); simpl; [| | done];
    (destruct (cache_files w !! key) as [f |] eqn:E; simpl; [| done];
     destruct (readable f); simpl; [| done];
     rewrite E; by destruct (content f)).
Qed.


Lemma get_date_pure (day : pystr) (w : world) (d : date) :
  (get_date day w).1 = Ok d -> (get_date day w).2 = w.
Proof.
  unfold get_date.
  destruct (str_eqb day (py "today")); [done |].
  destruct (str_eqb day (py "tomorrow")); [done |].
  destruct (str_eqb day (py "yesterday")); [done |].
  destruct (first_parsed (today w) day formats) as [[p |] | e];
    [done | | done].
  unfold mbind, io_bind, print, log, lift. cbn [fst]. discriminate.
Qed.

Lemma parse_args_pure (parsed : namespace) (w : world) r :
  (parse_args parsed w).1 = Ok r ->
  parse_args parsed w = (Ok r, w).
Proof.
  unfold parse_args, mbind, io_bind, lift, mret, io_ret.
  pose proof (get_date_pure (ns_day parsed) w) as Hd.
  destruct (get_date (ns_day parsed) w) as [[d | e] w1]; cbn [fst snd] in *;
    [| discriminate].
  rewrite (Hd d eq_refl).
  destruct (ns_meal parsed) as [| c ?]; [discriminate |].
  destruct (get_restaurant_code (ns_restaurant parsed)); [| discriminate].
  cbn [fst]. by intros [= <-].
Qed.

Lemma is_current_week_same (d : date) (w w' : world) :
  today w' = today w ->
  is_current_week d w' = ((is_current_week d w).1, w').
Proof. unfold is_current_week. by intros ->. Qed.

Lemma fetch_entries_http_same (restaurant : Z) (w w' : world) :
  remote w' = remote w ->
  (fetch_entries_http restaurant w').1 = (fetch_entries_http restaurant w).1
  /\ same_but_dir
       (World (today w') (remote w') (cache_dir w') (cache_files w')
          (HttpPost request_url (request_data restaurant) :: trace w'))
       (fetch_entries_http restaurant w').2.
Proof.
  intros Hr.
  unfold fetch_entries_http, requests_post, mbind, io_bind, lift. simpl.
  rewrite Hr.
  destruct (remote w request_url (request_data restaurant)); simpl;
    by repeat split.
Qed.

Lemma io_bind_ok {A B} (m : io A) (k : A -> io B) (w w' : world) (a : A) :
  m w = (Ok a, w') -> (m ≫= k) w = k a w'.
Proof. unfold mbind, io_bind. by intros ->. Qed.

Lemma fetch_entries_cached_miss (key : pystr) (w : world) :
  (fetch_entries_cached key w).1 = Ok PyNone ->
  exists w', fetch_entries_cached key w = (Ok PyNone, w') /\ same_but_dir w w'.
Proof.
  intros H. exists (fetch_entries_cached key w).2. split.
  - rewrite <- H. by destruct (fetch_entries_cached key w).
  - rewrite fetch_entries_cached_read. apply read_cache_same.
Qed.


Lemma main_on_miss (parsed : namespace) (w : world) json restaurant day meal
  week key :
  (parse_args parsed w).1 = Ok (json, restaurant, day, meal, week) ->
  cache_key day restaurant = Ok key ->
  (fetch_entries_cached key w).1 = Ok PyNone ->
  exists w',
    same_but_dir w w'
    /\ main parsed w = on_miss json restaurant day meal week key w'.
Proof.
  intros Hargs%parse_args_pure Hkey (w' & Hmiss & Hsame)%fetch_entries_cached_miss.
  exists w'. split; [done |].
  unfold main.
  rewrite (io_bind_ok _ _ _ _ _ Hargs). cbn beta iota.
  rewrite Hkey.
  rewrite (io_bind_ok (lift (Ok key)) _ w w key eq_refl).
  by rewrite (io_bind_ok _ _ _ _ _ Hmiss).
Qed.

(** C1: when the cache probe misses and the requested date is not in the
    current week, [main] returns 1 having printed that the menu cannot be
    fetched; that line is all it adds to the trace, so it sends no request
    and writes no cache file. *)
Theorem main_stale_request (parsed : namespace) (w : world) json restaurant
  day meal week key :
  (parse_args parsed w).1 = Ok (json, restaurant, day, meal, week) ->
  cache_key day restaurant = Ok key ->
  (fetch_entries_cached key w).1 = Ok PyNone ->
  (is_current_week day w).1 = Ok false ->
  (main parsed w).1 = Ok 1
  /\ trace (main parsed w).2
     = Print (py "Unable to fetch menu for the requested date.") :: trace w
  /\ cache_files (main parsed w).2 = cache_files w.
Proof.
  intros Hargs Hkey Hmiss Hweek.
  destruct (main_on_miss parsed w _ _ _ _ _ _ Hargs Hkey Hmiss)
    as (w' & (Htoday & _ & Hfiles & Htrace) & ->).
  unfold on_miss.
  rewrite (io_bind_ok _ _ w' w' false).
  2: { rewrite (is_current_week_same day w w' Htoday). by rewrite Hweek. }
  unfold mbind, io_bind, print, log, mret, io_ret. cbn [negb fst snd trace cache_files].
  by rewrite Htrace, Hfiles.
Qed.

(** C7: when the cache probe misses, the requested date is in the current
    week and the fetch returns no entry, [main] returns 1 having sent the
    request and printed that the fetch failed; it adds nothing else to the
    trace, so [store_entries_cache] is not reached and the cache files are
    the same. *)
Theorem main_remote_fetch_empty (parsed : namespace) (w : world) json
  restaurant day meal week key :
  (parse_args parsed w).1 = Ok (json, restaurant, day, meal, week) ->
  cache_key day restaurant = Ok key ->
  (fetch_entries_cached key w).1 = Ok PyNone ->
  (is_current_week day w).1 = Ok true ->
  (fetch_entries_http restaurant w).1 = Ok ∅ ->
  (main parsed w).1 = Ok 1
  /\ trace (main parsed w).2
     = [ Print (py "Failed to fetch menu for the requested restaurant.");
         HttpPost request_url (request_data restaurant) ] ++ trace w
  /\ cache_files (main parsed w).2 = cache_files w.
Proof.
  intros Hargs Hkey Hmiss Hweek Hfetch.
  destruct (main_on_miss parsed w _ _ _ _ _ _ Hargs Hkey Hmiss)
    as (w' & (Htoday & Hremote & Hfiles & Htrace) & ->).
  unfold on_miss.
  rewrite (io_bind_ok _ _ w' w' true).
  2: { rewrite (is_current_week_same day w w' Htoday). by rewrite Hweek. }
  cbn [negb].
  destruct (fetch_entries_http_same restaurant w w' Hremote)
    as (Hres & _ & _ & Hfiles' & Htrace').
  rewrite Hfetch in Hres.
  rewrite (io_bind_ok _ _ w' (fetch_entries_http restaurant w').2 ∅)
    by (rewrite <- Hres; by destruct (fetch_entries_http restaurant w')).
  rewrite bool_decide_eq_true_2 by done.
  unfold mbind, io_bind, print, log, mret, io_ret.
  cbn [fst snd trace cache_files] in *.
  by rewrite Htrace', Hfiles', Htrace, Hfiles.
Qed.

(* ===================================================================== *)
(** * Further properties the specification lists *)
(* ===================================================================== *)

(** X1: today is always in the current week. *)
Theorem is_current_week_today (w : world) :
  valid (today w) = true -> is_current_week (today w) w = (Ok true, w).
Proof.
  intros Hv. unfold is_current_week.
  destruct (get_week_total _ Hv) as [s ->]. cbn.
  unfold str_eqb. by rewrite bool_decide_eq_true_2.
Qed.

(** X2: a cache key determines the week bucket and the restaurant. *)
Theorem cache_key_injective (d1 d2 : date) (r1 r2 : Z) :
  valid d1 = true -> valid d2 = true ->
  0 <= r1 < 100 -> 0 <= r2 < 100 ->
  cache_key d1 r1 = cache_key d2 r2 ->
  get_week d1 = get_week d2 /\ r1 = r2.
Proof.
  intros Hv1 Hv2 Hr1 Hr2. unfold cache_key.
  destruct (get_week_total d1 Hv1) as [s1 ->].
  destruct (get_week_total d2 Hv2) as [s2 ->]. cbn.
  rewrite !format_02_two_digits by lia.
  intros [= H]. apply app_inj_2 in H as [-> H]; [| reflexivity].
  split; [done |]. injection H as H1 H2.
  apply two_digits_inj; [lia | lia |]. unfold two_digits. congruence.
Qed.

Lemma dict_of_app {A} (f : A -> result (pystr * menu_entry)) l1 l2 acc :
  dict_of f (l1 ++ l2) acc = (dict_of f l1 acc ≫= dict_of f l2).
Proof.
  revert acc. induction l1 as [| x l1 IH]; intros acc; simpl; [done |].
  destruct (f x) as [kv |]; simpl; [apply IH | done].
Qed.

(** X3: when two records have the same key, the later one is kept. *)
Theorem dict_of_last_wins {A} (f : A -> result (pystr * menu_entry))
  (items : list A) (x : A) acc d kv :
  dict_of f (items ++ [x]) acc = Ok d -> f x = Ok kv ->
  d !! kv.1 = Some kv.2.
Proof.
  rewrite dict_of_app. intros H Hx.
  destruct (dict_of f items acc) as [d1 |]; simpl in H; [| done].
  rewrite Hx in H. simpl in H. injection H as <-.
  apply lookup_insert_eq.
Qed.

(** X4: entries stored under a key are what the next probe of that key
    returns, when the file can be read. *)
Theorem store_then_fetch (key : pystr) (entries : gmap (list N) menu_entry)
  (w : world) :
  (store_entries_cache key entries w).1 = Ok tt ->
  (forall f, cache_files w !! key = Some f -> readable f = true) ->
  (fetch_entries_cached key (store_entries_cache key entries w).2).1
  = Ok (PyEntries entries).
Proof.
  intros Hstore Hread.
  rewrite fetch_entries_cached_read, read_cache_result. cbn [fst].
  revert Hstore.
  unfold store_entries_cache, open_cache, open_file, makedirs, pickle_dump,
    write_file, put_file, log, set_cache, mbind, io_bind, mret, io_ret.
  destruct (cache_dir w) as [[] | |] eqn:Hdir; cbn;
    destruct (cache_files w !! key) as [f |] eqn:Hf; cbn; rewrite ?Hdir; cbn;
    try discriminate;
    try (destruct (writable f); cbn; [| discriminate]);
    rewrite ?lookup_insert_eq; cbn; rewrite ?lookup_insert_eq; cbn;
    try discriminate; intros _; rewrite ?(Hread f eq_refl); reflexivity.
Qed.

Lemma toordinal_range (d : date) :
  valid d = true -> 1 <= toordinal d <= MAXORDINAL.
Proof.
  intros Hv. pose proof (toordinal_in_year d Hv) as Ho.
  pose proof (valid_fields d Hv) as (Hy & _ & _).
  pose proof (days_before_year_mono 1 (year d) ltac:(lia)) as H1.
  pose proof (days_before_year_mono (year d + 1) 10000 ltac:(lia)) as H2.
  rewrite days_before_year_1 in H1.
  change (days_before_year 10000) with 3652059 in H2.
  unfold MAXORDINAL. lia.
Qed.

(** X5: the lower-case words are resolved from the day of the call:
    ["today"] is that day, ["tomorrow"] the date one day later and
    ["yesterday"] the date one day earlier (when the calendar has such a
    date), and nothing is printed. *)
Theorem get_date_keywords (w : world) :
  valid (today w) = true ->
  get_date (py "today") w = (Ok (today w), w)
  /\ (toordinal (today w) < MAXORDINAL ->
      exists d, get_date (py "tomorrow") w = (Ok d, w)
                /\ valid d = true /\ toordinal d = toordinal (today w) + 1)
  /\ (1 < toordinal (today w) ->
      exists d, get_date (py "yesterday") w = (Ok d, w)
                /\ valid d = true /\ toordinal d = toordinal (today w) - 1).
Proof.
  intros Hv. pose proof (toordinal_range _ Hv) as Hr.
  unfold get_date.
  replace (str_eqb (py "today") (py "today")) with true by done.
  replace (str_eqb (py "tomorrow") (py "today")) with false by done.
  replace (str_eqb (py "tomorrow") (py "tomorrow")) with true by done.
  replace (str_eqb (py "yesterday") (py "today")) with false by done.
  replace (str_eqb (py "yesterday") (py "tomorrow")) with false by done.
  replace (str_eqb (py "yesterday") (py "yesterday")) with true by done.
  split; [done |]. unfold sub_days, add_days. split.
  - intros Hlt.
    destruct (fromordinal_spec (toordinal (today w) + 1) ltac:(lia))
      as (d & Hd & Hvd & Hod).
    replace ((0 <? toordinal (today w) + 1)
             && (toordinal (today w) + 1 <=? MAXORDINAL)) with true
      by (symmetry; apply andb_true_iff; lia).
    rewrite Hd. eauto.
  - intros Hgt.
    destruct (fromordinal_spec (toordinal (today w) + - (1)) ltac:(lia))
      as (d & Hd & Hvd & Hod).
    replace ((0 <? toordinal (today w) + - (1))
             && (toordinal (today w) + - (1) <=? MAXORDINAL)) with true
      by (symmetry; apply andb_true_iff; lia).
    rewrite Hd. exists d. repeat split; [done | lia].
Qed.

(* ===================================================================== *)
(** * The matcher finds matches only *)
(* ===================================================================== *)

Lemma match_literal_sound (ignorecase : bool) (l s s' : pystr) :
  match_literal ignorecase l s = Some s' ->
  exists t, s = t ++ s'
            /\ Forall2 (fun p c => literal_match ignorecase p c = true) l t.
Proof.
  revert s. induction l as [| p l IH]; intros s; simpl.
  - intros [= ->]. exists []. by split.
  - destruct s as [| c s]; [done |].
    destruct (literal_match ignorecase p c) eqn:E; [| done].
    intros (t & -> & Ht)%IH. exists (c :: t). split; [done |].
    by constructor.
Qed.

Lemma match_re_sound {R} (ignorecase : bool) (r : regex) (s : pystr)
  (caps : list (string * pystr)) (k : pystr -> _ -> option R) (x : R) :
  match_re ignorecase r s caps k = Some x ->
  exists t s' g,
    s = t ++ s' /\ matched ignorecase r t g /\ k s' (caps ++ g) = Some x.
Proof.
  revert R s caps k x.
  induction r as [l | p | p min greedy | r1 IH1 r2 IH2 | r1 IH1 r2 IH2
                  | name r IH]; intros R s caps k x; simpl.
  - destruct (match_literal ignorecase l s) as [s' |] eqn:E; [| done].
    apply match_literal_sound in E as (t & -> & Ht). intros Hk.
    exists t, s', []. rewrite app_nil_r. repeat split; [| done].
    by constructor.
  - destruct s as [| c s]; [done |]. destruct (p c) eqn:E; [| done].
    intros Hk. exists [c], s, []. rewrite app_nil_r.
    repeat split; [| done]. by constructor.
  - set (rep := fix rep (n : nat) (s : pystr) {struct s} : option R := _).
    assert (forall s n, rep n s = Some x ->
              exists t s', s = t ++ s' /\ Forall (fun c => p c = true) t
                           /\ (min <= n + length t)%nat
                           /\ k s' caps = Some x) as Hrep.
    { clear s. induction s as [| c s IHs]; intros n.
      - simpl. destruct greedy; destruct (min <=? n)%nat eqn:E; try done;
          apply Nat.leb_le in E; intros Hk; exists [], [];
          (repeat split; simpl; [done | lia |]);
          [done | by destruct (k [] caps)].
      - simpl. fold rep.
        destruct greedy.
        + destruct (p c) eqn:Ep.
          * destruct (rep (S n) s) as [y |] eqn:Er.
            -- intros [= ->].
               destruct (IHs _ Er) as (t & s' & -> & Ht & Hn & Hk).
               exists (c :: t), s'. repeat split; simpl; try done;
                 [by constructor | lia].
            -- destruct (min <=? n)%nat eqn:E; [| done].
               apply Nat.leb_le in E. intros Hk. exists [], (c :: s).
               repeat split; simpl; try done; lia.
          * destruct (min <=? n)%nat eqn:E; [| done].
            apply Nat.leb_le in E. intros Hk. exists [], (c :: s).
            repeat split; simpl; try done; lia.
        + destruct (if (min <=? n)%nat then k (c :: s) caps else None)
            as [y |] eqn:Es.
          * intros [= ->]. destruct (min <=? n)%nat eqn:E; [| done].
            apply Nat.leb_le in E. exists [], (c :: s).
            repeat split; simpl; try done; lia.
          * destruct (p c) eqn:Ep; [| done]. intros Er.
            destruct (IHs _ Er) as (t & s' & -> & Ht & Hn & Hk).
            exists (c :: t), s'. repeat split; simpl; try done;
              [by constructor | lia]. }
    intros (t & s' & -> & Ht & Hn & Hk)%Hrep.
    exists t, s', []. rewrite app_nil_r. repeat split; [| done].
    by constructor.
  - intros (t1 & s1 & g1 & -> & H1 & Hk)%IH1.
    apply IH2 in Hk as (t2 & s2 & g2 & -> & H2 & Hk).
    exists (t1 ++ t2), s2, (g1 ++ g2). rewrite <- !app_assoc.
    rewrite <- app_assoc in Hk. repeat split; [| done]. by constructor.
  - destruct (match_re ignorecase r1 s caps k) as [y |] eqn:E.
    + intros [= ->]. apply IH1 in E as (t & s' & g & -> & H & Hk).
      exists t, s', g. repeat split; [| done]. by apply matched_alt_l.
    + intros (t & s' & g & -> & H & Hk)%IH2.
      exists t, s', g. repeat split; [| done]. by apply matched_alt_r.
  - intros (t & s' & g & -> & H & Hk)%IH.
    rewrite length_app, Nat.add_sub, take_app_length, <- app_assoc in Hk.
    exists t, s', (g ++ [(name, t)]). repeat split; [| done].
    by constructor.
Qed.

Lemma re_match_sound (ignorecase : bool) (r : regex) (s rest : pystr) caps :
  re_match ignorecase r s = Some (caps, rest) ->
  exists t, s = t ++ rest /\ matched ignorecase r t caps.
Proof.
  unfold re_match. intros (t & s' & g & -> & H & [= <- <-])%match_re_sound.
  eauto.
Qed.

(** The tuples [findall] returns are the groups of matches. *)
Lemma findall_from_sound (r : regex) (skip : nat) (s : pystr)
  (tuple : list pystr) :
  tuple ∈ findall_from r skip s ->
  exists t g, matched false r t g /\ tuple = map snd g.
Proof.
  revert skip. induction s as [| c s IH]; intros skip; simpl.
  - by intros ?%elem_of_nil.
  - destruct skip as [| n]; [| apply IH].
    destruct (re_match false r (c :: s)) as [[caps rest] |] eqn:E;
      [| apply IH].
    intros [-> | Hin]%elem_of_cons; [| by eapply IH].
    apply re_match_sound in E as (t & _ & Ht). eauto.
Qed.

(** What a match of the pattern of [fetch_entries_http] looks like. *)
Lemma regex_entries_matched (t : pystr) g :
  matched false regex_entries t g ->
  exists menu date meal calories,
    map snd g = [menu; date; [meal]; calories]
    /\ Forall (fun c => dot c = true) menu /\ menu <> []
    /\ Forall (fun c => dot c = true) date /\ date <> []
    /\ isword meal = true
    /\ Forall (fun c => isdecimal c = true) calories /\ calories <> [].
Proof.
  unfold regex_entries. cbn [sequence]. intros H.
  repeat match goal with
         | H : matched _ (Seq _ _) _ _ |- _ => inversion H; subst; clear H
         end.
  repeat match goal with
         | H : matched _ (Group _ _) _ _ |- _ => inversion H; subst; clear H
         | H : matched _ (Lit _) _ _ |- _ => inversion H; subst; clear H
         end.
  repeat match goal with
         | H : matched _ (Repeat _ _ _) _ _ |- _ => inversion H; subst; clear H
         | H : matched _ (Class _) _ _ |- _ => inversion H; subst; clear H
         end.
  simpl. eexists _, _, _, _. split; [reflexivity |].
  repeat split; try done;
    intros ->; simpl in *; lia.
Qed.

(** X6: every tuple the pattern extracts from a response has four
    components: a menu text and a date text that are not empty and hold no
    newline, a meal code of one word character, and calories of one or
    more decimal digits.  Unpacking it in [sanitise_entry] cannot fail. *)
Theorem findall_regex_entries_shape (text : pystr) (tuple : list pystr) :
  tuple ∈ findall regex_entries text ->
  exists menu date meal calories,
    tuple = [menu; date; [meal]; calories]
    /\ menu <> [] /\ (NEWLINE ∉ menu)
    /\ date <> [] /\ (NEWLINE ∉ date)
    /\ isword meal = true
    /\ calories <> [] /\ Forall (fun c => isdecimal c = true) calories.
Proof.
  intros (t & g & Hm & ->)%findall_from_sound.
  apply regex_entries_matched in Hm
    as (menu & date & meal & calories & -> & Hmenu & ? & Hdate & ? & ? & ? & ?).
  assert (forall s, Forall (fun c => dot c = true) s -> NEWLINE ∉ s) as Hdot.
  { intros s Hs Hin. rewrite Forall_forall in Hs. apply Hs in Hin.
    unfold dot in Hin. by rewrite N.eqb_refl in Hin. }
  exists menu, date, meal, calories. repeat split; auto.
Qed.

(* ===================================================================== *)
(** * What sanitising gives, and how it fails *)
(* ===================================================================== *)

Lemma replace_char_absent (c : N) (s : pystr) : c ∉ replace s [c] [].
Proof.
  unfold replace.
  induction s as [| x s IH]; simpl; [by intros ?%elem_of_nil |].
  destruct (N.eqb_spec c x) as [-> | Hne]; simpl; [done |].
  intros [Heq | Hin]%elem_of_cons; [done | by apply IH].
Qed.

Lemma emit_raise {A} (c : A) (r : result (list A)) (e : exn) :
  emit c r = Raise e -> r = Raise e.
Proof. by destruct r. Qed.

Lemma encode_raise (s : pystr) (e : exn) :
  encode s = Raise e -> exists msg, e = UnicodeEncodeError msg.
Proof.
  induction s as [| c s IH]; simpl; [done |].
  destruct (utf8_encode_char c) as [b |] eqn:E; simpl.
  - destruct (encode s); simpl; [done |]. intros [= <-]. by apply IH.
  - intros [= <-]. unfold utf8_encode_char in E.
    repeat case_match; try done. injection E as <-. eauto.
Qed.

Lemma hex_tail_O (msg : string) (ch : N) (l : list N) :
  hex_tail msg 0 ch l
  = if (MAX_UNICODE <? ch)%N
    then Raise (UnicodeDecodeError "illegal Unicode character")
    else emit ch (decode_unicode_escape l).
Proof. by destruct l. Qed.

Lemma hex_tail_S (msg : string) (count : nat) (ch : N) (l : list N) :
  hex_tail msg (S count) ch l
  = match l with
    | [] => Raise (UnicodeDecodeError msg)
    | h :: l' =>
        match hex_value h with
        | Some v => hex_tail msg count (ch * 16 + v)%N l'
        | None => Raise (UnicodeDecodeError msg)
        end
    end.
Proof. by destruct l. Qed.

Lemma name_tail_cons (acc : list N) (x : N) (l : list N) :
  name_tail acc (x :: l)
  = if (x =? 125)%N then
      match acc with
      | [] => Raise (UnicodeDecodeError "malformed \N character escape")
      | _ :: _ =>
          match ucd_name U acc with
          | Some ch => emit ch (decode_unicode_escape l)
          | None => Raise (UnicodeDecodeError "unknown Unicode character name")
          end
      end
    else name_tail (acc ++ [x]) l.
Proof. reflexivity. Qed.

Lemma hex_tail_raise (msg : string) (n : nat) (e : exn) :
  (forall s, (length s <= n)%nat -> decode_unicode_escape s = Raise e ->
             is_UnicodeDecodeError e) ->
  forall count ch l, (length l <= n)%nat ->
    hex_tail msg count ch l = Raise e -> is_UnicodeDecodeError e.
Proof.
  intros IH count. induction count as [| count IHc]; intros ch l Hl.
  - rewrite hex_tail_O. destruct (MAX_UNICODE <? ch)%N.
    + intros [= <-]. by eexists.
    + intros ?%emit_raise. by eapply IH.
  - rewrite hex_tail_S. destruct l as [| h l]; [intros [= <-]; by eexists |].
    destruct (hex_value h); [| intros [= <-]; by eexists].
    apply IHc. simpl in Hl. lia.
Qed.

Lemma name_tail_raise (n : nat) (e : exn) :
  (forall s, (length s <= n)%nat -> decode_unicode_escape s = Raise e ->
             is_UnicodeDecodeError e) ->
  forall l acc, (length l <= n)%nat ->
    name_tail acc l = Raise e -> is_UnicodeDecodeError e.
Proof.
  intros IH l. induction l as [| x l IHl]; intros acc Hl.
  - intros [= <-]. by eexists.
  - rewrite name_tail_cons. destruct (x =? 125)%N.
    + destruct acc; [intros [= <-]; by eexists |].
      destruct (ucd_name U _); [| intros [= <-]; by eexists].
      intros ?%emit_raise. eapply IH; [| done]. simpl in Hl. lia.
    + apply IHl. simpl in Hl. lia.
Qed.

Lemma decode_unicode_escape_plain (c : N) (s : list N) :
  c <> BACKSLASH ->
  decode_unicode_escape (c :: s) = emit c (decode_unicode_escape s).
Proof.
  intros Hc%N.eqb_neq.
  change (decode_unicode_escape (c :: s))
    with (if negb (c =? BACKSLASH)%N then emit c (decode_unicode_escape s)
          else decode_unicode_escape (BACKSLASH :: s)) at 1.
  - by rewrite Hc.
Qed.

(** One step of [decode_unicode_escape], the digits of an escape and the
    name of a character read by [hex_tail] and [name_tail]. *)
Lemma decode_unicode_escape_escape (c : N) (s2 : list N) :
  decode_unicode_escape (BACKSLASH :: c :: s2)
  = if (c =? NEWLINE)%N then decode_unicode_escape s2
    else if (c =? BACKSLASH)%N then emit BACKSLASH (decode_unicode_escape s2)
    else if (c =? 39)%N then emit 39%N (decode_unicode_escape s2)
    else if (c =? 34)%N then emit 34%N (decode_unicode_escape s2)
    else if (c =? 98)%N then emit 8%N (decode_unicode_escape s2)
    else if (c =? 102)%N then emit 12%N (decode_unicode_escape s2)
    else if (c =? 116)%N then emit 9%N (decode_unicode_escape s2)
    else if (c =? 110)%N then emit 10%N (decode_unicode_escape s2)
    else if (c =? 114)%N then emit 13%N (decode_unicode_escape s2)
    else if (c =? 118)%N then emit 11%N (decode_unicode_escape s2)
    else if (c =? 97)%N then emit 7%N (decode_unicode_escape s2)
    else if is_octal c then
      let ch := (c - 48)%N in
      match s2 with
      | c2 :: s3 =>
          if is_octal c2 then
            let ch := (ch * 8 + (c2 - 48))%N in
            match s3 with
            | c3 :: s4 =>
                if is_octal c3
                then emit (ch * 8 + (c3 - 48))%N (decode_unicode_escape s4)
                else emit ch (decode_unicode_escape s3)
            | [] => emit ch (decode_unicode_escape s3)
            end
          else emit ch (decode_unicode_escape s2)
      | [] => emit ch (decode_unicode_escape s2)
      end
    else if (c =? 120)%N then hex_tail "truncated \xXX escape" 2 0 s2
    else if (c =? 117)%N then hex_tail "truncated \uXXXX escape" 4 0 s2
    else if (c =? 85)%N then hex_tail "truncated \UXXXXXXXX escape" 8 0 s2
    else if (c =? 78)%N then
      match s2 with
      | [] => Raise (UnicodeDecodeError "malformed \N character escape")
      | b :: s3 =>
          if (b =? 123)%N then name_tail [] s3
          else Raise (UnicodeDecodeError "malformed \N character escape")
      end
    else emit BACKSLASH (emit c (decode_unicode_escape s2)).
Proof. reflexivity. Qed.

(** [decode_unicode_escape] raises nothing but [UnicodeDecodeError]. *)
Lemma decode_unicode_escape_raise (s : list N) (e : exn) :
  decode_unicode_escape s = Raise e -> is_UnicodeDecodeError e.
Proof.
  remember (length s) as n eqn:Hn. assert (length s <= n)%nat as Hle by lia.
  clear Hn. revert s Hle.
  induction n as [| n IH]; intros s Hle.
  { destruct s; [done | simpl in Hle; lia]. }
  destruct s as [| c s1]; [done |]. simpl in Hle.
  destruct (N.eqb_spec c BACKSLASH) as [-> | Hc].
  2: { rewrite decode_unicode_escape_plain by done.
       intros ?%emit_raise. eapply IH; [| done]. lia. }
  destruct s1 as [| c s2]; [intros [= <-]; by eexists |].
  rewrite decode_unicode_escape_escape. simpl in Hle.
  assert (forall s', (length s' <= S (length s2))%nat ->
            decode_unicode_escape s' = Raise e -> is_UnicodeDecodeError e)
    as IH' by (intros s' Hs'; apply IH; lia).
  cbv zeta.
  repeat case_match; subst;
    try (intros [= <-]; by eexists);
    try (intros Hraise%emit_raise; apply IH' in Hraise; [done | simpl; lia]);
    try (intros Hraise; apply IH' in Hraise; [done | simpl; lia]);
    try (eapply hex_tail_raise; [exact IH' | simpl; lia]);
    try (eapply name_tail_raise; [exact IH' | simpl; lia]).
  all: intros Hraise%emit_raise%emit_raise; apply IH' in Hraise;
    [done | simpl; lia].
Qed.

Lemma isdecimal_value (c : N) :
  db_wf -> isdecimal c = true ->
  exists v, decimal_value c = Some v /\ 0 <= v <= 9
            /\ int_space c = false /\ c <> 95%N /\ c <> 45%N /\ c <> 43%N.
Proof.
  intros Hwf. unfold isdecimal, decimal_value, int_space, is_ascii_digit.
  destruct (N.ltb_spec c 128).
  - destruct (N.leb_spec 48 c), (N.leb_spec c 57); simpl; try done.
    intros _. exists (Z.of_N c - 48). repeat split; try lia.
    destruct (N.eqb_spec c 32); [lia |].
    destruct (N.leb_spec 9 c), (N.leb_spec c 13); simpl; try done. lia.
  - destruct (ucd_decimal U c) as [v |] eqn:E; [| done]. intros _.
    destruct (Hwf c v E) as [Hv Hs]. exists v. repeat split; try lia. done.
Qed.

Lemma skip_spaces_digit (c : N) (s : pystr) :
  int_space c = false -> skip_spaces (c :: s) = c :: s.
Proof. simpl. by intros ->. Qed.

Lemma int_digits_decimal (s : pystr) (acc count : Z) :
  db_wf -> Forall (fun c => isdecimal c = true) s -> 0 <= acc ->
  exists v, int_digits s acc count true = Some (v, count + Z.of_nat (length s))
            /\ 0 <= v.
Proof.
  intros Hwf Hs. revert acc count.
  induction Hs as [| c s Hc Hs IH]; intros acc count Hacc; simpl.
  - exists acc. split; [f_equal; f_equal; lia | done].
  - destruct (isdecimal_value c Hwf Hc) as (v & -> & Hv & _ & H95 & _).
    apply N.eqb_neq in H95. rewrite H95.
    destruct (IH (acc * 10 + v) (count + 1) ltac:(lia)) as (r & -> & Hr).
    exists r. split; [f_equal; f_equal; lia | done].
Qed.

(** [int] of one or more decimal digits: their value, which is not
    negative, unless there are more than 4300 of them. *)
Lemma int_of_str_decimal (s : pystr) :
  db_wf -> Forall (fun c => isdecimal c = true) s -> s <> [] ->
  if MAX_STR_DIGITS <? Z.of_nat (length s)
  then int_of_str s
       = Raise (ValueError
                  "Exceeds the limit (4300 digits) for integer string conversion")
  else exists v, int_of_str s = Ok v /\ 0 <= v.
Proof.
  intros Hwf Hs Hne. unfold int_of_str.
  destruct s as [| c s]; [done |].
  pose proof (Forall_inv Hs) as Hc.
  destruct (isdecimal_value c Hwf Hc) as (v & Hv & Hv9 & Hsp & H95 & H45 & H43).
  rewrite (skip_spaces_digit c s Hsp).
  assert (exists c' s', rev (c :: s) = c' :: s' /\ isdecimal c' = true)
    as (c' & s' & Hrev & Hc').
  { destruct (rev (c :: s)) as [| c' s'] eqn:E.
    - apply (f_equal length) in E. rewrite length_rev in E. done.
    - exists c', s'. split; [done |].
      pose proof (List.Forall_rev Hs) as Hr. rewrite E in Hr.
      exact (Forall_inv Hr). }
  rewrite Hrev.
  destruct (isdecimal_value c' Hwf Hc') as (_ & _ & _ & Hsp' & _).
  rewrite (skip_spaces_digit c' s' Hsp'), <- Hrev, rev_involutive.
  apply N.eqb_neq in H45, H43. rewrite H45, H43.
  cbn [int_digits]. apply N.eqb_neq in H95. rewrite H95, Hv.
  destruct (int_digits_decimal s (0 * 10 + v) (0 + 1) Hwf (Forall_inv_tail Hs)
              ltac:(lia)) as (r & -> & Hr).
  replace (0 + 1 + Z.of_nat (length s)) with (Z.of_nat (length (c :: s)))
    by (simpl; lia).
  destruct (MAX_STR_DIGITS <? Z.of_nat (length (c :: s))); [done |]. eauto.
Qed.

Lemma dict_of_lookup_inv {A} (f : A -> result (pystr * menu_entry)) items acc
  d (k : list N) v :
  dict_of f items acc = Ok d -> d !! k = Some v ->
  acc !! k = Some v \/ exists x, x ∈ items /\ f x = Ok (k, v).
Proof.
  revert acc. induction items as [| x items IH]; intros acc; simpl.
  - intros [= ->]. by left.
  - destruct (f x) as [[k' v'] |] eqn:E; simpl; [| done].
    intros Hd Hk. destruct (IH _ Hd Hk) as [Hacc | (y & Hy & Ey)].
    + destruct (decide (k' = k)) as [-> | Hne].
      * rewrite lookup_insert_eq in Hacc. injection Hacc as ->.
        right. exists x. split; [apply elem_of_cons; by left | done].
      * rewrite lookup_insert_ne in Hacc by done. by left.
    + right. exists y. split; [apply elem_of_cons; by right | done].
Qed.

Lemma dict_of_raise_inv {A} (f : A -> result (pystr * menu_entry)) items acc
  e :
  dict_of f items acc = Raise e -> exists x, x ∈ items /\ f x = Raise e.
Proof.
  revert acc. induction items as [| x items IH]; intros acc; simpl; [done |].
  destruct (f x) as [kv |] eqn:E; simpl.
  - intros (y & Hy & Ey)%IH. exists y.
    split; [apply elem_of_cons; by right | done].
  - intros [= <-]. exists x. split; [apply elem_of_cons; by left | done].
Qed.

Lemma sanitise_entry_ok_inv (menu date meal calories : pystr) v :
  sanitise_entry [menu; date; meal; calories] = Ok v ->
  (BACKSLASH ∉ s_menu v)
  /\ s_date v = replace date [BACKSLASH] []
  /\ ((meal = py "A" /\ s_meal v = py "lunch")
      \/ (meal = py "J" /\ s_meal v = py "dinner"))
  /\ int_of_str calories = Ok (s_calories v).
Proof.
  unfold sanitise_entry.
  destruct (encode _) as [bytes |]; simpl; [| done].
  destruct (decode_unicode_escape bytes) as [text |]; simpl; [| done].
  unfold getitem. rewrite meal_names_lookup.
  destruct (decide (meal = py "J")) as [-> | HJ];
    [| destruct (decide (meal = py "A")) as [-> | HA]; [| done]];
    simpl; (destruct (int_of_str calories) as [n |]; simpl; [| done]);
    intros [= <-]; simpl;
    (split; [apply replace_char_absent |]); (split; [done |]); auto.
Qed.

Lemma sanitise_entry_raise_inv (menu date meal calories : pystr) e :
  sanitise_entry [menu; date; meal; calories] = Raise e ->
  (exists msg, e = UnicodeEncodeError msg)
  \/ is_UnicodeDecodeError e
  \/ (e = KeyError meal /\ meal <> py "A" /\ meal <> py "J")
  \/ int_of_str calories = Raise e.
Proof.
  unfold sanitise_entry.
  destruct (encode _) as [bytes |] eqn:Ee; simpl;
    [| intros [= <-]; left; by eapply encode_raise].
  destruct (decode_unicode_escape bytes) as [text |] eqn:Ed; simpl;
    [| intros [= <-]; right; left; by eapply decode_unicode_escape_raise].
  unfold getitem. rewrite meal_names_lookup.
  destruct (decide (meal = py "J")) as [-> | HJ];
    [| destruct (decide (meal = py "A")) as [-> | HA]]; simpl.
  - destruct (int_of_str calories); simpl; [done |]. intros [= <-]. auto.
  - destruct (int_of_str calories); simpl; [done |]. intros [= <-]. auto.
  - intros [= <-]. right. right. left. done.
Qed.

Lemma parse_response_entries (text : pystr)
  (d : gmap (list N) menu_entry) :
  db_wf -> parse_response text = Ok d ->
  forall (key : list N) (v : menu_entry), d !! key = Some v ->
    (exists date,
        (key = date ++ py "-lunch" \/ key = date ++ py "-dinner")
        /\ (BACKSLASH ∉ date))
    /\ (BACKSLASH ∉ menu v)
    /\ 0 <= calories v.
Proof.
  intros Hwf Hd key v Hkey. unfold parse_response in Hd.
  destruct (dict_of_lookup_inv _ _ _ _ _ _ Hd Hkey) as [? | (r & Hr & Er)];
    [done |].
  apply findall_regex_entries_shape in Hr
    as (m & dt & meal & cal & -> & _ & _ & _ & _ & _ & Hne & Hcal).
  unfold entry_to_key_value in Er.
  destruct (sanitise_entry [m; dt; [meal]; cal]) as [s |] eqn:Es;
    simpl in Er; [| done].
  injection Er as <- <-. simpl.
  apply sanitise_entry_ok_inv in Es as (Hmenu & Hdate & Hmeal & Hint).
  split; [| split; [done |]].
  - exists (s_date s). split.
    + destruct Hmeal as [[_ ->] | [_ ->]]; auto.
    + rewrite Hdate. apply replace_char_absent.
  - pose proof (int_of_str_decimal cal Hwf Hcal Hne) as Hv.
    destruct (MAX_STR_DIGITS <? Z.of_nat (length cal)).
    + rewrite Hv in Hint. done.
    + destruct Hv as (n & Hn & Hpos). rewrite Hn in Hint. by injection Hint as <-.
Qed.

Lemma parse_response_errors (text : pystr) (e : exn) :
  db_wf -> parse_response text = Raise e ->
  (exists meal, e = KeyError [meal] /\ isword meal = true
                /\ [meal] <> py "A" /\ [meal] <> py "J")
  \/ (exists msg, e = UnicodeEncodeError msg)
  \/ (exists msg, e = UnicodeDecodeError msg)
  \/ e = ValueError
           "Exceeds the limit (4300 digits) for integer string conversion".
Proof.
  intros Hwf (r & Hr & Er)%dict_of_raise_inv.
  apply findall_regex_entries_shape in Hr
    as (m & dt & meal & cal & -> & _ & _ & _ & _ & Hmeal & Hne & Hcal).
  unfold entry_to_key_value in Er.
  destruct (sanitise_entry [m; dt; [meal]; cal]) as [s |] eqn:Es;
    simpl in Er; [done |].
  injection Er as <-.
  apply sanitise_entry_raise_inv in Es as [? | [? | [(-> & ? & ?) | Hint]]];
    [auto | auto | left; eauto |].
  pose proof (int_of_str_decimal cal Hwf Hcal Hne) as Hv.
  destruct (MAX_STR_DIGITS <? Z.of_nat (length cal)).
  - rewrite Hv in Hint. injection Hint as <-. auto.
  - destruct Hv as (n & Hn & _). rewrite Hn in Hint. done.
Qed.

Lemma fetch_entries_http_result (restaurant : Z) (w : world) :
  (fetch_entries_http restaurant w).1
  = match remote w request_url (request_data restaurant) with
    | Ok text => parse_response text
    | Raise e => Raise e
    end.
Proof.
  unfold fetch_entries_http, requests_post, mbind, io_bind, lift. simpl.
  by destruct (remote w request_url (request_data restaurant)).
Qed.

(** X7: in the set [fetch_entries_http] returns, every key is a date text
    followed by [-lunch] or [-dinner], no date text and no menu holds a
    backslash, and no calorie count is negative. *)
Theorem fetch_entries_http_entries (restaurant : Z) (w : world)
  (d : gmap (list N) menu_entry) :
  db_wf -> (fetch_entries_http restaurant w).1 = Ok d ->
  forall (key : list N) (v : menu_entry), d !! key = Some v ->
    (exists date,
        (key = date ++ py "-lunch" \/ key = date ++ py "-dinner")
        /\ (BACKSLASH ∉ date))
    /\ (BACKSLASH ∉ menu v)
    /\ 0 <= calories v.
Proof.
  intros Hwf. rewrite fetch_entries_http_result.
  destruct (remote w request_url (request_data restaurant)) as [text |];
    [| done].
  by apply parse_response_entries.
Qed.

(** X8: [fetch_entries_http] raises nothing but what the request raises,
    a [KeyError] for a meal code of one word character other than [A] and
    [J], a [UnicodeEncodeError] or [UnicodeDecodeError] for a menu text, or
    the [ValueError] for calories of more than 4300 digits. *)
Theorem fetch_entries_http_errors (restaurant : Z) (w : world) (e : exn) :
  db_wf -> (fetch_entries_http restaurant w).1 = Raise e ->
  remote w request_url (request_data restaurant) = Raise e
  \/ (exists meal, e = KeyError [meal] /\ isword meal = true
                   /\ [meal] <> py "A" /\ [meal] <> py "J")
  \/ (exists msg, e = UnicodeEncodeError msg)
  \/ (exists msg, e = UnicodeDecodeError msg)
  \/ e = ValueError
            "Exceeds the limit (4300 digits) for integer string conversion".
Proof.
  intros Hwf. rewrite fetch_entries_http_result.
  destruct (remote w request_url (request_data restaurant)) as [text | e'].
  - intros H. right. by eapply parse_response_errors.
  - intros [= ->]. by left.
Qed.

(* ===================================================================== *)
(** * Storing entries *)
(* ===================================================================== *)

Lemma makedirs_world (w : world) :
  today (makedirs w).2 = today w /\ remote (makedirs w).2 = remote w
  /\ cache_files (makedirs w).2 = cache_files w
  /\ trace (makedirs w).2 = trace w
  /\ cache_dir (makedirs w).2
     = match cache_dir w with
       | DirAbsent => DirPresent true
       | d => d
       end.
Proof.
  unfold makedirs. destruct (cache_dir w) eqn:E; simpl; by repeat split.
Qed.

(** What [store_entries_cache] does, by the state of the directory and of
    the file. *)
Lemma store_entries_cache_run (key : pystr)
  (entries : gmap (list N) menu_entry) (w : world) :
  if can_store key w then
    store_entries_cache key entries w
    = (Ok tt,
       {| today := today w; remote := remote w;
          cache_dir := cache_dir (makedirs w).2;
          cache_files :=
            <[key := stored entries (cache_files w !! key)]> (cache_files w);
          trace := CacheWrite key :: CacheWrite key :: trace w |})
  else
    exists msg,
      store_entries_cache key entries w = (Raise (OSError msg), (makedirs w).2).
Proof.
  unfold can_store, store_entries_cache, open_cache, open_file, makedirs,
    pickle_dump, write_file, put_file, log, set_cache, stored, truncated,
    mbind, io_bind, mret, io_ret.
  destruct (cache_dir w) as [[] | |] eqn:Hdir; cbn;
    destruct (cache_files w !! key) as [f |] eqn:Hf; cbn; rewrite ?Hdir; cbn;
    try (destruct (writable f); cbn);
    rewrite ?lookup_insert_eq; cbn; rewrite ?insert_insert_eq;
    first [reflexivity | eexists; reflexivity].
Qed.


(* ===================================================================== *)
(** * Runs of [main] *)
(* ===================================================================== *)

Lemma io_bind_raise {A B} (m : io A) (k : A -> io B) (w w' : world) (e : exn) :
  m w = (Raise e, w') -> (m ≫= k) w = (Raise e, w').
Proof. unfold mbind, io_bind. by intros ->. Qed.

Lemma fetch_entries_cached_world (key : pystr) (w : world) :
  (fetch_entries_cached key w).2 = (makedirs w).2.
Proof.
  rewrite fetch_entries_cached_read. cbn [snd].
  unfold read_cache, open_cache, open_file, pickle_load, makedirs,
    mbind, io_bind.
  destruct (cache_dir w); simpl; [| | done];
    (destruct (cache_files w !! key) as [f |] eqn:E; simpl; [| done];
     destruct (readable f); simpl; [| done];
     rewrite E; by destruct (content f)).
Qed.

Lemma fetch_entries_cached_ok (key : pystr) (w : world) :
  exists o, fetch_entries_cached key w = (Ok o, (makedirs w).2).
Proof.
  rewrite <- (fetch_entries_cached_world key).
  rewrite fetch_entries_cached_read. cbn [snd].
  destruct (read_cache key w).1; eauto.
Qed.

(** The probe reads the directory and the files only, and it does not
    tell a directory it has made from one that was there. *)
Lemma fetch_entries_cached_stable (key : pystr) (w w1 : world) :
  cache_files w1 !! key = cache_files w !! key ->
  cache_dir w1 = cache_dir (makedirs w).2 ->
  (fetch_entries_cached key w1).1 = (fetch_entries_cached key w).1.
Proof.
  intros Hfiles Hdir.
  rewrite !fetch_entries_cached_read, !read_cache_result. cbn [fst].
  pose proof (makedirs_world w) as (_ & _ & _ & _ & Hmk).
  rewrite Hfiles, Hdir, Hmk. by destruct (cache_dir w).
Qed.

Lemma fetch_entries_http_world (restaurant : Z) (w : world) :
  (fetch_entries_http restaurant w).2 = requested restaurant w.
Proof.
  unfold fetch_entries_http, requests_post, mbind, io_bind, lift. simpl.
  by destruct (remote w request_url (request_data restaurant)).
Qed.

Lemma get_date_same_day (day : pystr) (w w1 : world) (d : date) :
  today w1 = today w ->
  (get_date day w).1 = Ok d -> get_date day w1 = (Ok d, w1).
Proof.
  intros Ht. unfold get_date. rewrite Ht.
  destruct (str_eqb day (py "today")); [by intros [= ->] |].
  destruct (str_eqb day (py "tomorrow")); [cbn [fst]; by intros -> |].
  destruct (str_eqb day (py "yesterday")); [cbn [fst]; by intros -> |].
  destruct (first_parsed (today w) day formats) as [[p |] | e];
    [by intros [= ->] | | done].
  unfold mbind, io_bind, print, log, lift. cbn [fst]. discriminate.
Qed.

Lemma parse_args_same_day (parsed : namespace) (w w1 : world) r :
  today w1 = today w ->
  (parse_args parsed w).1 = Ok r -> parse_args parsed w1 = (Ok r, w1).
Proof.
  intros Ht. unfold parse_args, mbind, io_bind, lift, mret, io_ret.
  pose proof (get_date_same_day (ns_day parsed) w w1) as Hd.
  destruct (get_date (ns_day parsed) w) as [[d | e] w2]; cbn [fst snd] in *;
    [| discriminate].
  rewrite (Hd d Ht eq_refl).
  destruct (ns_meal parsed) as [| c ?]; [discriminate |].
  destruct (get_restaurant_code (ns_restaurant parsed)); [| discriminate].
  cbn [fst]. by intros [= <-].
Qed.

(** A run of [main] whose arguments parse is the probe of the cache, in
    a world that has the directory if it can be made, and what follows
    it. *)
Lemma main_after_probe (parsed : namespace) (w : world) json restaurant day
  meal week key entries :
  (parse_args parsed w).1 = Ok (json, restaurant, day, meal, week) ->
  cache_key day restaurant = Ok key ->
  (fetch_entries_cached key w).1 = Ok entries ->
  main parsed w
  = after_probe json restaurant day meal week key entries (makedirs w).2.
Proof.
  intros Hargs%parse_args_pure Hkey Hprobe.
  unfold main.
  rewrite (io_bind_ok _ _ _ _ _ Hargs). cbn beta iota.
  rewrite Hkey.
  rewrite (io_bind_ok (lift (Ok key)) _ w w key eq_refl).
  rewrite (io_bind_ok (fetch_entries_cached key) _ w (makedirs w).2 entries).
  2: { rewrite <- Hprobe, <- (fetch_entries_cached_world key).
       by destruct (fetch_entries_cached key w). }
  by destruct entries.
Qed.

(** Displaying with a presentation that only prints. *)
Lemma show_only_prints (json : bool) (entries : pyobj) (opts : options) (w : world) :
  only_prints (display json entries opts) ->
  (exists lines, trace (show json entries opts w).2 = map Print lines ++ trace w)
  /\ today (show json entries opts w).2 = today w
  /\ cache_dir (show json entries opts w).2 = cache_dir w
  /\ cache_files (show json entries opts w).2 = cache_files w
  /\ (forall n, (show json entries opts w).1 = Ok n -> n = 0).
Proof.
  intros Hd. destruct (Hd w) as (lines & Htrace & Htoday & _ & Hdir & Hfiles).
  unfold show, mbind, io_bind, mret, io_ret.
  destruct (display json entries opts w) as [[[] | e] w2]; cbn [fst snd] in *.
  - repeat split; eauto. by intros n [= <-].
  - repeat split; eauto. discriminate.
Qed.


(** What follows a miss when the date is in the current week and the
    fetch returns entries. *)
Lemma on_miss_fetched (json : bool) (restaurant : Z) (day : date) (meal : pystr)
  (week : bool) (key : pystr) (entries : gmap (list N) menu_entry)
  (w : world) :
  (is_current_week day w).1 = Ok true ->
  (fetch_entries_http restaurant w).1 = Ok entries ->
  entries <> ∅ ->
  on_miss json restaurant day meal week key w
  = (_ ← store_entries_cache key entries;
     show json (PyEntries entries) (restaurant, day, meal, week))
      (requested restaurant w).
Proof.
  intros Hweek Hfetch Hne. unfold on_miss.
  rewrite (io_bind_ok _ _ w w true) by (by rewrite <- Hweek).
  cbn [negb].
  rewrite (io_bind_ok _ _ w (requested restaurant w) entries).
  2: { rewrite <- Hfetch, <- (fetch_entries_http_world restaurant).
       by destruct (fetch_entries_http restaurant w). }
  by rewrite bool_decide_eq_false_2.
Qed.

Lemma can_store_stable (key : pystr) (w w1 : world) :
  cache_files w1 !! key = cache_files w !! key ->
  cache_dir w1 = cache_dir (makedirs w).2 ->
  can_store key w1 = can_store key w
  /\ cache_dir (makedirs w1).2 = cache_dir (makedirs w).2.
Proof.
  intros Hfiles Hdir. unfold can_store.
  pose proof (makedirs_world w) as (_ & _ & _ & _ & Hmk).
  pose proof (makedirs_world w1) as (_ & _ & _ & _ & Hmk1).
  rewrite Hmk1, Hfiles, Hdir, Hmk.
  by destruct (cache_dir w) as [[] | |]; destruct (cache_files w !! key).
Qed.

Lemma store_then_show (json : bool) (opts : options) (key : pystr)
  (entries : gmap (list N) menu_entry) (w : world) :
  can_store key w = true ->
  only_prints (display json (PyEntries entries) opts) ->
  exists w',
    (store_entries_cache key entries ≫= fun _ => show json (PyEntries entries) opts) w
    = show json (PyEntries entries) opts w'
    /\ (exists lines,
          trace (show json (PyEntries entries) opts w').2
          = map Print lines ++ CacheWrite key :: CacheWrite key :: trace w)
    /\ today (show json (PyEntries entries) opts w').2 = today w
    /\ cache_dir (show json (PyEntries entries) opts w').2
       = cache_dir (makedirs w).2
    /\ cache_files (show json (PyEntries entries) opts w').2
       = <[key := stored entries (cache_files w !! key)]> (cache_files w)
    /\ (forall n, (show json (PyEntries entries) opts w').1 = Ok n -> n = 0).
Proof.
  intros Hcan Hd.
  pose proof (store_entries_cache_run key entries w) as Hrun.
  rewrite Hcan in Hrun.
  match type of Hrun with
  | _ = (_, ?w1) =>
      exists w1;
      destruct (show_only_prints json (PyEntries entries) opts w1 Hd)
        as (Ht & Htoday & Hdir & Hfiles & Hn)
  end.
  split.
  - exact (io_bind_ok _ (fun _ => show json (PyEntries entries) opts) _ _ _
             Hrun).
  - by rewrite Htoday, Hdir, Hfiles.
Qed.

Lemma store_fails (json : bool) (opts : options) (key : pystr)
  (entries : gmap (list N) menu_entry) (w : world) :
  can_store key w = false ->
  exists msg,
    (store_entries_cache key entries ≫= fun _ => show json (PyEntries entries) opts) w
    = (Raise (OSError msg), (makedirs w).2).
Proof.
  intros Hcan.
  pose proof (store_entries_cache_run key entries w) as Hrun.
  rewrite Hcan in Hrun. destruct Hrun as [msg Hrun].
  exists msg. apply (io_bind_raise _ _ _ _ _ Hrun).
Qed.

(** A miss in the current week with entries fetched, seen from the world
    the run starts in. *)
Lemma main_fetched (parsed : namespace) (w : world) (json : bool)
  (restaurant : Z) (day : date) (meal : pystr) (week : bool) (key : pystr)
  (entries : gmap (list N) menu_entry) :
  (parse_args parsed w).1 = Ok (json, restaurant, day, meal, week) ->
  cache_key day restaurant = Ok key ->
  (fetch_entries_cached key w).1 = Ok PyNone ->
  (is_current_week day w).1 = Ok true ->
  (fetch_entries_http restaurant w).1 = Ok entries ->
  entries <> ∅ ->
  exists w',
    main parsed w
    = (store_entries_cache key entries
         ≫= fun _ => show json (PyEntries entries) (restaurant, day, meal, week)) w'
    /\ today w' = today w
    /\ cache_files w' = cache_files w
    /\ cache_dir w' = cache_dir (makedirs w).2
    /\ trace w' = HttpPost request_url (request_data restaurant) :: trace w.
Proof.
  intros Hargs Hkey Hprobe Hweek Hfetch Hne.
  pose proof (makedirs_world w) as (Htoday & Hremote & Hfiles & Htrace & _).
  exists (requested restaurant (makedirs w).2). split.
  - rewrite (main_after_probe _ _ _ _ _ _ _ _ _ Hargs Hkey Hprobe).
    unfold after_probe. apply on_miss_fetched; [| | done].
    + rewrite (is_current_week_same day w _ Htoday). by rewrite Hweek.
    + rewrite fetch_entries_http_result, Hremote.
      by rewrite <- fetch_entries_http_result.
  - unfold requested. cbn [today cache_files cache_dir trace].
    by rewrite Htrace.
Qed.


(** X12: when the entries are fetched and the cache file cannot be
    written, [main] raises the [OSError] of the write: the request is all
    the run has done, nothing is displayed and no file is changed. *)
Theorem main_store_failure (parsed : namespace) (w : world) (json : bool)
  (restaurant : Z) (day : date) (meal : pystr) (week : bool) (key : pystr)
  (entries : gmap (list N) menu_entry) :
  (parse_args parsed w).1 = Ok (json, restaurant, day, meal, week) ->
  cache_key day restaurant = Ok key ->
  (fetch_entries_cached key w).1 = Ok PyNone ->
  (is_current_week day w).1 = Ok true ->
  (fetch_entries_http restaurant w).1 = Ok entries ->
  entries <> ∅ ->
  can_store key w = false ->
  (exists msg, (main parsed w).1 = Raise (OSError msg))
  /\ trace (main parsed w).2
     = HttpPost request_url (request_data restaurant) :: trace w
  /\ cache_files (main parsed w).2 = cache_files w.
Proof.
  intros Hargs Hkey Hprobe Hweek Hfetch Hne Hcan.
  destruct (main_fetched _ _ _ _ _ _ _ _ _ Hargs Hkey Hprobe Hweek Hfetch Hne)
    as (w' & -> & _ & Hfiles & Hdir & Htrace).
  destruct (can_store_stable key w w') as [Hcan' _];
    [by rewrite Hfiles | done |].
  rewrite Hcan in Hcan'.
  destruct (store_fails json (restaurant, day, meal, week) key entries w' Hcan')
    as [msg ->].
  pose proof (makedirs_world w') as (_ & _ & Hf & Ht & _).
  cbn [fst snd]. rewrite Hf, Ht, Hfiles, Htrace. eauto.
Qed.

(** X13: after a run of [main] that ended with status 0, a second run
    with the same arguments on the same day is served from the cache: it
    sends no request and writes no file.  The presentations only print,
    and the files that are in the cache before the first run can be
    read. *)
Theorem main_second_run (parsed : namespace) (w : world) :
  (forall json entries opts, only_prints (display json entries opts)) ->
  (forall key f, cache_files w !! key = Some f -> readable f = true) ->
  (main parsed w).1 = Ok 0 ->
  (exists lines,
     trace (main parsed (main parsed w).2).2
     = map Print lines ++ trace (main parsed w).2)
  /\ cache_files (main parsed (main parsed w).2).2
     = cache_files (main parsed w).2
  /\ (forall n, (main parsed (main parsed w).2).1 = Ok n -> n = 0).
Proof.
  intros Hd Hread Hrun.
  destruct (parse_args parsed w) as [[args | e] wp] eqn:Hp.
  2: { unfold main in Hrun. rewrite (io_bind_raise _ _ _ _ _ Hp) in Hrun.
       discriminate. }
  destruct args as [[[[json restaurant] day] meal] week].
  assert ((parse_args parsed w).1 = Ok (json, restaurant, day, meal, week))
    as Hargs by (by rewrite Hp).
  clear Hp.
  destruct (cache_key day restaurant) as [key | e] eqn:Hkey.
  2: { unfold main in Hrun.
       rewrite (io_bind_ok _ _ _ _ _ (parse_args_pure _ _ _ Hargs)) in Hrun.
       cbn beta iota in Hrun. rewrite Hkey in Hrun.
       rewrite (io_bind_raise (lift (Raise e)) _ w w e eq_refl) in Hrun.
       discriminate. }
  destruct (fetch_entries_cached_ok key w) as [o Ho].
  assert ((fetch_entries_cached key w).1 = Ok o) as Hprobe by (by rewrite Ho).
  clear Ho.
  pose proof (makedirs_world w) as (Htoday & Hremote & Hfiles & Htrace & Hdir).
  assert (forall w1 entries,
            today w1 = today w ->
            (fetch_entries_cached key w1).1 = Ok entries ->
            entries <> PyNone ->
            (exists lines, trace (main parsed w1).2 = map Print lines ++ trace w1)
            /\ cache_files (main parsed w1).2 = cache_files w1
            /\ (forall n, (main parsed w1).1 = Ok n -> n = 0)) as Hhit.
  { intros w1 entries Ht1 Hp1 Hne.
    pose proof (parse_args_same_day parsed w w1 _ Ht1 Hargs) as Hargs1.
    assert ((parse_args parsed w1).1
            = Ok (json, restaurant, day, meal, week)) as Hargs1'
      by (by rewrite Hargs1).
    rewrite (main_after_probe _ _ _ _ _ _ _ _ _ Hargs1' Hkey Hp1).
    pose proof (makedirs_world w1) as (_ & _ & Hf1 & Htr1 & _).
    destruct (show_only_prints json entries (restaurant, day, meal, week)
                (makedirs w1).2 (Hd _ _ _)) as (Ht & _ & _ & Hf & Hn).
    rewrite Htr1 in Ht. rewrite Hf1 in Hf. by destruct entries. }
  rewrite (main_after_probe _ _ _ _ _ _ _ _ _ Hargs Hkey Hprobe) in Hrun |- *.
  assert (o = PyNone \/ o <> PyNone) as [-> | Hne]
    by (destruct o; [by left | by right | by right]).
  - (* the first run missed, and so it fetched and stored *)
    unfold after_probe in Hrun |- *.
    set (wm := (makedirs w).2) in *.
    assert ((is_current_week day wm).1 = Ok true) as Hweek.
    { destruct (is_current_week day wm).1 as [[|] | e] eqn:Hc;
        [done | |]; exfalso; unfold on_miss in Hrun.
      - rewrite (io_bind_ok _ _ wm wm false) in Hrun by (by rewrite <- Hc).
        unfold mbind, io_bind, print, log, mret, io_ret in Hrun.
        cbn [negb fst] in Hrun. discriminate.
      - rewrite (io_bind_raise _ _ wm wm e) in Hrun by (by rewrite <- Hc).
        discriminate. }
    assert (is_current_week day wm = (Ok true, wm)) as Hweek'
      by (by rewrite <- Hweek).
    destruct (fetch_entries_http restaurant wm).1 as [d | e] eqn:Hfetch.
    2: { exfalso. unfold on_miss in Hrun.
         rewrite (io_bind_ok _ _ wm wm true Hweek') in Hrun.
         cbn [negb] in Hrun.
         rewrite (io_bind_raise _ _ wm (requested restaurant wm) e) in Hrun.
         - discriminate.
         - rewrite <- Hfetch, <- (fetch_entries_http_world restaurant).
           by destruct (fetch_entries_http restaurant wm). }
    destruct (decide (d = ∅)) as [-> | Hne].
    { exfalso. unfold on_miss in Hrun.
      rewrite (io_bind_ok _ _ wm wm true Hweek') in Hrun.
      cbn [negb] in Hrun.
      rewrite (io_bind_ok _ _ wm (requested restaurant wm) ∅) in Hrun.
      - rewrite bool_decide_eq_true_2 in Hrun by done.
        unfold mbind, io_bind, print, log, mret, io_ret in Hrun.
        cbn [fst] in Hrun. discriminate.
      - rewrite <- Hfetch, <- (fetch_entries_http_world restaurant).
        by destruct (fetch_entries_http restaurant wm). }
    rewrite (on_miss_fetched _ _ _ _ _ _ _ _ Hweek Hfetch Hne) in Hrun |- *.
    destruct (can_store key (requested restaurant wm)) eqn:Hcan.
    2: { destruct (store_fails json (restaurant, day, meal, week) key d _ Hcan)
           as [msg Hs].
         rewrite Hs in Hrun. discriminate. }
    destruct (store_then_show json (restaurant, day, meal, week) key d _ Hcan
                (Hd _ _ _)) as (w' & -> & _ & Htoday' & Hdir' & Hfiles' & _).
    apply (Hhit _ (PyEntries d)); [| | done].
    + rewrite Htoday'. exact Htoday.
    + rewrite fetch_entries_cached_read, read_cache_result. cbn [fst].
      rewrite Hdir', Hfiles', lookup_insert_eq.
      pose proof (makedirs_world (requested restaurant wm))
        as (_ & _ & _ & _ & ->).
      unfold can_store in Hcan.
      cbn [requested cache_dir cache_files] in Hcan |- *.
      assert (readable (stored d (cache_files wm !! key)) = true) as ->.
      { unfold stored, truncated. cbn [readable]. subst wm. rewrite Hfiles.
        destruct (cache_files w !! key) as [f |] eqn:Hf; [| done].
        cbn [readable]. by apply (Hread key). }
      by destruct (cache_dir wm).
  - (* the first run was served from the cache *)
    assert (after_probe json restaurant day meal week key o
            = show json o (restaurant, day, meal, week)) as ->
      by (by destruct o).
    destruct (show_only_prints json o (restaurant, day, meal, week)
                (makedirs w).2 (Hd _ _ _)) as (_ & Htoday1 & Hdir1 & Hfiles1 & _).
    apply (Hhit _ o); [| | done].
    + by rewrite Htoday1.
    + rewrite <- Hprobe.
      apply fetch_entries_cached_stable;
        [by rewrite Hfiles1, Hfiles | by rewrite Hdir1].
Qed.

(* ===================================================================== *)
(** * What the arguments are parsed to *)
(* ===================================================================== *)

Lemma bind_ok_inv {A B} (m : result A) (k : A -> result B) (b : B) :
  m ≫= k = Ok b -> exists a, m = Ok a /\ k a = Ok b.
Proof. destruct m as [a | e]; [eauto | discriminate]. Qed.

Lemma new_valid (y m d : Z) (x : date) :
  datetime.new y m d = Ok x -> valid x = true.
Proof.
  unfold datetime.new, valid.
  destruct ((MINYEAR <=? y) && (y <=? MAXYEAR)) eqn:E1; [| discriminate].
  destruct ((1 <=? m) && (m <=? 12)) eqn:E2; [| discriminate].
  destruct ((1 <=? d) && (d <=? days_in_month y m)) eqn:E3; [| discriminate].
  intros [= <-]. cbn [year month day].
  apply andb_true_iff in E1 as [-> ->], E2 as [-> ->], E3 as [-> ->]. done.
Qed.

(** [strptime] ends with the constructor of [date], which checks the
    fields. *)
Lemma strptime_valid (data_string format : pystr) (d : date) :
  strptime data_string format = Ok d -> valid d = true.
Proof.
  unfold strptime. intros (rs & _ & H)%bind_ok_inv.
  destruct (re_match true (sequence rs) data_string) as [[found rest] |];
    [| discriminate].
  destruct rest; [| discriminate].
  apply bind_ok_inv in H as (f & _ & H).
  apply bind_ok_inv in H as ([julian y] & _ & H).
  apply bind_ok_inv in H as (d0 & _ & H).
  by apply new_valid in H.
Qed.

Lemma first_parsed_valid (today : date) (day : pystr)
  (fs : list (pystr * pystr)) (d : date) :
  first_parsed today day fs = Ok (Some d) -> valid d = true.
Proof.
  induction fs as [| [format defaults] fs IH]; [discriminate |].
  cbn [first_parsed]. intros (parsed & Hp & H)%bind_ok_inv.
  destruct parsed as [p |]; [| by apply IH].
  injection H as ->. unfold parse_with_format, try_except in Hp.
  destruct (strptime _ _) as [p | e] eqn:Hs; cbn in Hp.
  - injection Hp as ->. by apply strptime_valid in Hs.
  - by destruct (is_ValueError e).
Qed.

Lemma add_days_valid (d0 : date) (n : Z) (d : date) :
  add_days d0 n = Ok d -> valid d = true.
Proof.
  unfold add_days.
  destruct ((0 <? toordinal d0 + n) && (toordinal d0 + n <=? MAXORDINAL))
    eqn:E; [| discriminate].
  apply andb_true_iff in E as [E1 E2].
  destruct (fromordinal_spec (toordinal d0 + n) ltac:(lia))
    as (d' & -> & Hv & _).
  by intros [= <-].
Qed.

(** X14: every date [get_date] returns is a date of the calendar, for the
    words, the names of the days and the numeric forms alike. *)
Theorem get_date_valid (day : pystr) (w : world) (d : date) :
  valid (today w) = true -> (get_date day w).1 = Ok d -> valid d = true.
Proof.
  intros Hv. unfold get_date.
  destruct (str_eqb day (py "today")); [by intros [= <-] |].
  destruct (str_eqb day (py "tomorrow")); [cbn [fst]; apply add_days_valid |].
  destruct (str_eqb day (py "yesterday")); [cbn [fst]; apply add_days_valid |].
  destruct (first_parsed (today w) day formats) as [[p |] | e] eqn:Hp;
    [| | discriminate].
  - intros [= <-]. by apply first_parsed_valid in Hp.
  - unfold mbind, io_bind, print, log, lift. cbn [fst]. discriminate.
Qed.

Lemma get_restaurant_code_range (search : pystr) (code : Z) :
  get_restaurant_code search = Ok code -> 1 <= code <= 24.
Proof.
  unfold get_restaurant_code.
  set (compare := fun entry : Z * pystr => ratio (upper search) entry.2).
  destruct (max_by_first_max compare (enumerate restaurants))
    as (i & [c name] & -> & Hi & _); [done |].
  apply enumerate_lookup in Hi as [Hcode Hname]. cbn [fst snd] in *.
  assert ((i < length restaurants)%nat) as Hlen
    by (apply lookup_lt_is_Some; eauto).
  rewrite restaurants_length in Hlen. intros [= <-]. lia.
Qed.

(** X15: what [parse_args] hands to [main]: a date of the calendar, the
    first character of the meal, an identifier between 1 and 24 and the
    two flags as given; for these the cache key is defined, and so is the
    test of the current week, so that neither makes [main] raise. *)
Theorem parse_args_result (parsed : namespace) (w : world) (json : bool)
  (restaurant : Z) (day : date) (meal : pystr) (week : bool) :
  valid (today w) = true ->
  (parse_args parsed w).1 = Ok (json, restaurant, day, meal, week) ->
  valid day = true
  /\ 1 <= restaurant <= 24
  /\ meal = take 1 (ns_meal parsed) /\ length meal = 1%nat
  /\ json = ns_json parsed /\ week = ns_week parsed
  /\ (exists key, cache_key day restaurant = Ok key)
  /\ (exists current, (is_current_week day w).1 = Ok current).
Proof.
  intros Hv. unfold parse_args, mbind, io_bind, lift, mret, io_ret.
  pose proof (get_date_valid (ns_day parsed) w) as Hd.
  destruct (get_date (ns_day parsed) w) as [[d | e] w1]; cbn [fst snd] in *;
    [| discriminate].
  specialize (Hd d Hv eq_refl).
  destruct (ns_meal parsed) as [| c ?]; [discriminate |].
  pose proof (get_restaurant_code_range (ns_restaurant parsed)) as Hr.
  destruct (get_restaurant_code (ns_restaurant parsed)) as [code |];
    [| discriminate].
  specialize (Hr code eq_refl).
  cbn [fst]. intros [= <- <- <- <- <-].
  destruct (get_week_total d Hd) as [s Hs].
  destruct (get_week_total (today w) Hv) as [s' Hs'].
  repeat split; try done; try lia.
  - unfold cache_key. rewrite Hs. cbn. eauto.
  - unfold is_current_week. rewrite Hs, Hs'. cbn. eauto.
Qed.

(** X16: [is_current_week] tells whether the date falls in the
    Monday-to-Sunday week of the day of the call, and it has no effect. *)
Theorem is_current_week_same_week (d : date) (w : world) :
  valid d = true -> valid (today w) = true ->
  exists current,
    is_current_week d w = (Ok current, w)
    /\ (current = true <-> same_monday_week d (today w)).
Proof.
  intros Hv1 Hv2. unfold is_current_week.
  destruct (get_week_monday d Hv1) as (y1 & w1 & E1 & Hy1 & Hw1 & Hb1 & ->).
  destruct (get_week_monday (today w) Hv2)
    as (y2 & w2 & E2 & Hy2 & Hw2 & Hb2 & ->).
  rewrite E1, E2. cbn. eexists. split; [reflexivity |].
  unfold str_eqb. rewrite bool_decide_eq_true. unfold same_monday_week.
  assert (monday_of d = monday_of (today w)
          <-> (toordinal d - 1) / 7 = (toordinal (today w) - 1) / 7) as <-
    by (unfold monday_of; lia).
  split.
  - intros H. apply bucket_inj in H as [-> Hw]; [| lia ..].
    unfold monday_of in *. euclid.
  - intros HM. rewrite HM in *.
    by rewrite (year_of_day_unique y1 y2 (monday_of (today w))).
Qed.

(* ===================================================================== *)
(** * The names of the catalog *)
(* ===================================================================== *)

Lemma catalog_apart_true : catalog_apart = true.
Proof. vm_compute. reflexivity. Qed.

Lemma catalog_quotients (i j : nat) (a b : pystr) :
  restaurants !! i = Some a -> restaurants !! j = Some b ->
  if (i =? j)%nat then (quotient a b == 1)%Q
  else (quotient b a <= 1 - (1 # 2 ^ 52))%Q.
Proof.
  intros Ha Hb.
  assert ((i < 24)%nat /\ (j < 24)%nat) as [Hi Hj].
  { rewrite <- restaurants_length. split; apply lookup_lt_is_Some; eauto. }
  pose proof catalog_apart_true as H. unfold catalog_apart in H.
  rewrite forallb_forall in H.
  specialize (H i ltac:(apply in_seq; lia)). rewrite forallb_forall in H.
  specialize (H j ltac:(apply in_seq; lia)). rewrite Ha, Hb in H.
  destruct (i =? j)%nat.
  - by apply Qeq_bool_iff.
  - by apply Qle_bool_iff.
Qed.

Lemma ratio_quotient (a b : pystr) :
  b <> [] -> ratio a b = float_round (quotient a b).
Proof.
  intros Hb. unfold ratio, quotient.
  destruct (length a + length b =? 0)%nat eqn:E; [| done].
  apply Nat.eqb_eq in E. destruct b; [done | simpl in E; lia].
Qed.

Lemma restaurants_upper (i : nat) (name : pystr) :
  restaurants !! i = Some name -> upper name = name /\ name <> [].
Proof.
  intros H.
  assert ((i < 24)%nat) as Hi
    by (rewrite <- restaurants_length; apply lookup_lt_is_Some; eauto).
  do 24 (destruct i as [| i];
         [injection H as <-; split; [vm_compute; reflexivity | done] |]).
  lia.
Qed.

(** X17: every name of the catalog, in upper or lower case, is resolved
    to its own identifier. *)
Theorem get_restaurant_code_catalog (i : nat) (name search : pystr) :
  rounds_below_one ->
  restaurants !! i = Some name -> upper search = name ->
  get_restaurant_code search = Ok (Z.of_nat i + 1).
Proof.
  intros Hround Hname Hupper. unfold get_restaurant_code. rewrite Hupper.
  set (compare := fun entry : Z * pystr => ratio name entry.2).
  destruct (max_by_first_max compare (enumerate restaurants))
    as (i' & [code other] & -> & Hi' & Hle & _); [done |].
  apply enumerate_lookup in Hi' as [Hcode Hother]. cbn [fst snd] in *.
  subst code. f_equal.
  destruct (decide (i' = i)) as [-> | Hne]; [done | exfalso].
  specialize (Hle i (Z.of_nat i, name)).
  rewrite enumerate_lookup in Hle. specialize (Hle (conj eq_refl Hname)).
  unfold compare in Hle. cbn [snd] in Hle.
  destruct (restaurants_upper _ _ Hname) as [_ Hn].
  destruct (restaurants_upper _ _ Hother) as [_ Ho].
  rewrite !ratio_quotient in Hle by done.
  pose proof (catalog_quotients i i name name Hname Hname) as Hself.
  rewrite Nat.eqb_refl in Hself.
  pose proof (catalog_quotients i' i other name Hother Hname) as Hapart.
  destruct (Nat.eqb_spec i' i) as [| _]; [done |].
  apply (Qlt_not_le _ _ (Hround _ _ Hapart Hself)). exact Hle.
Qed.

(* ===================================================================== *)
(** * The match the matcher returns *)
(* ===================================================================== *)

Lemma takes_lit (ic : bool) (l p : pystr) :
  Forall2 (fun a c => literal_match ic a c = true) l p ->
  takes ic (Lit l) p [].
Proof.
  intros H R t caps k x Hk. cbn [match_re].
  assert (match_literal ic l (p ++ t) = Some t) as ->.
  { induction H as [| a c l p Hac _ IH]; [done |].
    cbn [match_literal app]. by rewrite Hac. }
  by rewrite app_nil_r in Hk.
Qed.

Lemma takes_class (ic : bool) (p : N -> bool) (c : N) :
  p c = true -> takes ic (Class p) [c] [].
Proof.
  intros H R t caps k x Hk. cbn [match_re app]. rewrite H.
  by rewrite app_nil_r in Hk.
Qed.

Lemma takes_seq (ic : bool) (r1 r2 : regex) (p1 p2 : pystr) g1 g2 :
  takes ic r1 p1 g1 -> takes ic r2 p2 g2 ->
  takes ic (Seq r1 r2) (p1 ++ p2) (g1 ++ g2).
Proof.
  intros H1 H2 R t caps k x Hk. cbn [match_re]. rewrite <- app_assoc.
  apply H1, H2. by rewrite <- app_assoc.
Qed.

Lemma takes_group (ic : bool) (name : string) (r : regex) (p : pystr) g :
  takes ic r p g -> takes ic (Group name r) p (g ++ [(name, p)]).
Proof.
  intros H R t caps k x Hk. cbn [match_re]. apply H.
  rewrite length_app, Nat.add_sub, take_app_length.
  by rewrite <- app_assoc.
Qed.

Lemma takes_alt_l (ic : bool) (r1 r2 : regex) (p : pystr) g :
  takes ic r1 p g -> takes ic (Alt r1 r2) p g.
Proof.
  intros H R t caps k x Hk. cbn [match_re]. by rewrite (H R t caps k x Hk).
Qed.

Lemma takes_alt_r (ic : bool) (r1 r2 : regex) (p : pystr) g :
  refuses ic r1 p -> takes ic r2 p g -> takes ic (Alt r1 r2) p g.
Proof.
  intros H1 H2 R t caps k x Hk. cbn [match_re]. rewrite (H1 R t caps k).
  by apply H2.
Qed.

Lemma refuses_seq (ic : bool) (r1 r2 : regex) (p : pystr) :
  refuses ic r1 p -> refuses ic (Seq r1 r2) p.
Proof. intros H R t caps k. cbn [match_re]. apply H. Qed.

Lemma refuses_class (ic : bool) (p : N -> bool) (c : N) (s : pystr) :
  p c = false -> refuses ic (Class p) (c :: s).
Proof. intros H R t caps k. cbn [match_re app]. by rewrite H. Qed.

(** A white space, then [r] on a text that starts with no white space:
    the greedy repetition takes the one character. *)
Lemma takes_space_then (ic : bool) (r : regex) (sp c : N) (p : pystr) g :
  isspace sp = true -> isspace c = false ->
  takes ic r (c :: p) g ->
  takes ic (Seq (Repeat isspace 1 true) r) (sp :: c :: p) g.
Proof.
  intros Hsp Hc H R t caps k x Hk. cbn [match_re app].
  rewrite Hsp, Hc. cbn [Nat.leb].
  change (c :: p ++ t) with ((c :: p) ++ t).
  by rewrite (H R t caps _ x Hk).
Qed.

Lemma ascii_lower_char_ascii (c : N) :
  (ascii_lower_char c <? 128)%N = true -> (c <? 128)%N = true.
Proof.
  unfold ascii_lower_char, is_ascii_upper.
  destruct (N.leb_spec 65 c), (N.leb_spec c 90); cbn [andb]; try done.
  intros _. apply N.ltb_lt. lia.
Qed.

Lemma literal_match_fold (p c : N) :
  (p <? 128)%N = true -> (ascii_lower_char c <? 128)%N = true ->
  literal_match true p c = (ascii_lower_char c =? ascii_lower_char p)%N.
Proof.
  intros Hp Hc. unfold literal_match.
  by rewrite (ascii_lower_char_ascii c Hc), Hp.
Qed.

Lemma lower_ascii_cons (c : N) (l : pystr) :
  lower_ascii (c :: l) = true ->
  (c <? 128)%N = true /\ ascii_lower_char c = c /\ lower_ascii l = true.
Proof.
  unfold lower_ascii. cbn [forallb].
  intros [[H1 H2%N.eqb_eq]%andb_true_iff H3]%andb_true_iff. done.
Qed.

Lemma takes_lit_fold (l s : pystr) :
  lower_ascii l = true -> map ascii_lower_char s = l ->
  takes true (Lit l) s [].
Proof.
  intros Hl Hs. apply takes_lit. revert l Hl Hs.
  induction s as [| c s IH]; intros l Hl Hs; simpl in Hs; subst l;
    [constructor |].
  apply lower_ascii_cons in Hl as (H1 & H2 & H3).
  constructor; [| by apply IH].
  rewrite literal_match_fold, H2 by done. apply N.eqb_refl.
Qed.

Lemma refuses_lit_fold (l s : pystr) :
  lower_ascii l = true -> lower_ascii (map ascii_lower_char s) = true ->
  differs l (map ascii_lower_char s) = true ->
  refuses true (Lit l) s.
Proof.
  intros Hl Hs Hd R t caps k. cbn [match_re].
  assert (match_literal true l (s ++ t) = None) as ->; [| done].
  revert s Hl Hs Hd. induction l as [| p l IH]; intros s Hl Hs Hd; [done |].
  destruct s as [| c s]; [done |].
  apply lower_ascii_cons in Hl as (H1 & H2 & H3).
  cbn [map] in Hs, Hd. apply lower_ascii_cons in Hs as (H4 & H5 & H6).
  cbn [match_literal app differs] in *.
  rewrite literal_match_fold, H2 by done. rewrite N.eqb_sym.
  destruct (p =? ascii_lower_char c)%N; [by apply IH | done].
Qed.

Lemma takes_alternatives (ls : list pystr) (s : pystr) :
  lower_ascii (map ascii_lower_char s) = true ->
  picks ls (map ascii_lower_char s) = true ->
  takes true (alternatives (map Lit ls)) s [].
Proof.
  intros Hs. induction ls as [| l ls IH]; [done |].
  cbn [picks]. intros [Hl H]%andb_true_iff.
  unfold str_eqb in H.
  destruct (bool_decide_reflect (l = map ascii_lower_char s)) as [E | _].
  - assert (takes true (Lit l) s []) as Ht by (by apply takes_lit_fold).
    cbn [map alternatives]. destruct (map Lit ls); [done |].
    by apply takes_alt_l.
  - apply andb_true_iff in H as [Hd Hp].
    cbn [map alternatives].
    destruct ls as [| l' ls']; [done |].
    apply takes_alt_r; [by apply refuses_lit_fold | by apply IH].
Qed.

Lemma refuses_lit_head (ic : bool) (a c : N) (l s : pystr) :
  literal_match ic a c = false -> refuses ic (Lit (a :: l)) (c :: s).
Proof. intros H R t caps k. cbn [match_re match_literal app]. by rewrite H. Qed.

Lemma isdecimal_digit (v : Z) :
  0 <= v <= 9 ->
  isdecimal (Z.to_N (48 + v)) = true /\ isspace (Z.to_N (48 + v)) = false
  /\ decimal_value (Z.to_N (48 + v)) = Some v.
Proof.
  intros Hv. unfold isdecimal, isspace, decimal_value, is_ascii_digit.
  destruct (N.ltb_spec (Z.to_N (48 + v)) 128); [| lia].
  destruct (N.leb_spec 48 (Z.to_N (48 + v))); [| lia].
  destruct (N.leb_spec (Z.to_N (48 + v)) 57); [| lia].
  destruct (N.eqb_spec (Z.to_N (48 + v)) 32); [lia |].
  destruct (N.leb_spec (Z.to_N (48 + v)) 13); [lia |].
  destruct (N.leb_spec (Z.to_N (48 + v)) 31); [lia |].
  cbn [andb orb]. rewrite !andb_false_r. repeat split.
  f_equal. lia.
Qed.

(** [%W] takes the two digits of a week number. *)
Lemma takes_W (w : Z) :
  0 <= w <= 53 ->
  takes true (regex_of 87) (two_digits w) [("W"%string, two_digits w)].
Proof.
  intros Hw.
  assert (exists n, (n < 54)%nat /\ w = Z.of_nat n) as (n & Hn & ->)
    by (exists (Z.to_nat w); lia).
  clear Hw.
  do 54 (destruct n as [| n];
    [ match goal with
      | |- takes _ _ ?p _ =>
          let v := eval vm_compute in p in change p with v
      end;
      apply (takes_group true "W" _ _ []); unfold digits;
      first
        [ apply takes_alt_l;
          apply (takes_seq true _ _ [_] [_] [] []);
          [ apply takes_lit; by repeat constructor
          | by apply takes_class ]
        | apply takes_alt_r;
          [ by apply refuses_seq, refuses_lit_head
          | apply takes_alt_l;
            apply (takes_seq true _ _ [_] [_] [] []);
            by apply takes_class ] ]
    |]).
  lia.
Qed.

(** [%Y] takes the four digits of a year. *)
Lemma takes_Y (y : Z) :
  1000 <= y <= 9999 ->
  takes true (regex_of 89) (four_digits y) [("Y"%string, four_digits y)].
Proof.
  intros Hy.
  assert (0 <= y / 1000 <= 9 /\ 0 <= y / 100 mod 10 <= 9
          /\ 0 <= y / 10 mod 10 <= 9 /\ 0 <= y mod 10 <= 9)
    as (H1 & H2 & H3 & H4) by euclid.
  apply isdecimal_digit in H1 as [H1 _], H2 as [H2 _], H3 as [H3 _],
    H4 as [H4 _].
  apply (takes_group true "Y" _ _ []).
  apply (takes_seq true _ _ [_] [_; _; _] [] []); [by apply takes_class |].
  apply (takes_seq true _ _ [_] [_; _] [] []); [by apply takes_class |].
  apply (takes_seq true _ _ [_] [_] [] []); by apply takes_class.
Qed.

(** The regular expressions of the two formats of a name of a day. *)
Lemma pattern_a :
  pattern (py "%a" ++ py "|" ++ py "%W %Y") false
  = Ok [regex_of 97; Lit [124%N]; regex_of 87; Repeat isspace 1 true;
        regex_of 89].
Proof. reflexivity. Qed.

Lemma pattern_A :
  pattern (py "%A" ++ py "|" ++ py "%W %Y") false
  = Ok [regex_of 65; Lit [124%N]; regex_of 87; Repeat isspace 1 true;
        regex_of 89].
Proof. reflexivity. Qed.

(** A name of a day, a bar, a week number and a year, matched with the
    expression of their format. *)
Lemma re_match_weekday (d : N) (names : list pystr) (dir : string)
  (s : pystr) (w y : Z) :
  regex_of d = seqToRE names dir ->
  lower_ascii (map ascii_lower_char s) = true ->
  picks (longest_first names) (map ascii_lower_char s) = true ->
  0 <= w <= 53 -> 1000 <= y <= 9999 ->
  re_match true
    (sequence [regex_of d; Lit [124%N]; regex_of 87; Repeat isspace 1 true;
               regex_of 89])
    (s ++ [124%N] ++ two_digits w ++ [32%N] ++ four_digits y)
  = Some ([(dir, s); ("W"%string, two_digits w); ("Y"%string, four_digits y)], []).
Proof.
  intros Hd Hs Hp Hw Hy. rewrite Hd. unfold seqToRE, re_match.
  cbn [sequence].
  assert (0 <= y / 1000 <= 9) as [_ [Hsp _]]%isdecimal_digit by euclid.
  assert (takes true (Lit [124%N]) [124%N] []) as Hbar
    by (apply takes_lit; by repeat constructor).
  pose proof (takes_seq true _ _ _ _ _ _
                (takes_group true dir _ _ [] (takes_alternatives _ s Hs Hp))
                (takes_seq true _ _ _ _ _ _ Hbar
                   (takes_seq true _ _ _ _ _ _ (takes_W w Hw)
                      (takes_space_then true _ 32 _ _ _ eq_refl Hsp
                         (takes_Y y Hy))))) as H.
  specialize (H _ [] [] (fun s' caps => Some (caps, s')) _ eq_refl).
  rewrite app_nil_r in H. exact H.
Qed.

(* ===================================================================== *)
(** * The names of the days *)
(* ===================================================================== *)

Lemma str_of_int_year (y : Z) :
  1000 <= y <= 9999 -> str_of_int y = four_digits y.
Proof.
  intros Hy.
  assert (forallb (fun n => bool_decide
            (str_of_int (1000 + Z.of_nat n) = four_digits (1000 + Z.of_nat n)))
            (seq 0 (Z.to_nat 9000)) = true) as Hall by (vm_compute; reflexivity).
  rewrite forallb_forall in Hall.
  specialize (Hall (Z.to_nat (y - 1000)) ltac:(apply in_seq; lia)).
  rewrite bool_decide_eq_true in Hall.
  by replace (1000 + Z.of_nat (Z.to_nat (y - 1000))) with y in Hall by lia.
Qed.

Lemma int_of_str_two_digits (w : Z) :
  0 <= w < 100 -> int_of_str (two_digits w) = Ok w.
Proof.
  intros Hw.
  assert (0 <= w / 10 <= 9 /\ 0 <= w mod 10 <= 9) as [H1 H2] by euclid.
  destruct (isdecimal_digit _ H1) as (_ & _ & Hv1).
  destruct (isdecimal_digit _ H2) as (_ & _ & Hv2).
  assert (forall v, 0 <= v <= 9 ->
            int_space (Z.to_N (48 + v)) = false
            /\ (Z.to_N (48 + v) =? 45)%N = false
            /\ (Z.to_N (48 + v) =? 43)%N = false
            /\ (Z.to_N (48 + v) =? 95)%N = false) as Hc.
  { intros v Hv. unfold int_space.
    destruct (N.ltb_spec (Z.to_N (48 + v)) 128); [| lia].
    destruct (N.eqb_spec (Z.to_N (48 + v)) 32); [lia |].
    destruct (N.leb_spec (Z.to_N (48 + v)) 13); [lia |].
    rewrite andb_false_r. repeat split; apply N.eqb_neq; lia. }
  destruct (Hc _ H1) as (Hs1 & Hm1 & Hp1 & Hu1).
  destruct (Hc _ H2) as (Hs2 & Hm2 & Hp2 & Hu2).
  unfold int_of_str, two_digits.
  cbn [skip_spaces rev app]. rewrite Hs1. cbn [rev app skip_spaces].
  rewrite Hs2. cbn [rev app]. rewrite Hm1, Hp1.
  cbn [int_digits]. rewrite Hu1, Hv1, Hu2, Hv2.
  unfold MAX_STR_DIGITS. cbn. f_equal. euclid.
Qed.

Lemma int_of_str_four_digits (y : Z) :
  1000 <= y <= 9999 -> int_of_str (four_digits y) = Ok y.
Proof.
  intros Hy.
  assert (0 <= y / 1000 <= 9 /\ 0 <= y / 100 mod 10 <= 9
          /\ 0 <= y / 10 mod 10 <= 9 /\ 0 <= y mod 10 <= 9)
    as (H1 & H2 & H3 & H4) by euclid.
  destruct (isdecimal_digit _ H1) as (_ & _ & Hv1).
  destruct (isdecimal_digit _ H2) as (_ & _ & Hv2).
  destruct (isdecimal_digit _ H3) as (_ & _ & Hv3).
  destruct (isdecimal_digit _ H4) as (_ & _ & Hv4).
  assert (forall v, 0 <= v <= 9 ->
            int_space (Z.to_N (48 + v)) = false
            /\ (Z.to_N (48 + v) =? 45)%N = false
            /\ (Z.to_N (48 + v) =? 43)%N = false
            /\ (Z.to_N (48 + v) =? 95)%N = false) as Hc.
  { intros v Hv. unfold int_space.
    destruct (N.ltb_spec (Z.to_N (48 + v)) 128); [| lia].
    destruct (N.eqb_spec (Z.to_N (48 + v)) 32); [lia |].
    destruct (N.leb_spec (Z.to_N (48 + v)) 13); [lia |].
    rewrite andb_false_r. repeat split; apply N.eqb_neq; lia. }
  destruct (Hc _ H1) as (Hs1 & Hm1 & Hp1 & Hu1).
  destruct (Hc _ H2) as (_ & _ & _ & Hu2).
  destruct (Hc _ H3) as (_ & _ & _ & Hu3).
  destruct (Hc _ H4) as (Hs4 & _ & _ & Hu4).
  unfold int_of_str, four_digits.
  cbn [skip_spaces rev app]. rewrite Hs1. cbn [rev app skip_spaces].
  rewrite Hs4. cbn [rev app]. rewrite Hm1, Hp1.
  cbn [int_digits]. rewrite Hu1, Hv1, Hu2, Hv2, Hu3, Hv3, Hu4, Hv4.
  unfold MAX_STR_DIGITS. cbn. f_equal. euclid.
Qed.

Lemma strftime_W_Y (d : date) :
  valid d = true -> 1000 <= year d ->
  strftime d (py "%W %Y")
  = two_digits (week_number d) ++ [32%N] ++ four_digits (year d).
Proof.
  intros Hv Hy.
  pose proof (valid_fields d Hv) as (Hy' & _).
  pose proof (week_number_range d Hv) as Hw.
  replace (py "%W %Y") with [37%N; 87%N; 32%N; 37%N; 89%N]
    by (vm_compute; reflexivity).
  cbn [strftime N.eqb Pos.eqb].
  rewrite format_02_two_digits, str_of_int_year by lia.
  by rewrite app_nil_r.
Qed.

Lemma lower_fold (s : pystr) :
  lower_ascii (map ascii_lower_char s) = true ->
  lower s = map ascii_lower_char s.
Proof.
  intros H. unfold lower.
  assert (forallb (fun c => (c <? 128)%N) s = true) as ->; [| done].
  induction s as [| c s IH]; [done |].
  cbn [map] in H. apply lower_ascii_cons in H as (H1 & _ & H3).
  cbn [forallb]. rewrite (ascii_lower_char_ascii c H1). by apply IH.
Qed.

Lemma new_january_1 (y : Z) :
  1 <= y <= 9999 -> datetime.new y 1 1 = Ok (Date y 1 1).
Proof.
  intros Hy. unfold datetime.new, MINYEAR, MAXYEAR.
  destruct (Z.leb_spec 1 y); [| lia].
  destruct (Z.leb_spec y 9999); [| lia]. reflexivity.
Qed.

Lemma new_of_valid (d : date) :
  valid d = true -> datetime.new (year d) (month d) (day d) = Ok d.
Proof.
  unfold valid, datetime.new. destruct d as [y m dd]. cbn [year month day].
  intros H. repeat (apply andb_true_iff in H as [H ?]).
  by repeat match goal with E : _ = true |- _ => rewrite E; clear E end.
Qed.

(** The day of the year [_strptime] computes from the week number of a
    day and a day of the week is the day of the week, of the Monday to
    Sunday week of the day. *)
Lemma calc_julian_week (d : date) (wd : Z) :
  valid d = true -> 2 <= year d -> 0 <= wd < 7 ->
  exists julian,
    calc_julian_from_W (year d) (week_number d) wd = Ok julian
    /\ julian - 1 + toordinal (Date (year d) 1 1) = monday_of d + 1 + wd
    /\ (julian <= 0 ->
        julian + (if is_leap (year d - 1) then 366 else 365) - 1
        + toordinal (Date (year d - 1) 1 1)
        = monday_of d + 1 + wd).
Proof.
  intros Hv Hy Hwd.
  pose proof (valid_fields d Hv) as (Hy' & _).
  pose proof (toordinal_in_year d Hv) as Hord.
  pose proof (week_number_monday d) as HW.
  pose proof (week_number_range d Hv) as Hw.
  pose proof (days_before_year_succ (year d - 1)) as Hs.
  replace (year d - 1 + 1) with (year d) in Hs by lia.
  unfold calc_julian_from_W. rewrite new_january_1 by lia.
  cbn [mbind result_bind].
  unfold weekday, toordinal, ymd2ord, days_before_month. cbn [year month day].
  cbn [DAYS_BEFORE_MONTH Z.ltb Z.compare andb Pos.compare Pos.compare_cont].
  unfold monday_of in *. unfold toordinal, ymd2ord in *.
  set (D := days_before_year (year d)) in *.
  set (D' := days_before_year (year d - 1)) in *.
  set (o := D + days_before_month (year d) (month d) + day d) in *.
  destruct (Z.eqb_spec (week_number d) 0) as [E | E].
  - eexists. split; [reflexivity |]. rewrite E in HW.
    split; [euclid |]. intros _.
    destruct (is_leap (year d - 1)); euclid.
  - eexists. split; [reflexivity |].
    split; [euclid |]. intros Hj. exfalso. euclid.
Qed.

Lemma read_groups_weekday (names : list pystr) (dir : string) (s : pystr)
  (i : nat) (w y : Z) :
  (dir = "a"%string /\ names = a_weekday)
  \/ (dir = "A"%string /\ names = f_weekday) ->
  lower_ascii (map ascii_lower_char s) = true ->
  index names (map ascii_lower_char s) = Ok (Z.of_nat i) ->
  0 <= w <= 53 -> 1000 <= y <= 9999 ->
  read_groups (Found None 1 1 None None)
    [(dir, s); ("W"%string, two_digits w); ("Y"%string, four_digits y)]
  = Ok (Found (Some y) 1 1 (Some w) (Some (Z.of_nat i))).
Proof.
  intros Hdir Hlow Hidx Hw Hy.
  pose proof (lower_fold s Hlow) as Hl.
  pose proof (int_of_str_two_digits w ltac:(lia)) as HW.
  pose proof (int_of_str_four_digits y Hy) as HY.
  cbn [read_groups].
  destruct Hdir as [[-> ->] | [-> ->]].
  - change (read_group (Found None 1 1 None None) ("a"%string, s))
      with (wd ← index a_weekday (lower s);
            Ok (Found None 1 1 None (Some wd))).
    rewrite Hl, Hidx. cbn [mbind result_bind].
    change (read_group ?f ("W"%string, two_digits w))
      with (n ← int_of_str (two_digits w);
            Ok (Found None 1 1 (Some n) (Some (Z.of_nat i)))).
    rewrite HW. cbn [mbind result_bind].
    change (read_group ?f ("Y"%string, four_digits y))
      with (n ← int_of_str (four_digits y);
            Ok (Found (Some n) 1 1 (Some w) (Some (Z.of_nat i)))).
    rewrite HY. reflexivity.
  - change (read_group (Found None 1 1 None None) ("A"%string, s))
      with (wd ← index f_weekday (lower s);
            Ok (Found None 1 1 None (Some wd))).
    rewrite Hl, Hidx. cbn [mbind result_bind].
    change (read_group ?f ("W"%string, two_digits w))
      with (n ← int_of_str (two_digits w);
            Ok (Found None 1 1 (Some n) (Some (Z.of_nat i)))).
    rewrite HW. cbn [mbind result_bind].
    change (read_group ?f ("Y"%string, four_digits y))
      with (n ← int_of_str (four_digits y);
            Ok (Found (Some n) 1 1 (Some w) (Some (Z.of_nat i)))).
    rewrite HY. reflexivity.
Qed.

(** A name of a day with the week and the year of [today], parsed with
    the format of the name: the day of that name in the Monday to Sunday
    week of [today]. *)
Lemma strptime_weekday (d : N) (names : list pystr) (dir : string)
  (fmt s : pystr) (i : nat) (today : date) :
  pattern (fmt ++ py "|" ++ py "%W %Y") false
  = Ok [regex_of d; Lit [124%N]; regex_of 87; Repeat isspace 1 true;
        regex_of 89] ->
  regex_of d = seqToRE names dir ->
  (dir = "a"%string /\ names = a_weekday)
  \/ (dir = "A"%string /\ names = f_weekday) ->
  lower_ascii (map ascii_lower_char s) = true ->
  picks (longest_first names) (map ascii_lower_char s) = true ->
  index names (map ascii_lower_char s) = Ok (Z.of_nat i) ->
  (i < 7)%nat ->
  valid today = true -> 1000 <= year today ->
  monday_of today + 1 + Z.of_nat i <= MAXORDINAL ->
  exists dt,
    strptime (s ++ py "|" ++ strftime today (py "%W %Y"))
      (fmt ++ py "|" ++ py "%W %Y") = Ok dt
    /\ valid dt = true
    /\ toordinal dt = monday_of today + 1 + Z.of_nat i.
Proof.
  intros Hpat Hre Hdir Hlow Hpick Hidx Hi Hv Hy Hmax.
  pose proof (valid_fields today Hv) as (Hy' & _).
  pose proof (week_number_range today Hv) as Hw.
  assert (0 <= monday_of today) as HM.
  { unfold monday_of. pose proof (toordinal_range today Hv). euclid. }
  unfold strptime. rewrite Hpat. cbn [mbind result_bind].
  rewrite strftime_W_Y by done.
  change (py "|") with [124%N].
  assert (1000 <= year today <= 9999) as Hy4 by lia.
  rewrite (re_match_weekday d names dir s _ _ Hre Hlow Hpick Hw Hy4).
  rewrite (read_groups_weekday names dir s i _ _ Hdir Hlow Hidx Hw Hy4).
  cbn [mbind result_bind got_year got_month got_day f_week_ogot_year
       got_weekday].
  destruct (calc_julian_week today (Z.of_nat i) Hv ltac:(lia) ltac:(lia))
    as (julian & -> & Hpos & Hneg).
  cbn [mbind result_bind].
  destruct (fromordinal_spec (monday_of today + 1 + Z.of_nat i) ltac:(lia))
    as (dt & Hdt & Hvdt & Hodt).
  exists dt. split; [| done].
  destruct (Z.leb_spec julian 0) as [Hj | Hj]; cbn [mbind result_bind].
  - rewrite new_january_1 by lia. cbn [mbind result_bind].
    rewrite (Hneg Hj), Hdt. cbn [mbind result_bind].
    by apply new_of_valid.
  - rewrite new_january_1 by lia. cbn [mbind result_bind].
    rewrite Hpos, Hdt. cbn [mbind result_bind].
    by apply new_of_valid.
Qed.

Lemma matched_alternatives_lit (ic : bool) (ls : list pystr) (n : nat)
  (t : pystr) g :
  ls <> [] -> Forall (fun l => length l = n) ls ->
  matched ic (alternatives (map Lit ls)) t g -> length t = n.
Proof.
  intros Hne Hall. induction Hall as [| l ls Hl Hall IH]; [done |].
  cbn [map alternatives].
  assert (matched ic (Lit l) t g -> length t = n) as Hlit.
  { intros H. inversion H as [l' t' HF | | | | | |]; subst.
    apply Forall2_length in HF. lia. }
  destruct ls as [| l' ls']; [exact Hlit |].
  intros H. inversion H; subst; [by apply Hlit | by apply IH].
Qed.

(** A text whose fourth character is not a bar does not match the format
    of the short names, which are three characters long. *)
Lemma strptime_a_refuses (s t : pystr) (c : N) :
  map ascii_lower_char s !! 3%nat = Some c ->
  (c <? 128)%N = true -> (c =? 124)%N = false ->
  strptime (s ++ t) (py "%a" ++ py "|" ++ py "%W %Y")
  = Raise (ValueError "time data does not match format").
Proof.
  intros Hc H128 H124.
  rewrite list_lookup_fmap in Hc.
  destruct (s !! 3%nat) as [c4 |] eqn:Hs; [| done].
  injection Hc as Hc.
  assert (literal_match true 124 c4 = false) as Hlm.
  { rewrite literal_match_fold by (by rewrite ?Hc). by rewrite Hc. }
  unfold strptime. rewrite pattern_a. cbn [mbind result_bind].
  destruct (re_match true _ (s ++ t)) as [[found rest] |] eqn:E; [| done].
  exfalso. apply re_match_sound in E as (t0 & Ht & Hm).
  cbn [sequence] in Hm.
  change (regex_of 97) with (seqToRE a_weekday "a") in Hm.
  unfold seqToRE in Hm.
  inversion Hm as [| | | r1 r2 t1 t2 g1 g2 H1 H2 | | |]; subst.
  inversion H1 as [| | | | | | name r t1' g1' H1']; subst.
  apply (matched_alternatives_lit true a_weekday 3) in H1';
    [| done | by repeat constructor].
  inversion H2 as [| | | r1 r2 t3 t4 g3 g4 H3 H4 | | |]; subst.
  inversion H3 as [l' t3' HF | | | | | |]; subst.
  inversion HF as [| a c' l'' t3'' Hac HF']; subst.
  inversion HF'; subst.
  assert ((s ++ t) !! 3%nat = Some c4) as Hl
    by (by apply lookup_app_l_Some).
  rewrite Ht in Hl. rewrite <- !app_assoc in Hl.
  rewrite lookup_app_r in Hl by lia. rewrite H1' in Hl.
  cbn in Hl. injection Hl as <-. congruence.
Qed.

Lemma first_parsed_weekday (today : date) (name s : pystr) (i : nat) :
  valid today = true -> 1000 <= year today ->
  a_weekday !! i = Some name \/ f_weekday !! i = Some name ->
  map ascii_lower_char s = name ->
  monday_of today + 1 + Z.of_nat i <= MAXORDINAL ->
  exists dt,
    first_parsed today s formats = Ok (Some dt)
    /\ valid dt = true
    /\ toordinal dt = monday_of today + 1 + Z.of_nat i.
Proof.
  intros Hv Hy Hname Hs Hmax.
  assert ((i < 7)%nat) as Hi.
  { destruct Hname as [H | H]; apply lookup_lt_Some in H; exact H. }
  unfold formats. cbn [first_parsed]. unfold parse_with_format.
  destruct Hname as [Hname | Hname].
  - (* a short name: the first format *)
    destruct (strptime_weekday 97 a_weekday "a" (py "%a") s i today)
      as (dt & -> & Hdt); try done; try (by left);
      [| | | by exists dt];
      do 7 (destruct i as [| i];
            [injection Hname as <-; rewrite Hs; reflexivity |]); lia.
  - (* a full name: the first format refuses it, the second parses it *)
    rewrite (strptime_a_refuses s _ (default 0%N (name !! 3%nat))).
    2: { rewrite Hs. do 7 (destruct i as [| i];
                             [by injection Hname as <- |]). lia. }
    2, 3: do 7 (destruct i as [| i]; [by injection Hname as <- |]); lia.
    cbn [try_except is_ValueError mbind result_bind].
    destruct (strptime_weekday 65 f_weekday "A" (py "%A") s i today)
      as (dt & -> & Hdt); try done; try (by right);
      [| | | by exists dt];
      do 7 (destruct i as [| i];
            [injection Hname as <-; rewrite Hs; reflexivity |]); lia.
Qed.

(** A name of a day is none of the three words, and the formats of the
    names parse it. *)
Lemma get_date_weekday_ordinal (w : world) (name s : pystr) (i : nat) :
  valid (today w) = true -> 1000 <= year (today w) ->
  a_weekday !! i = Some name \/ f_weekday !! i = Some name ->
  map ascii_lower_char s = name ->
  monday_of (today w) + 1 + Z.of_nat i <= MAXORDINAL ->
  exists d,
    get_date s w = (Ok d, w)
    /\ valid d = true
    /\ toordinal d = monday_of (today w) + 1 + Z.of_nat i.
Proof.
  intros Hv Hy Hname Hs Hmax.
  assert ((i < 7)%nat) as Hi.
  { destruct Hname as [H | H]; apply lookup_lt_Some in H; exact H. }
  destruct (first_parsed_weekday (today w) name s i Hv Hy Hname Hs Hmax)
    as (d & Hp & Hvd & Hod).
  assert (forall kw, map ascii_lower_char kw = kw ->
            length kw <> length name \/ kw !! 0%nat <> name !! 0%nat
            \/ kw !! 1%nat <> name !! 1%nat ->
            str_eqb s kw = false) as Hkw.
  { intros kw Hfold Hdiff. unfold str_eqb. apply bool_decide_eq_false.
    intros ->. rewrite Hfold in Hs. subst kw.
    destruct Hdiff as [? | [? | ?]]; done. }
  exists d. unfold get_date.
  rewrite !Hkw, Hp; try reflexivity; try done.
  - destruct Hname as [H | H];
      do 7 (destruct i as [| i];
            [injection H as <-;
             first [by left | by right; left | by right; right] |]); lia.
  - destruct Hname as [H | H];
      do 7 (destruct i as [| i];
            [injection H as <-;
             first [by left | by right; left | by right; right] |]); lia.
  - destruct Hname as [H | H];
      do 7 (destruct i as [| i];
            [injection H as <-;
             first [by left | by right; left | by right; right] |]); lia.
Qed.

(** X18: a name of a day, short or full and in any casing, is resolved to
    the day of that name in the Monday to Sunday week of the day of the
    call, and nothing is printed.  The year of the call has four digits,
    and the day asked for is not beyond the last day of the calendar. *)
Theorem get_date_weekday (w : world) (name s : pystr) (i : nat) :
  valid (today w) = true -> 1000 <= year (today w) ->
  a_weekday !! i = Some name \/ f_weekday !! i = Some name ->
  map ascii_lower_char s = name ->
  monday_of (today w) + 1 + Z.of_nat i <= MAXORDINAL ->
  exists d,
    get_date s w = (Ok d, w)
    /\ valid d = true
    /\ same_monday_week d (today w)
    /\ weekday d = Z.of_nat i.
Proof.
  intros Hv Hy Hname Hs Hmax.
  assert ((i < 7)%nat) as Hi.
  { destruct Hname as [H | H]; apply lookup_lt_Some in H; exact H. }
  destruct (get_date_weekday_ordinal w name s i Hv Hy Hname Hs Hmax)
    as (d & Hd & Hvd & Hod).
  exists d. split; [done |]. split; [done |].
  unfold same_monday_week, weekday. rewrite Hod. unfold monday_of.
  split; euclid.
Qed.

(* ===================================================================== *)
(** * Properties of the presentation *)
(* ===================================================================== *)

Lemma only_prints_ret {A} (a : A) : only_prints (mret a : io A).
Proof. intros w. exists []. by repeat split. Qed.

Lemma only_prints_print (line : pystr) : only_prints (print line).
Proof. intros w. exists [line]. by repeat split. Qed.

Lemma only_prints_lift {A} (r : result A) : only_prints (lift r).
Proof. intros w. exists []. by repeat split. Qed.

Lemma only_prints_bind {A B} (m : io A) (k : A -> io B) :
  only_prints m -> (forall a, only_prints (k a)) -> only_prints (m ≫= k).
Proof.
  intros Hm Hk w. unfold mbind, io_bind.
  destruct (Hm w) as (l1 & Ht1 & Hd1 & Hr1 & Hc1 & Hf1).
  destruct (m w) as [[a | e] w1]; cbn [fst snd] in *.
  - destruct (Hk a w1) as (l2 & Ht2 & Hd2 & Hr2 & Hc2 & Hf2).
    exists (l2 ++ l1). rewrite Ht2, Ht1, Hd2, Hr2, Hc2, Hf2, map_app.
    by rewrite app_assoc.
  - by exists l1.
Qed.

Lemma only_prints_for_each {A} (items : list A) (body : A -> io unit) :
  (forall x, only_prints (body x)) -> only_prints (for_each items body).
Proof.
  intros Hb. induction items as [| x items IH]; cbn [for_each].
  - apply only_prints_ret.
  - apply only_prints_bind; [apply Hb | intros _; apply IH].
Qed.

Lemma only_prints_display_day_menu (entries : gmap (list N) menu_entry)
  (day : date) (meal : pystr) :
  only_prints (display_day_menu entries day meal).
Proof.
  unfold display_day_menu.
  repeat first
    [ apply only_prints_print | apply only_prints_lift
    | apply only_prints_ret
    | apply only_prints_bind; [| intros ?]
    | match goal with |- only_prints (if ?b then _ else _) => destruct b end ].
Qed.

(** X19: the presentation of a dictionary of entries, pretty or JSON,
    for a day or for a week, only prints: it sends no request and it
    neither reads nor writes the cache, whether it returns or raises. *)
Theorem display_only_prints (entries : gmap (list N) menu_entry)
  (opts : Z * date * list N * bool) :
  only_prints (display_pretty_dict entries opts)
  /\ only_prints (display_json_dict entries opts).
Proof.
  destruct opts as [[[restaurant day] meal] week].
  unfold display_pretty_dict, display_json_dict, display_week_menu. split.
  - apply only_prints_bind; [apply only_prints_lift | intros name].
    apply only_prints_bind; [apply only_prints_print | intros _].
    destruct week; [| apply only_prints_display_day_menu].
    apply only_prints_for_each. intros weekday.
    apply only_prints_bind; [apply only_prints_lift | intros date].
    apply only_prints_display_day_menu.
  - apply only_prints_bind; [apply only_prints_lift | intros name].
    apply only_prints_bind; [apply only_prints_lift | intros data].
    apply only_prints_print.
Qed.

(** X20: [display_json] prints all or nothing: when it raises, for an
    entry that is not there or a day that cannot be computed, it has
    printed nothing, and when it returns it has printed one text. *)
Theorem display_json_all_or_nothing (entries : gmap (list N) menu_entry)
  (opts : Z * date * list N * bool) (w : world) :
  (exists e, display_json_dict entries opts w = (Raise e, w))
  \/ (exists text,
        display_json_dict entries opts w = (Ok tt, (print text w).2)).
Proof.
  destruct opts as [[[restaurant day] meal] week].
  unfold display_json_dict, mbind at 1 2, io_bind, lift.
  destruct (list_getitem restaurants (restaurant - 1)) as [name | e];
    [| left; eauto].
  destruct (if week then _ else _) as [data | e]; [| left; eauto].
  right. eauto.
Qed.





Lemma date_of_fields_week (d : date) (wd : Z) :
  valid d = true -> 2 <= year d -> 0 <= wd < 7 ->
  monday_of d + 1 + wd <= MAXORDINAL ->
  exists dt,
    date_of_fields (Found (Some (year d)) 1 1 (Some (week_number d)) (Some wd))
    = Ok dt
    /\ valid dt = true /\ toordinal dt = monday_of d + 1 + wd.
Proof.
  intros Hv Hy Hwd Hmax.
  pose proof (valid_fields d Hv) as (Hy' & _).
  assert (0 <= monday_of d) as HM.
  { unfold monday_of. pose proof (toordinal_range d Hv). euclid. }
  unfold date_of_fields.
  cbn [mbind result_bind got_year got_month got_day f_week_ogot_year
       got_weekday].
  destruct (calc_julian_week d wd Hv Hy Hwd) as (julian & -> & Hpos & Hneg).
  cbn [mbind result_bind].
  destruct (fromordinal_spec (monday_of d + 1 + wd) ltac:(lia))
    as (dt & Hdt & Hvdt & Hodt).
  exists dt. split; [| done].
  destruct (Z.leb_spec julian 0) as [Hj | Hj]; cbn [mbind result_bind].
  - rewrite new_january_1 by lia. cbn [mbind result_bind].
    rewrite (Hneg Hj), Hdt. cbn [mbind result_bind].
    by apply new_of_valid.
  - rewrite new_january_1 by lia. cbn [mbind result_bind].
    rewrite Hpos, Hdt. cbn [mbind result_bind].
    by apply new_of_valid.
Qed.

Lemma strftime_full_W_Y (d : date) :
  valid d = true -> 1000 <= year d ->
  strftime_full d (py "%W-%Y")
  = two_digits (week_number d) ++ [45%N] ++ four_digits (year d).
Proof.
  intros Hv Hy.
  pose proof (valid_fields d Hv) as (Hy' & _).
  pose proof (week_number_range d Hv) as Hw.
  replace (py "%W-%Y") with [37%N; 87%N; 45%N; 37%N; 89%N]
    by (vm_compute; reflexivity).
  cbn [strftime_full N.eqb Pos.eqb].
  rewrite format_02_two_digits, str_of_int_year by lia.
  by rewrite app_nil_r.
Qed.

Lemma pattern_w_week :
  pattern_w (py "%w-%W-%Y") false
  = Ok [Group "w" (digits 0 6); Lit [45%N]; regex_of 87; Lit [45%N];
        regex_of 89].
Proof. reflexivity. Qed.

Lemma re_match_week (c : N) (w y : Z) :
  in_range 48 54 c = true -> 0 <= w <= 53 -> 1000 <= y <= 9999 ->
  re_match true
    (sequence [Group "w" (digits 0 6); Lit [45%N]; regex_of 87; Lit [45%N];
               regex_of 89])
    ([c] ++ [45%N] ++ two_digits w ++ [45%N] ++ four_digits y)
  = Some ([("w"%string, [c]); ("W"%string, two_digits w);
           ("Y"%string, four_digits y)], []).
Proof.
  intros Hc Hw Hy. unfold re_match. cbn [sequence].
  assert (takes true (Lit [45%N]) [45%N] []) as Hbar
    by (apply takes_lit; by repeat constructor).
  pose proof (takes_seq true _ _ _ _ _ _
                (takes_group true "w" _ _ []
                   (takes_class true (in_range (48 + 0) (48 + 6)) c Hc))
                (takes_seq true _ _ _ _ _ _ Hbar
                   (takes_seq true _ _ _ _ _ _ (takes_W w Hw)
                      (takes_seq true _ _ _ _ _ _ Hbar (takes_Y y Hy)))))
    as H.
  specialize (H _ [] [] (fun s' caps => Some (caps, s')) _ eq_refl).
  rewrite app_nil_r in H. exact H.
Qed.

(** The days the week view asks for: the day [weekday] days after the
    Sunday before the Monday to Sunday week of [day]. *)
Lemma week_day_ordinal (day : date) (weekday : Z) :
  valid day = true -> 1000 <= year day -> 1 <= weekday <= 6 ->
  monday_of day + weekday <= MAXORDINAL ->
  exists d,
    week_day day weekday = Ok d
    /\ valid d = true /\ toordinal d = monday_of day + weekday.
Proof.
  intros Hv Hy Hk Hmax.
  pose proof (valid_fields day Hv) as (Hy' & _).
  pose proof (week_number_range day Hv) as Hw.
  assert (1000 <= year day <= 9999) as Hy4 by lia.
  destruct (date_of_fields_week day (weekday - 1) Hv ltac:(lia) ltac:(lia)
              ltac:(lia)) as (d & Hd & Hvd & Hod).
  exists d. split; [| split; [done | lia]].
  unfold week_day, strptime_w. rewrite pattern_w_week.
  cbn [mbind result_bind]. rewrite strftime_full_W_Y by done.
  change (py "-") with [45%N].
  assert (weekday = 1 \/ weekday = 2 \/ weekday = 3 \/ weekday = 4
          \/ weekday = 5 \/ weekday = 6) as Hcases by lia.
  pose proof (int_of_str_two_digits (week_number day) ltac:(lia)) as HW.
  pose proof (int_of_str_four_digits (year day) Hy4) as HY.
  destruct Hcases as [-> | [-> | [-> | [-> | [-> | ->]]]]];
    (match goal with
     | |- context [str_of_int ?k] =>
         let v := eval vm_compute in (str_of_int k) in
         change (str_of_int k) with v
     end;
     rewrite re_match_week by done;
     cbn [read_groups_w];
     match goal with
     | |- context [read_group_w ?f ("w"%string, ?t)] =>
         change (read_group_w f ("w"%string, t))
           with (wd ← int_of_str t;
                 Ok (Found None 1 1 None
                       (Some (if wd =? 0 then 6 else wd - 1))));
         replace (int_of_str t) with (Ok (Z.of_N (hd 0%N t) - 48))
           by (vm_compute; reflexivity)
     end;
     cbn [mbind result_bind hd];
     match goal with
     | |- context [read_group_w ?f ("W"%string, ?t)] =>
         change (read_group_w f ("W"%string, t))
           with (n ← int_of_str t;
                 Ok (Found (got_year f) (got_month f) (got_day f) (Some n)
                       (got_weekday f)))
     end;
     rewrite HW; cbn [mbind result_bind];
     match goal with
     | |- context [read_group_w ?f ("Y"%string, ?t)] =>
         change (read_group_w f ("Y"%string, t))
           with (n ← int_of_str t;
                 Ok (Found (Some n) (got_month f) (got_day f)
                       (f_week_ogot_year f) (got_weekday f)))
     end;
     rewrite HY; cbn [mbind result_bind got_year got_month got_day
                      f_week_ogot_year got_weekday];
     exact Hd).
Qed.

(** X22: the week view is the day view of the Monday, the Tuesday, the
    Wednesday, the Thursday and the Friday of the Monday to Sunday week
    of the day asked for, in this order, pretty and JSON alike; the year
    of the day has four digits. *)
Theorem display_week_menu_days (entries : gmap (list N) menu_entry)
  (day : date) (meal : pystr) :
  valid day = true -> 1000 <= year day ->
  monday_of day + 5 <= MAXORDINAL ->
  exists days,
    Forall2 (fun k d => valid d = true /\ toordinal d = monday_of day + k)
      [1; 2; 3; 4; 5] days
    /\ (forall w,
          display_week_menu entries day meal w
          = for_each days (fun d => display_day_menu entries d meal) w)
    /\ week_menu_object entries day meal
       = list_of (fun d => day_menu_object entries d meal) days.
Proof.
  intros Hv Hy Hmax.
  destruct (week_day_ordinal day 1 Hv Hy ltac:(lia) ltac:(lia))
    as (d1 & H1 & Hv1 & Ho1).
  destruct (week_day_ordinal day 2 Hv Hy ltac:(lia) ltac:(lia))
    as (d2 & H2 & Hv2 & Ho2).
  destruct (week_day_ordinal day 3 Hv Hy ltac:(lia) ltac:(lia))
    as (d3 & H3 & Hv3 & Ho3).
  destruct (week_day_ordinal day 4 Hv Hy ltac:(lia) ltac:(lia))
    as (d4 & H4 & Hv4 & Ho4).
  destruct (week_day_ordinal day 5 Hv Hy ltac:(lia) ltac:(lia))
    as (d5 & H5 & Hv5 & Ho5).
  exists [d1; d2; d3; d4; d5]. split; [| split].
  - by repeat constructor.
  - intros w. unfold display_week_menu. cbn [for_each].
    rewrite H1, H2, H3, H4, H5. reflexivity.
  - unfold week_menu_object. cbn [list_of].
    rewrite H1, H2, H3, H4, H5. reflexivity.
Qed.

(** X23: the key an entry of the response is stored under is the key the
    presentation looks up for its day and its meal, when its date text,
    the backslashes removed, is the day written as [%d/%m/%Y]: the lunch
    key for the code [A], the dinner key for the code [J]. *)
Theorem entry_to_key_value_display_key (text day_text meal cal : pystr)
  (d : date) (kv : pystr * menu_entry) :
  entry_to_key_value [text; day_text; meal; cal] = Ok kv ->
  replace day_text [BACKSLASH] [] = strftime_full d (py "%d/%m/%Y") ->
  (meal = py "A" /\ kv.1 = lunch_key d)
  \/ (meal = py "J" /\ kv.1 = dinner_key d).
Proof.
  unfold entry_to_key_value. intros (v & Hv & [= <-])%bind_ok_inv Hdate.
  apply sanitise_entry_ok_inv in Hv as (_ & Hd & Hmeal & _).
  cbn [fst]. rewrite Hd, Hdate. unfold lunch_key, dinner_key.
  destruct Hmeal as [[-> ->] | [-> ->]]; [left | right]; by split.
Qed.

(* ===================================================================== *)
(** * The exit status *)
(* ===================================================================== *)





(* ===================================================================== *)
(** * The numeric forms of a date *)
(* ===================================================================== *)

Lemma matched_lit_length (ic : bool) (l t : pystr) g :
  matched ic (Lit l) t g -> length t = length l.
Proof.
  intros H. inversion H as [l' t' HF | | | | | |]; subst.
  by apply Forall2_length in HF.
Qed.

Lemma matched_class_length (ic : bool) (p : N -> bool) (t : pystr) g :
  matched ic (Class p) t g -> length t = 1%nat.
Proof. intros H. by inversion H. Qed.

Ltac invert_matched :=
  repeat match goal with
         | H : matched _ (Group _ _) _ _ |- _ => inversion H; subst; clear H
         | H : matched _ (Alt _ _) _ _ |- _ => inversion H; subst; clear H
         | H : matched _ (Seq _ _) _ _ |- _ => inversion H; subst; clear H
         | H : matched _ (Lit _) _ _ |- _ => apply matched_lit_length in H
         | H : matched _ (Class _) _ _ |- _ => apply matched_class_length in H
         end.

(** [%d] and [%m] match one character or two, [%y] two. *)
Lemma matched_d_length (ic : bool) (t : pystr) g :
  matched ic (regex_of 100) t g -> length t = 1%nat \/ length t = 2%nat.
Proof.
  unfold regex_of, directive_regex, digits. cbn. unfold id.
  intros H. invert_matched; rewrite ?length_app; cbn in *; lia.
Qed.

Lemma matched_m_length (ic : bool) (t : pystr) g :
  matched ic (regex_of 109) t g -> length t = 1%nat \/ length t = 2%nat.
Proof.
  unfold regex_of, directive_regex, digits. cbn. unfold id.
  intros H. invert_matched; rewrite ?length_app; cbn in *; lia.
Qed.

Lemma matched_y_length (ic : bool) (t : pystr) g :
  matched ic (regex_of 121) t g -> length t = 2%nat.
Proof.
  unfold regex_of, directive_regex. cbn. unfold id.
  intros H. invert_matched; rewrite ?length_app; cbn in *; lia.
Qed.

Lemma matched_lit_char (ic : bool) (p : N) (t : pystr) g :
  matched ic (Lit [p]) t g -> exists c, t = [c] /\ literal_match ic p c = true.
Proof.
  intros H. inversion H as [l' t' HF | | | | | |]; subst.
  inversion HF as [| a c l'' t'' Hac HF']; subst. inversion HF'; subst.
  eauto.
Qed.

Lemma literal_match_digit (p : N) (v : Z) :
  0 <= v <= 9 -> p = 47%N \/ (58 <= p < 128)%N ->
  literal_match true p (Z.to_N (48 + v)) = false.
Proof.
  intros Hv Hp.
  assert (ascii_lower_char (Z.to_N (48 + v)) = Z.to_N (48 + v)) as Hl.
  { unfold ascii_lower_char, is_ascii_upper.
    destruct (N.leb_spec 65 (Z.to_N (48 + v))); [lia | done]. }
  rewrite literal_match_fold.
  - rewrite Hl. apply N.eqb_neq. unfold ascii_lower_char.
    destruct (is_ascii_upper p); lia.
  - apply N.ltb_lt. lia.
  - rewrite Hl. apply N.ltb_lt. lia.
Qed.

Lemma refuses_group (ic : bool) (name : string) (r : regex) (p : pystr) :
  refuses ic r p -> refuses ic (Group name r) p.
Proof. intros H R t caps k. cbn [match_re]. apply H. Qed.

Lemma refuses_alt (ic : bool) (r1 r2 : regex) (p : pystr) :
  refuses ic r1 p -> refuses ic r2 p -> refuses ic (Alt r1 r2) p.
Proof.
  intros H1 H2 R t caps k. cbn [match_re]. by rewrite H1, H2.
Qed.

(** A text that starts with a digit is no name of a day. *)
Lemma refuses_names (v : Z) (s : pystr) :
  0 <= v <= 9 ->
  refuses true (regex_of 97) (Z.to_N (48 + v) :: s)
  /\ refuses true (regex_of 65) (Z.to_N (48 + v) :: s).
Proof.
  intros Hv. unfold regex_of, directive_regex, seqToRE. cbn. unfold id.
  split; apply refuses_group;
    repeat first
      [ apply refuses_alt
      | apply refuses_lit_head, literal_match_digit; [exact Hv | right; lia] ].
Qed.

Lemma strptime_no_match (data format : pystr) (rs : list regex) :
  pattern format false = Ok rs ->
  re_match true (sequence rs) data = None ->
  strptime data format = Raise (ValueError "time data does not match format").
Proof.
  intros Hp Hm. unfold strptime. rewrite Hp. cbn [mbind result_bind].
  by rewrite Hm.
Qed.

Lemma parse_with_format_none (today : date) (day format defaults : pystr)
  (msg : string) :
  strptime (day ++ py "|" ++ strftime today defaults)
    (format ++ py "|" ++ defaults) = Raise (ValueError msg) ->
  parse_with_format today day format defaults = Ok None.
Proof. unfold parse_with_format. by intros ->. Qed.

Lemma parse_names_refuse (today : date) (v : Z) (s : pystr) :
  0 <= v <= 9 ->
  parse_with_format today (Z.to_N (48 + v) :: s) (py "%a") (py "%W %Y")
  = Ok None
  /\ parse_with_format today (Z.to_N (48 + v) :: s) (py "%A") (py "%W %Y")
     = Ok None.
Proof.
  intros Hv. destruct (refuses_names v [] Hv) as [Ha HA].
  split; eapply parse_with_format_none, strptime_no_match;
    first [exact pattern_a | exact pattern_A | idtac].
  - exact (refuses_seq true _ _ _ Ha _ _ [] _).
  - exact (refuses_seq true _ _ _ HA _ _ [] _).
Qed.

Lemma pattern_day_month :
  pattern (py "%d/%m" ++ py "|" ++ py "%Y") false
  = Ok [regex_of 100; Lit [47%N]; regex_of 109; Lit [124%N]; regex_of 89].
Proof. reflexivity. Qed.

Lemma pattern_short_year :
  pattern (py "%d/%m/%y" ++ py "|" ++ py "") false
  = Ok [regex_of 100; Lit [47%N]; regex_of 109; Lit [47%N]; regex_of 121;
        Lit [124%N]].
Proof. reflexivity. Qed.

Lemma pattern_full_year :
  pattern (py "%d/%m/%Y" ++ py "|" ++ py "") false
  = Ok [regex_of 100; Lit [47%N]; regex_of 109; Lit [47%N]; regex_of 89;
        Lit [124%N]].
Proof. reflexivity. Qed.

Ltac both_ways :=
  match goal with
  | H1 : ?x = false, H2 : ?x = true |- _ => rewrite H1 in H2; discriminate H2
  | H : literal_match true 124 47 = true |- _ => discriminate H
  end.

Ltac one_or_two t H :=
  destruct t as [| ? [| ? [| ? ?]]]; cbn [length] in H; try lia; clear H.

(** Two digits, a slash, two digits and a slash do not match the format
    of a day and a month, which asks for a bar. *)
Lemma day_month_refuses (a1 a2 b1 b2 : N) (rest : pystr) :
  literal_match true 47 a2 = false ->
  literal_match true 124 b2 = false ->
  re_match true
    (sequence [regex_of 100; Lit [47%N]; regex_of 109; Lit [124%N];
               regex_of 89])
    (a1 :: a2 :: 47%N :: b1 :: b2 :: 47%N :: rest) = None.
Proof.
  intros Ha Hb.
  destruct (re_match true _ _) as [[caps rest0] |] eqn:E; [exfalso | done].
  apply re_match_sound in E as (t0 & Ht & Hm). cbn [sequence] in Hm.
  inversion Hm as [| | | r1 r2 td t1 g1 g2 Hd H1 | | |]; subst.
  inversion H1 as [| | | r1 r2 ts1 t2 g3 g4 Hs1 H2 | | |]; subst.
  inversion H2 as [| | | r1 r2 tm t3 g5 g6 Hmm H3 | | |]; subst.
  inversion H3 as [| | | r1 r2 ts2 t4 g7 g8 Hs2 H4 | | |]; subst.
  apply matched_d_length in Hd. apply matched_m_length in Hmm.
  apply matched_lit_char in Hs1 as (c1 & -> & Hc1).
  apply matched_lit_char in Hs2 as (c2 & -> & Hc2).
  one_or_two td Hd; one_or_two tm Hmm; cbn [app] in Ht;
    repeat (let E := fresh "E" in injection Ht as E Ht); subst; both_ways.
Qed.

(** With a year of four digits, the format of the short year stops at
    the third, which is no bar. *)
Lemma short_year_refuses (a1 a2 b1 b2 y1 y2 y3 : N) (rest : pystr) :
  literal_match true 47 a2 = false ->
  literal_match true 47 b2 = false ->
  literal_match true 124 y3 = false ->
  re_match true
    (sequence [regex_of 100; Lit [47%N]; regex_of 109; Lit [47%N];
               regex_of 121; Lit [124%N]])
    (a1 :: a2 :: 47%N :: b1 :: b2 :: 47%N :: y1 :: y2 :: y3 :: rest) = None.
Proof.
  intros Ha Hb Hy.
  destruct (re_match true _ _) as [[caps rest0] |] eqn:E; [exfalso | done].
  apply re_match_sound in E as (t0 & Ht & Hm). cbn [sequence] in Hm.
  inversion Hm as [| | | r1 r2 td t1 g1 g2 Hd H1 | | |]; subst.
  inversion H1 as [| | | r1 r2 ts1 t2 g3 g4 Hs1 H2 | | |]; subst.
  inversion H2 as [| | | r1 r2 tm t3 g5 g6 Hmm H3 | | |]; subst.
  inversion H3 as [| | | r1 r2 ts2 t4 g7 g8 Hs2 H4 | | |]; subst.
  inversion H4 as [| | | r1 r2 ty t5 g9 g10 Hyy H5 | | |]; subst.
  apply matched_d_length in Hd. apply matched_m_length in Hmm.
  apply matched_y_length in Hyy.
  apply matched_lit_char in Hs1 as (c1 & -> & Hc1).
  apply matched_lit_char in Hs2 as (c2 & -> & Hc2).
  apply matched_lit_char in H5 as (c3 & -> & Hc3).
  assert (literal_match true 124 47 = false) as Hbar by reflexivity.
  destruct ty as [| ? [| ? [| ? ?]]]; cbn [length] in Hyy; try lia.
  one_or_two td Hd; one_or_two tm Hmm; cbn [app] in Ht;
    repeat (let E := fresh "E" in injection Ht as E Ht); subst; both_ways.
Qed.

Ltac takes_pair :=
  apply (takes_seq true _ _ [_] [_] [] []);
  [ first [apply takes_lit; by repeat constructor | by apply takes_class]
  | by apply takes_class ].

Ltac refuses_pair :=
  apply refuses_seq;
  first [by apply refuses_lit_head | by apply refuses_class].

Ltac takes_first :=
  first
    [ takes_pair
    | apply takes_alt_l; takes_pair
    | apply takes_alt_r; [refuses_pair | takes_first] ].

(** [%d] takes the two digits of a day of the month. *)
Lemma takes_d (d : Z) :
  1 <= d <= 31 ->
  takes true (regex_of 100) (two_digits d) [("d"%string, two_digits d)].
Proof.
  intros Hd.
  assert (exists n, (n < 31)%nat /\ d = Z.of_nat (S n)) as (n & Hn & ->)
    by (exists (Z.to_nat (d - 1)); lia).
  clear Hd.
  do 31 (destruct n as [| n];
    [ match goal with
      | |- takes _ _ ?p _ =>
          let v := eval vm_compute in p in change p with v
      end;
      apply (takes_group true "d" _ _ []); unfold digits; takes_first
    |]).
  lia.
Qed.

(** [%m] takes the two digits of a month. *)
Lemma takes_m (m : Z) :
  1 <= m <= 12 ->
  takes true (regex_of 109) (two_digits m) [("m"%string, two_digits m)].
Proof.
  intros Hm.
  assert (exists n, (n < 12)%nat /\ m = Z.of_nat (S n)) as (n & Hn & ->)
    by (exists (Z.to_nat (m - 1)); lia).
  clear Hm.
  do 12 (destruct n as [| n];
    [ match goal with
      | |- takes _ _ ?p _ =>
          let v := eval vm_compute in p in change p with v
      end;
      apply (takes_group true "m" _ _ []); unfold digits; takes_first
    |]).
  lia.
Qed.

(** [%y] takes two digits. *)
Lemma takes_y (y : Z) :
  0 <= y <= 99 ->
  takes true (regex_of 121) (two_digits y) [("y"%string, two_digits y)].
Proof.
  intros Hy.
  assert (0 <= y / 10 <= 9 /\ 0 <= y mod 10 <= 9) as [H1 H2] by euclid.
  apply isdecimal_digit in H1 as [H1 _], H2 as [H2 _].
  apply (takes_group true "y" _ _ []).
  apply (takes_seq true _ _ [_] [_] [] []); by apply takes_class.
Qed.

Lemma strptime_fields (data format : pystr) (rs : list regex)
  (groups : list (string * pystr)) (y m d : Z) :
  pattern format false = Ok rs ->
  re_match true (sequence rs) data = Some (groups, []) ->
  read_groups (Found None 1 1 None None) groups
  = Ok (Found (Some y) m d None None) ->
  valid (Date y m d) = true ->
  strptime data format = Ok (Date y m d).
Proof.
  intros Hp Hm Hg Hv. unfold strptime. rewrite Hp. cbn [mbind result_bind].
  rewrite Hm, Hg.
  cbn [mbind result_bind got_year got_month got_day f_week_ogot_year
       got_weekday].
  pose proof (new_of_valid (Date y m d) Hv) as Hn.
  cbn [year month day] in Hn. rewrite Hn. cbn [mbind result_bind].
  exact Hn.
Qed.

Lemma read_groups_day_month_year (ykey : string) (d m y v : Z) (ty : pystr) :
  (ykey = "Y"%string /\ y = v) \/
  (ykey = "y"%string /\ y = if v <=? 68 then v + 2000 else v + 1900) ->
  0 <= d < 100 -> 0 <= m < 100 -> int_of_str ty = Ok v ->
  read_groups (Found None 1 1 None None)
    [("d"%string, two_digits d); ("m"%string, two_digits m); (ykey, ty)]
  = Ok (Found (Some y) m d None None).
Proof.
  intros Hkey Hd Hm Hy.
  pose proof (int_of_str_two_digits d Hd) as HD.
  pose proof (int_of_str_two_digits m Hm) as HM.
  cbn [read_groups].
  change (read_group (Found None 1 1 None None) ("d"%string, two_digits d))
    with (n ← int_of_str (two_digits d); Ok (Found None 1 n None None)).
  rewrite HD. cbn [mbind result_bind].
  change (read_group ?f ("m"%string, two_digits m))
    with (n ← int_of_str (two_digits m); Ok (Found None n d None None)).
  rewrite HM. cbn [mbind result_bind].
  destruct Hkey as [[-> ->] | [-> ->]].
  - change (read_group ?f ("Y"%string, ty))
      with (n ← int_of_str ty; Ok (Found (Some n) m d None None)).
    by rewrite Hy.
  - change (read_group ?f ("y"%string, ty))
      with (n ← int_of_str ty;
            let n := if n <=? 68 then n + 2000 else n + 1900 in
            Ok (Found (Some n) m d None None)).
    by rewrite Hy.
Qed.

Lemma takes_char (c : N) : (c <? 128)%N = true -> takes true (Lit [c]) [c] [].
Proof.
  intros Hc. apply takes_lit. repeat constructor.
  unfold literal_match. rewrite Hc. cbn [andb]. apply N.eqb_refl.
Qed.

(** A day, a month and a year of four digits, each after a slash. *)
Lemma strptime_full_year (d m y : Z) :
  valid (Date y m d) = true -> 1000 <= y ->
  strptime
    (two_digits d ++ [47%N] ++ two_digits m ++ [47%N] ++ four_digits y
     ++ [124%N])
    (py "%d/%m/%Y" ++ py "|" ++ py "")
  = Ok (Date y m d).
Proof.
  intros Hv Hy.
  pose proof (valid_fields _ Hv) as (Hy' & Hm & Hd). cbn [year month day] in *.
  assert (d <= 31) as Hd31.
  { unfold days_in_month in Hd.
    destruct ((m =? 2) && is_leap y); [lia |].
    assert (DAYS_IN_MONTH m <= 31); [| lia].
    assert (m = 1 \/ m = 2 \/ m = 3 \/ m = 4 \/ m = 5 \/ m = 6 \/ m = 7
            \/ m = 8 \/ m = 9 \/ m = 10 \/ m = 11 \/ m = 12) as Hc by lia.
    repeat destruct Hc as [-> | Hc]; try subst m; cbn; lia. }
  apply (strptime_fields _ _ _
           [("d"%string, two_digits d); ("m"%string, two_digits m);
            ("Y"%string, four_digits y)] y m d pattern_full_year);
    [| apply (read_groups_day_month_year "Y" d m y y);
       [by left | lia | lia | apply int_of_str_four_digits; lia]
     | done].
  unfold re_match. cbn [sequence].
  pose proof (takes_seq true _ _ _ _ _ _ (takes_d d ltac:(lia))
                (takes_seq true _ _ _ _ _ _ (takes_char 47 eq_refl)
                   (takes_seq true _ _ _ _ _ _ (takes_m m ltac:(lia))
                      (takes_seq true _ _ _ _ _ _ (takes_char 47 eq_refl)
                         (takes_seq true _ _ _ _ _ _
                            (takes_Y y ltac:(lia))
                            (takes_char 124 eq_refl)))))) as H.
  specialize (H _ [] [] (fun s' caps => Some (caps, s')) _ eq_refl).
  rewrite app_nil_r in H. exact H.
Qed.

Lemma valid_day_month (y m d : Z) :
  valid (Date y m d) = true -> 1 <= y <= 9999 /\ 1 <= m <= 12 /\ 1 <= d <= 31.
Proof.
  intros Hv.
  pose proof (valid_fields _ Hv) as (Hy & Hm & Hd). cbn [year month day] in *.
  split; [done |]. split; [done |]. split; [lia |].
  unfold days_in_month in Hd.
  destruct ((m =? 2) && is_leap y); [lia |].
  assert (DAYS_IN_MONTH m <= 31); [| lia].
  assert (m = 1 \/ m = 2 \/ m = 3 \/ m = 4 \/ m = 5 \/ m = 6 \/ m = 7
          \/ m = 8 \/ m = 9 \/ m = 10 \/ m = 11 \/ m = 12) as Hc by lia.
  repeat destruct Hc as [-> | Hc]; try subst m; cbn; lia.
Qed.

(** A day and a month with the year of the day of the call. *)
Lemma strptime_day_month (d m y : Z) :
  valid (Date y m d) = true -> 1000 <= y ->
  strptime
    (two_digits d ++ [47%N] ++ two_digits m ++ [124%N] ++ four_digits y)
    (py "%d/%m" ++ py "|" ++ py "%Y")
  = Ok (Date y m d).
Proof.
  intros Hv Hy.
  destruct (valid_day_month _ _ _ Hv) as (Hy' & Hm & Hd).
  apply (strptime_fields _ _ _
           [("d"%string, two_digits d); ("m"%string, two_digits m);
            ("Y"%string, four_digits y)] y m d pattern_day_month);
    [| apply (read_groups_day_month_year "Y" d m y y);
       [by left | lia | lia | apply int_of_str_four_digits; lia]
     | done].
  unfold re_match. cbn [sequence].
  pose proof (takes_seq true _ _ _ _ _ _ (takes_d d ltac:(lia))
                (takes_seq true _ _ _ _ _ _ (takes_char 47 eq_refl)
                   (takes_seq true _ _ _ _ _ _ (takes_m m ltac:(lia))
                      (takes_seq true _ _ _ _ _ _ (takes_char 124 eq_refl)
                         (takes_Y y ltac:(lia)))))) as H.
  specialize (H _ [] [] (fun s' caps => Some (caps, s')) _ eq_refl).
  rewrite app_nil_r in H. exact H.
Qed.

(** A day, a month and a year of two digits: from 69 on the year is of
    the 1900s, up to 68 of the 2000s. *)
Lemma strptime_short_year (d m yy : Z) :
  0 <= yy <= 99 ->
  valid (Date (if yy <=? 68 then yy + 2000 else yy + 1900) m d) = true ->
  strptime
    (two_digits d ++ [47%N] ++ two_digits m ++ [47%N] ++ two_digits yy
     ++ [124%N])
    (py "%d/%m/%y" ++ py "|" ++ py "")
  = Ok (Date (if yy <=? 68 then yy + 2000 else yy + 1900) m d).
Proof.
  intros Hyy Hv.
  destruct (valid_day_month _ _ _ Hv) as (Hy' & Hm & Hd).
  apply (strptime_fields _ _ _
           [("d"%string, two_digits d); ("m"%string, two_digits m);
            ("y"%string, two_digits yy)] _ m d pattern_short_year);
    [| apply (read_groups_day_month_year "y" d m _ yy);
       [by right | lia | lia | apply int_of_str_two_digits; lia]
     | done].
  unfold re_match. cbn [sequence].
  pose proof (takes_seq true _ _ _ _ _ _ (takes_d d ltac:(lia))
                (takes_seq true _ _ _ _ _ _ (takes_char 47 eq_refl)
                   (takes_seq true _ _ _ _ _ _ (takes_m m ltac:(lia))
                      (takes_seq true _ _ _ _ _ _ (takes_char 47 eq_refl)
                         (takes_seq true _ _ _ _ _ _
                            (takes_y yy Hyy)
                            (takes_char 124 eq_refl)))))) as H.
  specialize (H _ [] [] (fun s' caps => Some (caps, s')) _ eq_refl).
  rewrite app_nil_r in H. exact H.
Qed.

(** An input that starts with a digit is none of the words, and no name
    of a day: it goes to the numeric formats. *)
Lemma get_date_digit (v : Z) (s : pystr) (w : world) :
  0 <= v <= 9 ->
  get_date (Z.to_N (48 + v) :: s) w
  = match
      (p ← parse_with_format (today w) (Z.to_N (48 + v) :: s)
             (py "%d/%m") (py "%Y");
       match p with
       | Some d => Ok (Some d)
       | None =>
           p ← parse_with_format (today w) (Z.to_N (48 + v) :: s)
                 (py "%d/%m/%y") (py "");
           match p with
           | Some d => Ok (Some d)
           | None =>
               p ← parse_with_format (today w) (Z.to_N (48 + v) :: s)
                     (py "%d/%m/%Y") (py "");
               match p with
               | Some d => Ok (Some d)
               | None => Ok None
               end
           end
       end)
    with
    | Ok (Some parsed) => (Ok parsed, w)
    | Ok None =>
        ((_ ← print invalid_date_message;
          lift (Raise (ValueError "Unable to parse input date"))) : io date) w
    | Raise e => (Raise e, w)
    end.
Proof.
  intros Hv. unfold get_date.
  assert (forall kw : pystr,
            (97 <= hd 0%N kw)%N ->
            str_eqb (Z.to_N (48 + v) :: s) kw = false) as Hkw.
  { intros kw Hk. unfold str_eqb. apply bool_decide_eq_false.
    intros <-. cbn [hd] in Hk. lia. }
  rewrite !Hkw by (cbn; lia).
  unfold formats. cbn [first_parsed].
  destruct (parse_names_refuse (today w) v s Hv) as [-> ->].
  reflexivity.
Qed.

Lemma strftime_full_dmY (d : date) :
  valid d = true -> 1000 <= year d ->
  strftime_full d (py "%d/%m/%Y")
  = two_digits (day d) ++ [47%N] ++ two_digits (month d) ++ [47%N]
    ++ four_digits (year d).
Proof.
  intros Hv Hy. destruct d as [y m dd].
  destruct (valid_day_month _ _ _ Hv) as (Hy' & Hm & Hd).
  cbn [year month day] in *.
  replace (py "%d/%m/%Y")
    with [37%N; 100%N; 47%N; 37%N; 109%N; 47%N; 37%N; 89%N]
    by (vm_compute; reflexivity).
  cbn [strftime_full N.eqb Pos.eqb year month day].
  rewrite !format_02_two_digits, str_of_int_year by lia.
  by rewrite app_nil_r.
Qed.

Lemma strftime_Y (d : date) :
  valid d = true -> 1000 <= year d ->
  strftime d (py "%Y") = four_digits (year d).
Proof.
  intros Hv Hy. pose proof (valid_fields d Hv) as (Hy' & _).
  replace (py "%Y") with [37%N; 89%N] by (vm_compute; reflexivity).
  cbn [strftime N.eqb Pos.eqb]. rewrite str_of_int_year by lia.
  by rewrite app_nil_r.
Qed.

Ltac refuse_format pat lem :=
  eapply parse_with_format_none, strptime_no_match; [exact pat |];
  unfold two_digits, four_digits; cbn [app];
  apply lem; apply literal_match_digit; first [euclid | by left | right; lia].

(** X25: the date the day view prints in its heading, [%d/%m/%Y], is read
    back by [get_date] as the day it was printed for, on whatever day it
    is asked. *)
Theorem get_date_full_form (d : date) (w : world) :
  valid d = true -> 1000 <= year d ->
  get_date (strftime_full d (py "%d/%m/%Y")) w = (Ok d, w).
Proof.
  intros Hv Hy. rewrite strftime_full_dmY by done.
  destruct d as [y m dd]. cbn [year month day] in *.
  destruct (valid_day_month _ _ _ Hv) as (Hy' & Hm & Hd).
  unfold two_digits at 1. cbn [app].
  rewrite get_date_digit by euclid.
  match goal with
  | |- context [parse_with_format ?t ?s (py "%d/%m") (py "%Y")] =>
      assert (parse_with_format t s (py "%d/%m") (py "%Y") = Ok None) as ->
        by refuse_format pattern_day_month day_month_refuses;
      assert (parse_with_format t s (py "%d/%m/%y") (py "") = Ok None) as ->
        by refuse_format pattern_short_year short_year_refuses;
      assert (parse_with_format t s (py "%d/%m/%Y") (py "")
              = Ok (Some (Date y m dd))) as ->
  end.
  { unfold parse_with_format.
    match goal with
    | |- context [strptime ?data _] =>
        change data
          with (two_digits dd ++ [47%N] ++ two_digits m ++ [47%N]
                ++ four_digits y ++ [124%N])
    end.
    by rewrite strptime_full_year. }
  reflexivity.
Qed.

(** X26: a day and a month, two digits each, are resolved to that day of
    the year of the call. *)
Theorem get_date_day_month_form (d m : Z) (w : world) :
  valid (today w) = true -> 1000 <= year (today w) ->
  valid (Date (year (today w)) m d) = true ->
  get_date (two_digits d ++ [47%N] ++ two_digits m) w
  = (Ok (Date (year (today w)) m d), w).
Proof.
  intros Hvt Hy Hv.
  destruct (valid_day_month _ _ _ Hv) as (Hy' & Hm & Hd).
  unfold two_digits at 1. cbn [app].
  rewrite get_date_digit by euclid.
  match goal with
  | |- context [parse_with_format ?t ?s (py "%d/%m") (py "%Y")] =>
      assert (parse_with_format t s (py "%d/%m") (py "%Y")
              = Ok (Some (Date (year (today w)) m d))) as ->
  end.
  { unfold parse_with_format. rewrite strftime_Y by done.
    match goal with
    | |- context [strptime ?data _] =>
        change data
          with (two_digits d ++ [47%N] ++ two_digits m ++ [124%N]
                ++ four_digits (year (today w)))
    end.
    by rewrite strptime_day_month. }
  reflexivity.
Qed.

(** X27: a day, a month and a year of two digits are resolved to that
    day of the year 2000 + yy up to 68 and 1900 + yy from 69 on, on
    whatever day it is asked. *)
Theorem get_date_short_year_form (d m yy : Z) (w : world) :
  0 <= yy <= 99 ->
  valid (Date (if yy <=? 68 then yy + 2000 else yy + 1900) m d) = true ->
  get_date (two_digits d ++ [47%N] ++ two_digits m ++ [47%N]
            ++ two_digits yy) w
  = (Ok (Date (if yy <=? 68 then yy + 2000 else yy + 1900) m d), w).
Proof.
  intros Hyy Hv.
  destruct (valid_day_month _ _ _ Hv) as (Hy' & Hm & Hd).
  unfold two_digits at 1. cbn [app].
  rewrite get_date_digit by euclid.
  match goal with
  | |- context [parse_with_format ?t ?s (py "%d/%m") (py "%Y")] =>
      assert (parse_with_format t s (py "%d/%m") (py "%Y") = Ok None) as ->
        by refuse_format pattern_day_month day_month_refuses;
      assert (parse_with_format t s (py "%d/%m/%y") (py "")
              = Ok (Some (Date (if yy <=? 68 then yy + 2000 else yy + 1900)
                            m d))) as ->
  end.
  { unfold parse_with_format.
    match goal with
    | |- context [strptime ?data _] =>
        change data
          with (two_digits d ++ [47%N] ++ two_digits m ++ [47%N]
                ++ two_digits yy ++ [124%N])
    end.
    by rewrite strptime_short_year. }
  reflexivity.
Qed.

(* ===================================================================== *)
(** * From the arguments to the output *)
(* ===================================================================== *)






Lemma get_week_of_same_week (d1 d2 : date) :
  valid d1 = true -> valid d2 = true -> same_monday_week d1 d2 ->
  get_week d1 = get_week d2.
Proof.
  intros Hv1 Hv2 Hsame.
  destruct (get_week_monday d1 Hv1) as (y1 & w1 & E1 & Hy1 & Hw1 & Hb1 & ->).
  destruct (get_week_monday d2 Hv2) as (y2 & w2 & E2 & Hy2 & Hw2 & Hb2 & ->).
  rewrite E1, E2.
  assert (monday_of d1 = monday_of d2) as HM
    by (unfold same_monday_week in Hsame; unfold monday_of; lia).
  rewrite HM in *.
  by rewrite (year_of_day_unique y1 y2 (monday_of d2)).
Qed.

(** X30: a day asked for by the name of a day of the week has the cache
    key of the day of the call, for every restaurant, and is of the
    current week: the names of the days are served from one cache file,
    and a miss for them goes to the fetch. *)
Theorem get_date_weekday_cache_key (w : world) (name s : pystr) (i : nat)
  (restaurant : Z) :
  valid (today w) = true -> 1000 <= year (today w) ->
  a_weekday !! i = Some name \/ f_weekday !! i = Some name ->
  map ascii_lower_char s = name ->
  monday_of (today w) + 1 + Z.of_nat i <= MAXORDINAL ->
  exists d,
    get_date s w = (Ok d, w)
    /\ cache_key d restaurant = cache_key (today w) restaurant
    /\ is_current_week d w = (Ok true, w).
Proof.
  intros Hv Hy Hname Hs Hmax.
  assert ((i < 7)%nat) as Hi.
  { destruct Hname as [H | H]; apply lookup_lt_Some in H; exact H. }
  destruct (get_date_weekday_ordinal w name s i Hv Hy Hname Hs Hmax)
    as (d & Hd & Hvd & Hod).
  assert (same_monday_week d (today w)) as Hsame.
  { unfold same_monday_week. rewrite Hod. unfold monday_of. euclid. }
  pose proof (get_week_of_same_week d (today w) Hvd Hv Hsame) as Hweek.
  exists d. split; [done |]. split.
  - unfold cache_key. by rewrite Hweek.
  - unfold is_current_week. rewrite Hweek.
    destruct (get_week_total _ Hv) as [b ->]. cbn.
    unfold str_eqb. by rewrite bool_decide_eq_true_2.
Qed.

End Bandeco.

(* ===================================================================== *)
(** * Runs of the program *)
(* ===================================================================== *)

Example get_restaurant_code_each :
  get_restaurant_code ascii_db exact (py "each") = Ok 13.
Proof. vm_compute. reflexivity. Qed.

Example get_restaurant_code_empty :
  get_restaurant_code ascii_db exact (py "") = Ok 1.
Proof. vm_compute. reflexivity. Qed.


Lemma main_stale_request_witness :
  (main ascii_db exact no_display no_display ask_october quiet_world).1 = Ok 1
  /\ trace (main ascii_db exact no_display no_display ask_october quiet_world).2
     = Print (py "Unable to fetch menu for the requested date.")
       :: trace quiet_world
  /\ cache_files (main ascii_db exact no_display no_display ask_october quiet_world).2
     = cache_files quiet_world.
Proof.
  apply (main_stale_request ascii_db exact no_display no_display ask_october
           quiet_world false 13 (Date 2026 10 1) (py "a") false
           (py "2026w39r13"));
    vm_compute; reflexivity.
Defined.

Lemma main_remote_fetch_empty_witness :
  (main ascii_db exact no_display no_display ask_today quiet_world).1 = Ok 1
  /\ trace (main ascii_db exact no_display no_display ask_today quiet_world).2
     = [ Print (py "Failed to fetch menu for the requested restaurant.");
         HttpPost request_url (request_data 13) ] ++ trace quiet_world
  /\ cache_files (main ascii_db exact no_display no_display ask_today quiet_world).2
     = cache_files quiet_world.
Proof.
  apply (main_remote_fetch_empty ascii_db exact no_display no_display ask_today
           quiet_world false 13 (Date 2026 11 3) (py "a") false
           (py "2026w44r13"));
    vm_compute; reflexivity.
Defined.


(** C2, as stated, fails: the response holds a record that is sanitised
    and a record with the meal code [X]; the fetch does not return the one
    entry, it raises. *)
Lemma fetch_entries_http_raises :
  findall ascii_db (regex_entries ascii_db) odd_response
  = [ [py "Arroz"; py "03/11/2026"; py "A"; py "850"];
      [py "Sopa"; py "03/11/2026"; py "X"; py "400"] ]
  /\ is_ok (sanitise_entry ascii_db
              [py "Arroz"; py "03/11/2026"; py "A"; py "850"]) = true
  /\ (fetch_entries_http ascii_db 13 odd_world).1 = Raise (KeyError (py "X")).
Proof. vm_compute. repeat split; reflexivity. Qed.

Lemma fetch_entries_http_all_or_nothing_witness :
  (Forall (fun r => is_ok (sanitise_entry ascii_db r) = true)
     (findall ascii_db (regex_entries ascii_db) odd_response) ->
   exists d,
     (fetch_entries_http ascii_db 13 odd_world).1 = Ok d
     /\ forall r v,
          r ∈ findall ascii_db (regex_entries ascii_db) odd_response ->
          sanitise_entry ascii_db r = Ok v ->
          is_Some (d !! (s_date v ++ py "-" ++ s_meal v)))
  /\ (forall r e,
        r ∈ findall ascii_db (regex_entries ascii_db) odd_response ->
        sanitise_entry ascii_db r = Raise e ->
        exists e', (fetch_entries_http ascii_db 13 odd_world).1 = Raise e').
Proof.
  apply (fetch_entries_http_all_or_nothing ascii_db 13 odd_world odd_response).
  reflexivity.
Defined.


Lemma is_current_week_today_witness :
  valid (today quiet_world) = true
  /\ is_current_week (today quiet_world) quiet_world = (Ok true, quiet_world).
Proof.
  split; [reflexivity |].
  apply (is_current_week_today quiet_world). reflexivity.
Defined.

Lemma cache_key_injective_witness :
  cache_key (Date 2026 11 3) 13 = cache_key (Date 2026 11 8) 13
  /\ get_week (Date 2026 11 3) = get_week (Date 2026 11 8).
Proof.
  split; [reflexivity |].
  apply (cache_key_injective (Date 2026 11 3) (Date 2026 11 8) 13 13);
    first [reflexivity | lia].
Defined.

Lemma dict_of_last_wins_witness :
  dict_of (entry_to_key_value ascii_db)
    ([[py "Arroz"; py "03/11/2026"; py "A"; py "850"]]
     ++ [[py "Sopa"; py "03/11/2026"; py "A"; py "400"]]) ∅
  = Ok (<[py "03/11/2026-lunch" := MenuEntry (py "Sopa") 400]> ∅)
  /\ (<[py "03/11/2026-lunch" := MenuEntry (py "Sopa") 400]> ∅
      : gmap (list N) menu_entry) !! py "03/11/2026-lunch"
     = Some (MenuEntry (py "Sopa") 400).
Proof.
  split; [vm_compute; reflexivity |].
  apply (dict_of_last_wins (entry_to_key_value ascii_db)
           [[py "Arroz"; py "03/11/2026"; py "A"; py "850"]]
           [py "Sopa"; py "03/11/2026"; py "A"; py "400"] ∅
           (<[py "03/11/2026-lunch" := MenuEntry (py "Sopa") 400]> ∅)
           (py "03/11/2026-lunch", MenuEntry (py "Sopa") 400));
    vm_compute; reflexivity.
Defined.

Lemma store_then_fetch_witness :
  (store_entries_cache (py "2026w44r13")
     (<[py "03/11/2026-lunch" := MenuEntry (py "Arroz") 850]> ∅)
     quiet_world).1 = Ok tt
  /\ (fetch_entries_cached (py "2026w44r13")
        (store_entries_cache (py "2026w44r13")
           (<[py "03/11/2026-lunch" := MenuEntry (py "Arroz") 850]> ∅)
           quiet_world).2).1
     = Ok (PyEntries (<[py "03/11/2026-lunch" := MenuEntry (py "Arroz") 850]> ∅)).
Proof.
  split; [vm_compute; reflexivity |].
  apply (store_then_fetch (py "2026w44r13")
           (<[py "03/11/2026-lunch" := MenuEntry (py "Arroz") 850]> ∅)
           quiet_world); [vm_compute; reflexivity |].
  intros f Hf. vm_compute in Hf. discriminate.
Defined.

Lemma get_date_keywords_witness :
  valid (today quiet_world) = true
  /\ get_date ascii_db (py "today") quiet_world
     = (Ok (today quiet_world), quiet_world).
Proof.
  split; [reflexivity |].
  apply (get_date_keywords ascii_db quiet_world). reflexivity.
Defined.

Lemma db_wf_ascii : db_wf ascii_db.
Proof. intros c v H. discriminate H. Qed.

Lemma findall_regex_entries_shape_witness :
  [py "Sopa"; py "03/11/2026"; py "X"; py "400"]
    ∈ findall ascii_db (regex_entries ascii_db) odd_response
  /\ exists menu date meal calories,
       [py "Sopa"; py "03/11/2026"; py "X"; py "400"]
       = [menu; date; [meal]; calories]
       /\ menu <> [] /\ (NEWLINE ∉ menu) /\ date <> [] /\ (NEWLINE ∉ date)
       /\ isword ascii_db meal = true
       /\ calories <> []
       /\ Forall (fun c => isdecimal ascii_db c = true) calories.
Proof.
  assert ([py "Sopa"; py "03/11/2026"; py "X"; py "400"]
            ∈ findall ascii_db (regex_entries ascii_db) odd_response) as H.
  { apply (list_elem_of_lookup_2 _ 1%nat). vm_compute. reflexivity. }
  split; [exact H |].
  exact (findall_regex_entries_shape ascii_db odd_response _ H).
Defined.

Lemma fetch_entries_http_entries_witness :
  db_wf ascii_db
  /\ (fetch_entries_http ascii_db 13 sample_world).1 = Ok sample_entries
  /\ forall (key : list N) (v : menu_entry),
       sample_entries !! key = Some v ->
       (exists date,
          (key = date ++ py "-lunch" \/ key = date ++ py "-dinner")
          /\ (BACKSLASH ∉ date))
       /\ (BACKSLASH ∉ menu v) /\ 0 <= calories v.
Proof.
  split; [exact db_wf_ascii |]. split; [vm_compute; reflexivity |].
  apply (fetch_entries_http_entries ascii_db 13 sample_world sample_entries);
    [exact db_wf_ascii | vm_compute; reflexivity].
Defined.

Lemma fetch_entries_http_errors_witness :
  db_wf ascii_db
  /\ (fetch_entries_http ascii_db 13 odd_world).1 = Raise (KeyError (py "X"))
  /\ (remote odd_world request_url (request_data 13)
        = Raise (KeyError (py "X"))
      \/ (exists meal, KeyError (py "X") = KeyError [meal]
                       /\ isword ascii_db meal = true
                       /\ [meal] <> py "A" /\ [meal] <> py "J")
      \/ (exists msg, KeyError (py "X") = UnicodeEncodeError msg)
      \/ (exists msg, KeyError (py "X") = UnicodeDecodeError msg)
      \/ KeyError (py "X")
         = ValueError "Exceeds the limit (4300 digits) for integer string conversion").
Proof.
  split; [exact db_wf_ascii |]. split; [vm_compute; reflexivity |].
  apply (fetch_entries_http_errors ascii_db 13 odd_world (KeyError (py "X")));
    [exact db_wf_ascii | vm_compute; reflexivity].
Defined.

Lemma only_prints_no_display (o : pyobj) (opts : Z * date * list N * bool) :
  only_prints (no_display o opts).
Proof. intros w. exists []. by repeat split. Qed.

Lemma sample_entries_not_empty : sample_entries <> ∅.
Proof. apply insert_non_empty. Qed.



Lemma main_store_failure_witness :
  (exists msg,
     (main ascii_db exact no_display no_display ask_today readonly_world).1
     = Raise (OSError msg))
  /\ trace (main ascii_db exact no_display no_display ask_today readonly_world).2
     = HttpPost request_url (request_data 13) :: trace readonly_world
  /\ cache_files (main ascii_db exact no_display no_display ask_today readonly_world).2
     = cache_files readonly_world.
Proof.
  apply (main_store_failure ascii_db exact no_display no_display ask_today
           readonly_world false 13 (Date 2026 11 3) (py "a") false
           (py "2026w44r13") sample_entries);
    [vm_compute; reflexivity | vm_compute; reflexivity
     | vm_compute; reflexivity | vm_compute; reflexivity
     | vm_compute; reflexivity | exact sample_entries_not_empty
     | reflexivity].
Defined.

Lemma main_second_run_witness :
  (exists lines,
     trace (main ascii_db exact no_display no_display ask_today
              (main ascii_db exact no_display no_display ask_today
                 sample_world).2).2
     = map Print lines
       ++ trace (main ascii_db exact no_display no_display ask_today
                   sample_world).2)
  /\ cache_files (main ascii_db exact no_display no_display ask_today
                    (main ascii_db exact no_display no_display ask_today
                       sample_world).2).2
     = cache_files (main ascii_db exact no_display no_display ask_today
                      sample_world).2
  /\ (forall n,
        (main ascii_db exact no_display no_display ask_today
           (main ascii_db exact no_display no_display ask_today
              sample_world).2).1 = Ok n -> n = 0).
Proof.
  apply (main_second_run ascii_db exact no_display no_display ask_today
           sample_world).
  - intros [] o opts; apply only_prints_no_display.
  - intros key f Hf. discriminate Hf.
  - vm_compute. reflexivity.
Defined.

Lemma get_date_valid_witness :
  valid (today quiet_world) = true
  /\ (get_date ascii_db (py "fri") quiet_world).1 = Ok (Date 2026 11 6)
  /\ valid (Date 2026 11 6) = true.
Proof.
  split; [reflexivity |]. split; [vm_compute; reflexivity |].
  apply (get_date_valid ascii_db (py "fri") quiet_world (Date 2026 11 6));
    [reflexivity | vm_compute; reflexivity].
Defined.

Lemma parse_args_result_witness :
  valid (Date 2026 10 1) = true
  /\ 1 <= 13 <= 24
  /\ py "a" = take 1 (ns_meal ask_october) /\ length (py "a") = 1%nat
  /\ false = ns_json ask_october /\ false = ns_week ask_october
  /\ (exists key, cache_key (Date 2026 10 1) 13 = Ok key)
  /\ (exists current,
        (is_current_week (Date 2026 10 1) quiet_world).1 = Ok current).
Proof.
  apply (parse_args_result ascii_db exact ask_october quiet_world false 13
           (Date 2026 10 1) (py "a") false);
    [reflexivity | vm_compute; reflexivity].
Defined.

Lemma is_current_week_same_week_witness :
  exists current,
    is_current_week (Date 2026 11 8) quiet_world = (Ok current, quiet_world)
    /\ (current = true <-> same_monday_week (Date 2026 11 8) (today quiet_world)).
Proof.
  apply (is_current_week_same_week (Date 2026 11 8) quiet_world); reflexivity.
Defined.

Lemma rounds_below_one_exact : rounds_below_one exact.
Proof.
  intros q one Hq Hone. unfold exact. rewrite Hone.
  eapply Qle_lt_trans; [exact Hq | reflexivity].
Qed.

Lemma get_restaurant_code_catalog_witness :
  rounds_below_one exact
  /\ restaurants !! 12%nat = Some (py "EACH SAO PAULO SP")
  /\ upper ascii_db (py "Each Sao Paulo sp") = py "EACH SAO PAULO SP"
  /\ get_restaurant_code ascii_db exact (py "Each Sao Paulo sp")
     = Ok (Z.of_nat 12 + 1).
Proof.
  split; [exact rounds_below_one_exact |]. split; [reflexivity |].
  split; [reflexivity |].
  apply (get_restaurant_code_catalog ascii_db exact 12
           (py "EACH SAO PAULO SP") (py "Each Sao Paulo sp"));
    [exact rounds_below_one_exact | reflexivity | reflexivity].
Defined.

Lemma get_date_weekday_witness :
  exists d,
    get_date ascii_db (py "FRIDAY") quiet_world = (Ok d, quiet_world)
    /\ valid d = true
    /\ same_monday_week d (today quiet_world)
    /\ weekday d = Z.of_nat 4.
Proof.
  apply (get_date_weekday ascii_db quiet_world (py "friday") (py "FRIDAY") 4);
    [reflexivity | vm_compute; discriminate | right; reflexivity
     | reflexivity | vm_compute; discriminate].
Defined.

Lemma display_week_menu_days_witness :
  exists days,
    Forall2 (fun k d => valid d = true
                        /\ toordinal d = monday_of (Date 2026 11 3) + k)
      [1; 2; 3; 4; 5] days
    /\ (forall w,
          display_week_menu ascii_db sample_entries (Date 2026 11 3) (py "a") w
          = for_each days
              (fun d => display_day_menu sample_entries d (py "a")) w)
    /\ week_menu_object ascii_db sample_entries (Date 2026 11 3) (py "a")
       = list_of (fun d => day_menu_object ascii_db sample_entries d (py "a"))
           days.
Proof.
  apply (display_week_menu_days ascii_db sample_entries (Date 2026 11 3)
           (py "a")); [reflexivity | vm_compute; discriminate
                       | vm_compute; discriminate].
Defined.

Lemma entry_to_key_value_display_key_witness :
  (py "A" = py "A"
   /\ (py "03/11/2026-lunch", MenuEntry (py "Arroz") 850).1
      = lunch_key (Date 2026 11 3))
  \/ (py "A" = py "J"
      /\ (py "03/11/2026-lunch", MenuEntry (py "Arroz") 850).1
         = dinner_key (Date 2026 11 3)).
Proof.
  apply (entry_to_key_value_display_key ascii_db (py "Arroz")
           (py "03" ++ [BACKSLASH] ++ py "/11" ++ [BACKSLASH] ++ py "/2026")
           (py "A") (py "850") (Date 2026 11 3)
           (py "03/11/2026-lunch", MenuEntry (py "Arroz") 850));
    vm_compute; reflexivity.
Defined.

Lemma get_date_full_form_witness :
  get_date ascii_db (strftime_full (Date 2026 11 3) (py "%d/%m/%Y"))
    quiet_world
  = (Ok (Date 2026 11 3), quiet_world).
Proof.
  apply (get_date_full_form ascii_db (Date 2026 11 3) quiet_world);
    [reflexivity | vm_compute; discriminate].
Defined.

Lemma get_date_day_month_form_witness :
  get_date ascii_db (two_digits 1 ++ [47%N] ++ two_digits 2) quiet_world
  = (Ok (Date (year (today quiet_world)) 2 1), quiet_world).
Proof.
  apply (get_date_day_month_form ascii_db 1 2 quiet_world);
    [reflexivity | vm_compute; discriminate | reflexivity].
Defined.

Lemma get_date_short_year_form_witness :
  get_date ascii_db
    (two_digits 20 ++ [47%N] ++ two_digits 7 ++ [47%N] ++ two_digits 69)
    quiet_world
  = (Ok (Date (if 69 <=? 68 then 69 + 2000 else 69 + 1900) 7 20),
     quiet_world).
Proof.
  apply (get_date_short_year_form ascii_db 20 7 69 quiet_world);
    [lia | reflexivity].
Defined.



Lemma get_date_weekday_cache_key_witness :
  exists d,
    get_date ascii_db (py "FRIDAY") quiet_world = (Ok d, quiet_world)
    /\ cache_key d 13 = cache_key (today quiet_world) 13
    /\ is_current_week d quiet_world = (Ok true, quiet_world).
Proof.
  apply (get_date_weekday_cache_key ascii_db quiet_world (py "friday")
           (py "FRIDAY") 4 13);
    [reflexivity | vm_compute; discriminate | right; reflexivity
     | reflexivity | vm_compute; discriminate].
Defined.
